(* ===== verification/_CoqProject ===== *)
-Q . S2P
Prelude.v
PyStr.v
Msgs.v
Geometry.v
Kdl.v
Tf.v
Tf2.v
Tf2Chain.v
Tf2Interp.v
Tf2Inv.v
Calibration.v
Node.v
Localisation.v
Transport.v
System.v
Scenarios.v
