(* ===== verification/Prelude.v ===== *)
(** * A verification development of [static_svea_pose.py]

   The program ([src/src/svea_sensors/scripts/static_svea_pose.py]) is one
   ROS node, the class [static_svea_gps].  Whenever an ArUco marker with a
   pre-registered world pose is observed, [aruco_callback] asks the tf2
   buffer for the pose of [base_link] in the marker frame ['aruco<id>'] at
   the message's stamp, composes it with the marker's calibrated pose in
   [map] ([tf2_geometry_msgs.do_transform_pose]), forces the height to 0 and
   publishes the result with a fixed diagonal covariance on
   [/global/set_pose] ([publish_pose], [set_covariance]).  [__init__] sets
   the hard-coded calibration lists and the variances; [run] is
   [rospy.spin()], which hands the messages to the callback one by one.

   ** Files, in dependency order
   - [Prelude] (this file): the Python exceptions the [try] block can
     raise and tf2's exceptions ([exc]), results [res] with [let*], a
     state-and-exception monad [M] whose state survives a [raise] (so side
     effects done before an exception, such as a log line or a write
     through an alias, are kept), [try_except] for [try/except Exception],
     Python's [in] ([py_in]), [list.index] ([py_index], first occurrence,
     [ValueError]) and subscripting ([py_getitem], [IndexError]), with
     their lemmas, the hint databases [reloc] and [reloc_rw] and the
     subsequence relation [subseq] with its lemmas.
   - [PyStr]: [str] on ints (the Standard Library's decimal printer) and
     on int lists, the frame name ['aruco' + str(id)] ([aruco_frame],
     lines 57, 61) and the unused [self.frame] ([node_frame], line 40).
   - [Msgs]: the message types as records, one Module per type; genpy's
     positional constructors [Vector3( *l)], [Quaternion( *l)] raise
     [TypeError] unless given 0 or one argument per field; a default
     [Quaternion] is all zeros.
   - [Geometry] ([Module Geo]): [quaternion_from_euler] (axes 'sxyz') over
     the reals with [sin]/[cos] of the half angles, the quaternion algebra
     (Hamilton product [qmul], [rotate] = the matrix of a quaternion
     applied to a vector), the specification's rigid composition
     [frame_mul], and [same_rotation] (q or -q), an [Equivalence] with
     [Proper] instances for the operations.
   - [Kdl] ([Module Kdl]): [tf2_geometry_msgs.do_transform_pose] (line 71)
     as it computes through PyKDL: [Rotation::Quaternion] (no
     normalisation), [Frame * Frame] and [Rotation::GetQuaternion] with
     its trace branch ([epsilon] = 1e-12) and three pivot branches.
   - [Tf]: the interface [TfBuffer] the node is verified against (one
     snapshot of the buffer per callback), tf2's contract [TfBufferLaws],
     and a table implementation [TableBuffer].
   - [Tf2]: tf2 itself ([tf2_ros.Buffer(rospy.Duration(10))] and its
     listener, lines 45-46; the query of line 57): [TimeCache] (a frame's
     history, newest first, pruned to [cache_time], [findClosest],
     interpolation), [BufferCore] ([setTransform] with its checks,
     [walkToTopParent], [getLatestCommonTime], [lookupTransform]) and
     [PyBuffer] (the Python wait loop, polled at 20 Hz for the 0.5 s
     timeout), an instance of [TfBuffer] and [TfBufferLaws].
   - [Tf2Chain]: the node's real query crosses two links, the camera
     mount on [/tf_static] and the detection on [/tf]: [camera_chain] is
     the buffer after the listener stored both, [walkToTopParent] run on
     it link by link, [lookupTransform] answers with the inverse of the
     composed chain; the Python wait loop read off its snapshots (the
     answer of the first polled snapshot where [can_transform] holds).
   - [Tf2Interp]: [TimeCache::getData] between stored stamps: [slerp] and
     [lerp] at ratio 0 and between their ends, [findClosest] returns only
     stored entries that surround the requested time.
   - [Tf2Inv]: [buffer_ok], the invariant of a whole [BufferCore]
     (every frame's history newest first and within [cache_time]), and
     [listen], the listener's [setTransform] over a sequence of messages.
   - [Calibration] ([Module Calibration]): the three parallel lists of
     lines 29-32, the [in] test (line 53) and the reads through
     [list.index] (lines 62-65); [Calibration.Spec] is the specification's
     table of [MarkerCalibration] records, built with a length check.
   - [Node] ([Module Node]): the node record and [init] ([__init__]);
     [world] = the received message object plus the sequence of events
     sent (log lines, publications, broadcasts); [callback_body] is the
     [try] block of lines 57-75 in the code's order (tf2 query, write of
     [frame_id] through the header shared with [adjust_orientation], log
     line, calibration reads, [Kdl.do_transform_pose], height clamp,
     publication), [aruco_callback] adds the guard and the [except]
     clause; [spin] folds the callback over a sequence of (tf2 timeline,
     message) pairs, and [main] is [init] then [spin] (lines 106-107).
     [spec_correction] is the message the specification asks for, with
     the rigid composition in place of KDL's.
   - [Localisation]: the composition of [Node], [Tf2], [Tf2Chain], [Kdl]
     and [Calibration] in the deployment the code assumes (robot at [r],
     camera mounted at [c], detection [d] of a calibrated marker).
   - [Transport] ([Module Publisher]): the [queue_size=1] publisher of
     line 37: rospy's [QueuedConnection] ([write_data] drops the oldest
     queued message when full; a writer thread [flush]es the queue) and
     [reach], the step relation of the two threads interleaved.
   - [System] ([Module System]): the whole process: [startup] is the state
     [__init__] sets up (subscription, publisher with its connections and
     [seq], tf2 buffer, listener, broadcaster); [step] is one labelled
     step of the interleaving (a [/tf] message stored by the listener, a
     subscriber connecting, [rospy.spin] delivering a marker message
     while the listener keeps storing between polls, a writer thread
     flushing its queue); [publish] is rospy's [_PublisherImpl.publish]
     (no connection: dropped; otherwise [seq += 1], the header stamped,
     [write_data] on each connection); [run] folds [step] over a schedule.
   - [Scenarios]: the specification's scenarios run on the model.

   ** What the theorems show
   - Callback (Node): the exact events and final message on every branch
     ([aruco_callback_publishes], [_unknown_marker], [_lookup_failure],
     [_overwrites_msg_frame], [_never_raises]),
     from one classification lemma [callback_outcome] proved by symbolic
     execution ([run_cb]) and a frame lemma [callback_frame] (a callback
     only appends events and does not read earlier ones); refinement of
     the specification's correction up to the sign of the quaternion
     ([aruco_callback_refines_spec]).
   - Loop (Node): planarity and shape of every publication
     ([spin_planar], [spin_well_formed]), order and at most one
     publication per message ([spin_published_stamps]) and liveness of
     [main]: every resolvable sighting is published
     ([main_publishes_resolvable]); [set_covariance_diagonal] gives the
     matrix entry by entry.
   - Transition systems: [reachable] (Node) is the node with one control
     state and a transition per delivery; by rule induction, every
     publication directly follows the log line of line 62 naming the
     table entry (index and pose) it was made from ([reachable_logged]).  [Publisher.reach] (Transport): the queue stays
     within [queue_size], the newest message is never dropped, two
     publications in a row lose the first, and the corrections on the
     wire keep the node's guarantees ([delivered_corrections]).
   - Whole process (System): in every state of every schedule the tf2
     buffer keeps its invariant and every connection has sent or queued
     only well formed planar corrections with strictly increasing header
     [seq] ([run_system_ok]); without a subscriber nothing is ever
     delivered ([run_without_subscriber]); a published correction reaches
     a connected subscriber with the next [seq] once its writer runs
     ([marker_step_delivers]); and through the whole process, from the
     listener storing an exact detection to the writer thread, the
     subscriber receives one correction, [seq] 1, that puts the robot at
     its true pose ([subscriber_receives_robot_pose]).
   - End to end (Localisation): with an exact detection of a calibrated
     marker, the node publishes one correction and it puts the robot at
     its true pose, height 0, orientation up to sign
     ([node_recovers_robot_pose]).
   - KDL (Kdl): [GetQuaternion] inverts [Rotation::Quaternion] up to sign
     ([get_quaternion_rot_of_quaternion]); KDL's product refines
     [Geo.frame_mul] ([kdl_frame_mul_refines]).
   - tf2 (Tf2, Tf2Chain, Tf2Interp, Tf2Inv): the history invariant of
     [insertData] and of the whole buffer under any sequence of
     [setTransform] ([insert_data_invariant], [listen_buffer_ok]); the
     round trips [setTransform] / [lookupTransform] and [insertData] /
     [getData]; no extrapolation between stamps
     ([get_data_no_extrapolation]) and [ExtrapolationException] outside
     them; the depth bound: a parent chain of [k] links answers when
     [k <= 1000] and raises [LookupException] when [k > 1000]
     ([lookup_transform_depth_bound]); the two-link query of the
     deployment ([lookup_transform_camera_chain]); the wait loop with the
     node's 0.5 s timeout answers what the first of the call's buffer and
     its 10 later polled snapshots that can answer gives
     ([py_lookup_half_second]).
   - Calibration: refinement of the specification's table by the code's
     parallel lists ([calib_refines]).
   - Geometry: [quat_of_euler_unit], the laws of the quaternion algebra
     and of rigid transforms (associativity, inverse).
   - Frames (PyStr): [self.frame] is no marker's frame.
   - Scenarios: marker 11 with the identity transform publishes the
     calibrated pose (-2.615, 0, 0) with the quaternion of (1.57, 0, 1.57)
     exactly: KDL's [GetQuaternion] takes its trace branch, shown from
     1.57 < pi/2 with Machin's bound on pi.

   ** Bounds and fuel
   The loops of tf2's [walkToTopParent] and [getLatestCommonTime] carry
   the code's own bound: fuel [S MAX_GRAPH_DEPTH] = 1001 iterations, after
   which the code raises, exactly where the C++ does ([++depth; if (depth
   > MAX_GRAPH_DEPTH)]); [lookup_transform_depth_bound] shows the bound is
   exactly tf2's (and it is what ends a walk on a cyclic graph), and the
   chain lemmas show a two-link walk ends in two iterations.  The Python wait loop polls
   [PyBuffer.polls] = 10 times for the 0.5 s timeout at 20 Hz; one
   snapshot of the buffer per poll ([PyBuffer.timeline]) is enough
   because the listener's callback holds the buffer's lock for a whole
   message.  The other loops ([list.index], [rospy.spin], the cache
   scans, [listen], [run]) are structural over finite lists.

   ** Modelling choices
   Python floats and C++ doubles are real numbers: the structural theorems
   (planarity, covariance, order, errors) do not depend on arithmetic; the
   geometric ones are exact over the reals.  Ids are unbounded integers
   (the message field is a [uint32]; the node only compares them); times
   are nanoseconds; header [seq] is an unbounded integer (rospy's is a
   Python int).  The wait loop's final [lookup_transform] runs on the
   snapshot where [can_transform] succeeded.

   ** Not modelled
   - Rounding: binary64 and KDL's single-precision [s] in three branches
     of [GetQuaternion]; the theorems on exact geometry would need error
     bounds instead, and the structural ones do not depend on it.
   - NaN inputs: the node never produces them from finite messages.
   - The bytes on a socket, socket errors and the closing of a
     connection, the log output's formatting, node shutdown
     ([rospy.is_shutdown] is never read by the node): the node's
     behaviour is the messages it sends, which are modelled.
   - tf2's error strings and authority bookkeeping: the node only catches
     the exception and logs nothing of it.
   - The broadcaster's transport on [/tf]: [broadcast_aruco] is modelled
     (Node), but its only call (line 76) is commented out, so no step of
     the process sends through it. *)
From Stdlib Require Import List ZArith Lia.
Import ListNotations.

Declare Scope reloc_scope.
Delimit Scope reloc_scope with reloc.
Open Scope reloc_scope.

Create HintDb reloc.
Create Rewrite HintDb reloc_rw.

(** ** Python exceptions

    The exceptions that the [try] block of [aruco_callback] can raise and
    that its [except Exception] clause catches. *)
Inductive exc : Type :=
| ValueError              (** [list.index] of an absent element *)
| IndexError              (** list subscript out of range *)
| TypeError               (** wrong number of positional arguments *)
| KeyError                (** unknown axes string of [quaternion_from_euler] *)
| LookupException         (** tf2: a frame is unknown *)
| ConnectivityException   (** tf2: the two frames are not connected *)
| ExtrapolationException  (** tf2: the time is outside the buffer *)
| InvalidArgumentException (** tf2: an empty frame id or one starting with '/' *)
| TimeoutException.       (** tf2: the wait for the transform timed out *)

(** The outcome of a Python computation: a value or a raised exception. *)
Inductive res (A : Type) : Type :=
| Ok (a : A)
| Err (e : exc).
Arguments Ok {A} a.
Arguments Err {A} e.

(** Sequencing of pure Python computations that may raise. *)
Definition rbind {A B} (r : res A) (k : A -> res B) : res B :=
  match r with
  | Ok a => k a
  | Err e => Err e
  end.

Notation "'let*' x ':=' r 'in' k" := (rbind r (fun x => k))
  (at level 10, x name, r at level 100, k at level 200) : reloc_scope.

(** ** A state and exception monad

    A computation reads and updates a state [S] and may raise.  The state
    reached when an exception is raised is kept: Python does not roll back
    the side effects (log lines, writes through aliases) done before the
    [raise]. *)
Definition M (S A : Type) : Type := S -> res A * S.

Definition ret {S A} (a : A) : M S A := fun s => (Ok a, s).

Definition bind {S A B} (m : M S A) (k : A -> M S B) : M S B :=
  fun s => match m s with
           | (Ok a, s') => k a s'
           | (Err e, s') => (Err e, s')
           end.

Definition raise {S A} (e : exc) : M S A := fun s => (Err e, s).

(** Lift a pure Python result. *)
Definition lift {S A} (r : res A) : M S A := fun s => (r, s).

Definition get {S} : M S S := fun s => (Ok s, s).

Definition modify {S} (f : S -> S) : M S unit := fun s => (Ok tt, f s).

(** [try: m  except Exception as e: h e]. *)
Definition try_except {S A} (m : M S A) (h : exc -> M S A) : M S A :=
  fun s => match m s with
           | (Err e, s') => h e s'
           | r => r
           end.

Notation "x <- m ;; k" := (bind m (fun x => k))
  (at level 61, m at next level, right associativity) : reloc_scope.
Notation "m ;;; k" := (bind m (fun _ => k))
  (at level 61, right associativity) : reloc_scope.

(** ** Python lists

    [x in l], [l.index(x)] and [l[i]] on the lists the node keeps.  The
    indices produced by [list.index] are never negative, so subscripts are
    naturals; Python raises [IndexError] at and beyond the length. *)
Section PyList.
Context {A : Type} (eqb : A -> A -> bool).

Definition py_in (x : A) (l : list A) : bool := existsb (eqb x) l.

Fixpoint index_of (x : A) (l : list A) : option nat :=
  match l with
  | [] => None
  | y :: l' => if eqb x y then Some 0 else option_map S (index_of x l')
  end.

(** [l.index(x)]: the first position of [x], or [ValueError]. *)
Definition py_index (l : list A) (x : A) : res nat :=
  match index_of x l with
  | Some i => Ok i
  | None => Err ValueError
  end.
End PyList.

(** [l[i]] for [i >= 0]. *)
Definition py_getitem {A} (l : list A) (i : nat) : res A :=
  match nth_error l i with
  | Some a => Ok a
  | None => Err IndexError
  end.

(** [l1] is a subsequence of [l2]: the order of [l2] is kept. *)
Inductive subseq {A : Type} : list A -> list A -> Prop :=
| subseq_nil : subseq [] []
| subseq_skip x l1 l2 : subseq l1 l2 -> subseq l1 (x :: l2)
| subseq_take x l1 l2 : subseq l1 l2 -> subseq (x :: l1) (x :: l2).

(** ** Tactics *)

(** Run the monad one step: unfold the combinators applied to a state. *)
Ltac monad_simpl :=
  cbv beta iota delta [bind ret raise lift get modify try_except] in *.

(** Decompose a match on a result in the goal, keeping the equation. *)
Ltac destruct_res :=
  match goal with
  | |- context [match ?r with Ok _ => _ | Err _ => _ end] =>
      let E := fresh "E" in destruct r eqn:E
  end.

(** ** Laws of the monad *)
Section MonadLaws.
Context {S : Type}.

Lemma bind_ret_l {A B} (a : A) (k : A -> M S B) s :
  bind (ret a) k s = k a s.
Proof. reflexivity. Qed.

Lemma bind_assoc {A B C} (m : M S A) (k1 : A -> M S B) (k2 : B -> M S C) s :
  bind (bind m k1) k2 s = bind m (fun a => bind (k1 a) k2) s.
Proof. unfold bind. destruct (m s) as [[a|e] s']; reflexivity. Qed.

Lemma bind_Ok {A B} (m : M S A) (k : A -> M S B) s a s' :
  m s = (Ok a, s') -> bind m k s = k a s'.
Proof. intros H. unfold bind. now rewrite H. Qed.

Lemma bind_Err {A B} (m : M S A) (k : A -> M S B) s e s' :
  m s = (Err e, s') -> bind m k s = (Err e, s').
Proof. intros H. unfold bind. now rewrite H. Qed.

Lemma lift_Ok {A B} (a : A) (k : A -> M S B) s :
  bind (lift (Ok a)) k s = k a s.
Proof. reflexivity. Qed.

Lemma lift_Err {A B} e (k : A -> M S B) s :
  bind (lift (Err e)) k s = (Err e, s).
Proof. reflexivity. Qed.

Lemma try_except_Ok {A} (m : M S A) h s a s' :
  m s = (Ok a, s') -> try_except m h s = (Ok a, s').
Proof. intros H. unfold try_except. now rewrite H. Qed.

Lemma try_except_Err {A} (m : M S A) h s e s' :
  m s = (Err e, s') -> try_except m h s = h e s'.
Proof. intros H. unfold try_except. now rewrite H. Qed.
End MonadLaws.

#[export] Hint Rewrite @bind_ret_l @bind_assoc @lift_Ok @lift_Err : reloc_rw.

(** ** Facts on the Python list operations *)
Section PyListFacts.
Context {A : Type} (eqb : A -> A -> bool).
Hypothesis eqb_spec : forall x y, reflect (x = y) (eqb x y).

Lemma index_of_Some x l i :
  index_of eqb x l = Some i ->
  nth_error l i = Some x /\ forall j, j < i -> nth_error l j <> Some x.
Proof.
  revert i. induction l as [|y l IH]; intros i H; simpl in H; [discriminate|].
  destruct (eqb_spec x y) as [->|Hne].
  - injection H as <-. split; [reflexivity | intros j Hj; lia].
  - destruct (index_of eqb x l) as [k|] eqn:E; simpl in H; [|discriminate].
    injection H as <-. destruct (IH k eq_refl) as [Hk Hfirst].
    split; [exact Hk|].
    intros [|j] Hj; simpl; [congruence|]. apply Hfirst. lia.
Qed.

Lemma index_of_None x l : index_of eqb x l = None <-> ~ In x l.
Proof.
  induction l as [|y l IH]; simpl; [tauto|].
  destruct (eqb_spec x y) as [->|Hne]; [split; [discriminate|tauto]|].
  destruct (index_of eqb x l) as [k|] eqn:E; simpl.
  - split; [discriminate|]. intros Hn. exfalso. apply Hn. right.
    apply (nth_error_In _ k). apply (proj1 (index_of_Some x l k E)).
  - split; [|reflexivity]. intros _ [Hy|Hin]; [congruence|]. now apply IH.
Qed.

Lemma py_in_iff x l : py_in eqb x l = true <-> In x l.
Proof.
  unfold py_in. rewrite existsb_exists. split.
  - intros (y & Hy & Hxy). now destruct (eqb_spec x y) as [->|].
  - intros Hx. exists x. split; [exact Hx|]. now destruct (eqb_spec x x).
Qed.

Lemma py_index_nth l x i :
  py_index eqb l x = Ok i -> nth_error l i = Some x.
Proof.
  unfold py_index. destruct (index_of eqb x l) eqn:E; intros H; [|discriminate].
  injection H as <-. exact (proj1 (index_of_Some x l _ E)).
Qed.

Lemma py_index_lt l x i : py_index eqb l x = Ok i -> i < length l.
Proof. intros H. apply nth_error_Some. now rewrite (py_index_nth l x i H). Qed.

(** [l.index(x)] succeeds exactly on the members of [l]. *)
Lemma py_index_in l x :
  py_in eqb x l = true -> exists i, py_index eqb l x = Ok i.
Proof.
  intros Hin. apply py_in_iff in Hin. unfold py_index.
  destruct (index_of eqb x l) as [i|] eqn:E; [eauto|].
  exfalso. exact (proj1 (index_of_None x l) E Hin).
Qed.

Lemma py_index_not_in l x :
  py_in eqb x l = false -> py_index eqb l x = Err ValueError.
Proof.
  intros Hn. unfold py_index.
  destruct (index_of eqb x l) as [i|] eqn:E; [|reflexivity].
  exfalso. assert (Hin : In x l)
    by exact (nth_error_In _ _ (proj1 (index_of_Some x l i E))).
  apply py_in_iff in Hin. congruence.
Qed.

(** On a list without duplicates, [l.index] inverts subscripting. *)
Lemma py_index_NoDup l i x :
  NoDup l -> nth_error l i = Some x -> py_index eqb l x = Ok i.
Proof.
  intros Hnd Hi. assert (Hin : py_in eqb x l = true)
    by (apply py_in_iff; exact (nth_error_In _ _ Hi)).
  destruct (py_index_in l x Hin) as [j Hj]. rewrite Hj. f_equal.
  apply (proj1 (NoDup_nth_error l) Hnd j i); [apply (py_index_lt l x j Hj)|].
  now rewrite (py_index_nth l x j Hj), Hi.
Qed.
End PyListFacts.

Lemma py_getitem_lt {A} (l : list A) i :
  i < length l -> exists a, py_getitem l i = Ok a /\ nth_error l i = Some a.
Proof.
  intros Hi. unfold py_getitem. destruct (nth_error l i) as [a|] eqn:E.
  - eauto.
  - apply nth_error_None in E. lia.
Qed.

Lemma py_getitem_ge {A} (l : list A) i :
  length l <= i -> py_getitem l i = Err IndexError.
Proof. intros Hi. unfold py_getitem. now rewrite (proj2 (nth_error_None l i) Hi). Qed.

Lemma py_getitem_nth {A} (l : list A) i a :
  nth_error l i = Some a -> py_getitem l i = Ok a.
Proof. intros H. unfold py_getitem. now rewrite H. Qed.

#[export] Hint Resolve py_getitem_nth py_getitem_ge : reloc.

(** ** Subsequences *)
#[export] Hint Constructors subseq : reloc.

Lemma subseq_nil_l {A} (l : list A) : subseq [] l.
Proof. induction l; auto with reloc. Qed.

Lemma subseq_refl {A} (l : list A) : subseq l l.
Proof. induction l; auto with reloc. Qed.

Lemma subseq_app {A} (l1 l2 l3 l4 : list A) :
  subseq l1 l2 -> subseq l3 l4 -> subseq (l1 ++ l3) (l2 ++ l4).
Proof. induction 1; intros; simpl; auto with reloc. Qed.

(** Dropping an element keeps a subsequence. *)
Lemma subseq_remove {A} (l1 l2 w : list A) x :
  subseq (l1 ++ x :: l2) w -> subseq (l1 ++ l2) w.
Proof.
  intros H. remember (l1 ++ x :: l2) as l eqn:E. revert l1 E.
  induction H as [|y l w H IH|y l w H IH]; intros l1 E.
  - destruct l1; discriminate.
  - constructor. now apply IH.
  - destruct l1 as [|z l1]; injection E as -> ->; cbn; [now constructor | constructor; now apply IH].
Qed.

Lemma subseq_prefix {A} (l1 l2 w : list A) : subseq (l1 ++ l2) w -> subseq l1 w.
Proof.
  induction l2 as [|x l2 IH] using rev_ind; [now rewrite app_nil_r|].
  intros H. apply IH. rewrite app_assoc in H. rewrite <- (app_nil_r (l1 ++ l2)).
  exact (subseq_remove _ _ _ _ H).
Qed.

Lemma subseq_Forall {A} (P : A -> Prop) l w : subseq l w -> Forall P w -> Forall P l.
Proof. induction 1; intros HF; [constructor | inversion HF; auto | inversion HF; auto]. Qed.

Lemma subseq_snoc {A} (l w : list A) x : subseq l w -> subseq (l ++ [x]) (w ++ [x]).
Proof. intros H. apply subseq_app; [exact H | apply subseq_refl]. Qed.

#[export] Hint Resolve subseq_nil_l subseq_refl subseq_app subseq_snoc : reloc.
