(* ===== verification/PyStr.v ===== *)
(** Python's [str] on the ints and int lists the node formats, and the tf
    frame names ['aruco' + str(...)] it builds from them (lines 40, 57 and
    61 of [static_svea_pose.py]).  [str] on an int is the decimal printer
    of the Standard Library, which writes the digits without leading zeros
    and a leading ['-'] for negative numbers, as Python does. *)
From Stdlib Require Import List ZArith Ascii String DecimalString DecimalZ.
From S2P Require Import Prelude.
Import ListNotations.
Open Scope string_scope.

Module PyStr.

(** [str(n)] for a Python int. *)
Definition str_int (n : Z) : string := NilEmpty.string_of_int (Z.to_int n).

(** [int(s)] restricted to the strings [str_int] produces. *)
Definition int_of_str (s : string) : option Z :=
  option_map Z.of_int (NilEmpty.int_of_string s).

(** [sep.join(l)]. *)
Fixpoint join (sep : string) (l : list string) : string :=
  match l with
  | [] => EmptyString
  | [s] => s
  | s :: l' => s ++ sep ++ join sep l'
  end.

(** [str(l)] for a list of ints: ['[' + ', '.join(map(repr, l)) + ']']. *)
Definition str_int_list (l : list Z) : string :=
  "[" ++ join ", " (map str_int l) ++ "]".

(** The tf frame of marker [id]: ['aruco' + str(msg.id)]. *)
Definition aruco_frame (id : Z) : string := "aruco" ++ str_int id.

(** [self.frame = 'aruco' + str(self.aruco_id)] (line 40): the list is
    printed whole. *)
Definition node_frame (ids : list Z) : string := "aruco" ++ str_int_list ids.

(** The marker id a frame name ['aruco<digits>'] stands for. *)
Definition marker_id_of_frame (f : string) : option Z :=
  if String.prefix "aruco" f
  then int_of_str (substring 5 (String.length f - 5) f)
  else None.

(** ** Lemmas *)

Lemma str_int_roundtrip_lemma n : int_of_str (str_int n) = Some n.
Proof.
  unfold int_of_str, str_int. rewrite NilEmpty.isi. simpl. now rewrite of_to.
Qed.

Lemma str_int_inj n m : str_int n = str_int m -> n = m.
Proof.
  intros H. apply (f_equal int_of_str) in H.
  rewrite !str_int_roundtrip_lemma in H. congruence.
Qed.

(** The printed int is empty or starts with a digit or ['-']: never with
    ['[']. *)
Lemma str_int_not_bracket n s : str_int n <> String "["%char s.
Proof.
  unfold str_int. destruct (Z.to_int n) as [u|u]; simpl; [|discriminate].
  destruct u; simpl; discriminate.
Qed.

Lemma substring_0_length s : substring 0 (String.length s) s = s.
Proof. induction s as [|c s IH]; cbn; [reflexivity|]. now rewrite IH. Qed.

Lemma prefix_empty s : String.prefix EmptyString s = true.
Proof. now destruct s. Qed.

(** ** Properties *)

(** Distinct marker ids give distinct tf frames ['aruco' + str(id)],
    so the callback queries the frame of the marker it saw. *)
Lemma aruco_frame_inj i j : aruco_frame i = aruco_frame j -> i = j.
Proof. unfold aruco_frame. simpl. intros H. injection H. apply str_int_inj. Qed.

(** The frame name is a round trip: the id is read back from it. *)
Lemma marker_id_of_aruco_frame id : marker_id_of_frame (aruco_frame id) = Some id.
Proof.
  unfold marker_id_of_frame, aruco_frame. cbn -[str_int].
  rewrite prefix_empty, PeanoNat.Nat.sub_0_r, substring_0_length. apply str_int_roundtrip_lemma.
Qed.

(** C23: [self.frame] (line 40) prints the whole id list, giving
    ['aruco[11, 13]']: it is the frame of no marker. *)
Theorem node_frame_not_marker_frame ids id : node_frame ids <> aruco_frame id.
Proof.
  unfold node_frame, aruco_frame, str_int_list. cbn -[str_int join]. intros H.
  injection H as H. exact (str_int_not_bracket id _ (eq_sym H)).
Qed.

Example node_frame_default : node_frame [11; 13]%Z = "aruco[11, 13]".
Proof. reflexivity. Qed.

(** ** Witnesses *)

Lemma node_frame_not_marker_frame_witness : node_frame [11; 13]%Z <> aruco_frame 11.
Proof. apply node_frame_not_marker_frame. Defined.

End PyStr.
