(* ===== verification/Msgs.v ===== *)
(** The ROS messages the node reads and writes, as records with the
    fields of their [.msg] definitions: [rospy.Time] and [rospy.Duration],
    [std_msgs/Header], the [geometry_msgs] types ([Vector3], [Quaternion],
    [Pose], [Transform], [TransformStamped], [PoseStamped],
    [PoseWithCovariance], [PoseWithCovarianceStamped]) and
    [aruco_msgs/Marker].  [float64] fields are real numbers; [Point] has
    the fields of [Vector3] and the node uses one for the other (line 68),
    so both are [Vector3.t].  A genpy message built with positional
    arguments ([Vector3( *l)], line 63) takes no argument (every field at
    its default) or exactly one per field, and raises [TypeError]
    otherwise; [vector3_of_args] and [quaternion_of_args] model that. *)
From Stdlib Require Import List ZArith String Reals.
From S2P Require Import Prelude.
Import ListNotations.

Module Time.
(** [rospy.Time] and [rospy.Duration]: seconds and nanoseconds. *)
Record t := mk { secs : Z; nsecs : Z }.
Definition zero : t := mk 0 0.
End Time.

(** [rospy.Duration(0.5)] (line 57) and [rospy.Duration(10)] (line 45). *)
Definition duration_half_second : Time.t := Time.mk 0 500000000.
Definition duration_ten_seconds : Time.t := Time.mk 10 0.

Module Header.
Record t := mk { seq : Z; stamp : Time.t; frame_id : string }.
Definition default : t := mk 0 Time.zero EmptyString.
End Header.

Module Vector3.
Record t := mk { x : R; y : R; z : R }.
Definition default : t := mk 0 0 0.
End Vector3.

Module Quaternion.
Record t := mk { x : R; y : R; z : R; w : R }.
(** The default message quaternion is all zeros, not the identity. *)
Definition default : t := mk 0 0 0 0.
End Quaternion.

Module Pose.
Record t := mk { position : Vector3.t; orientation : Quaternion.t }.
Definition default : t := mk Vector3.default Quaternion.default.
End Pose.

Module Transform.
Record t := mk { translation : Vector3.t; rotation : Quaternion.t }.
Definition default : t := mk Vector3.default Quaternion.default.
End Transform.

Module TransformStamped.
Record t := mk { header : Header.t; child_frame_id : string; transform : Transform.t }.
Definition default : t := mk Header.default EmptyString Transform.default.
End TransformStamped.

Module PoseStamped.
Record t := mk { header : Header.t; pose : Pose.t }.
Definition default : t := mk Header.default Pose.default.
End PoseStamped.

Module PoseWithCovariance.
Record t := mk { pose : Pose.t; covariance : list R }.
Definition default : t := mk Pose.default (repeat 0%R 36).
End PoseWithCovariance.

Module PoseWithCovarianceStamped.
Record t := mk { header : Header.t; pose : PoseWithCovariance.t }.
Definition default : t := mk Header.default PoseWithCovariance.default.
End PoseWithCovarianceStamped.

Module Marker.
(** [aruco_msgs/Marker]: [header], [uint32 id], [pose], [confidence]. *)
Record t := mk { header : Header.t; id : Z; pose : PoseWithCovariance.t; confidence : R }.
End Marker.

(** [Vector3( *args)]. *)
Definition vector3_of_args (args : list R) : res Vector3.t :=
  match args with
  | [] => Ok Vector3.default
  | [a; b; c] => Ok (Vector3.mk a b c)
  | _ => Err TypeError
  end.

(** [Quaternion( *args)], fields in the order [x, y, z, w]. *)
Definition quaternion_of_args (args : list R) : res Quaternion.t :=
  match args with
  | [] => Ok Quaternion.default
  | [a; b; c; d] => Ok (Quaternion.mk a b c d)
  | _ => Err TypeError
  end.
