(* ===== verification/Geometry.v ===== *)
(** Quaternion algebra and [tf.transformations.quaternion_from_euler]
    (line 64), library code modelled from the library's definition, and the
    rigid composition of poses the specification describes ([frame_mul]);
    [Kdl] models how [tf2_geometry_msgs.do_transform_pose] (line 71)
    computes it:
    - [quaternion_from_euler(ai, aj, ak)] with its default axes ['sxyz']
      halves the three angles and returns the array [[x, y, z, w]] of the
      branch [repetition = parity = frame = 0];
    - [rotate q v] is the matrix KDL builds from [q] applied to [v], and
      [qmul] the Hamilton product; [frame_mul t p] places the pose [p] by
      the transform [t]: [t.p + M(t.q) p.p] with orientation [t.q * p.q];
    - [same_rotation p q]: [q] is [p] or [-p], the same rotation; it is an
      [Equivalence] and [rotate], [qmul] and [qnorm2] respect it.
    Floats are real numbers: rounding is not modelled. *)
From Stdlib Require Import List Reals Lra Setoid Morphisms.
From S2P Require Import Prelude Msgs.
Import ListNotations.
Open Scope R_scope.

(** Destruct every geometry record in the context and close the component
    equations with [ring]. *)
Ltac geo_ring :=
  repeat match goal with
         | q : Quaternion.t |- _ => destruct q
         | v : Vector3.t |- _ => destruct v
         | p : Pose.t |- _ => destruct p
         | t : Transform.t |- _ => destruct t
         end;
  cbv beta iota zeta delta -[Rplus Rmult Rminus Ropp Rinv Rdiv sin cos IZR Rsqr];
  repeat match goal with
         | |- Vector3.mk _ _ _ = Vector3.mk _ _ _ => f_equal
         | |- Quaternion.mk _ _ _ _ = Quaternion.mk _ _ _ _ => f_equal
         | |- Pose.mk _ _ = Pose.mk _ _ => f_equal
         | |- Transform.mk _ _ = Transform.mk _ _ => f_equal
         end;
  ring.

Module Geo.

Definition vadd (a b : Vector3.t) : Vector3.t :=
  Vector3.mk (Vector3.x a + Vector3.x b) (Vector3.y a + Vector3.y b)
             (Vector3.z a + Vector3.z b).

(** [PyKDL.Rotation.Quaternion(x, y, z, w) * v]. *)
Definition rotate (q : Quaternion.t) (v : Vector3.t) : Vector3.t :=
  let '(Quaternion.mk x y z w) := q in
  let '(Vector3.mk a b c) := v in
  let x2 := x * x in let y2 := y * y in let z2 := z * z in let w2 := w * w in
  Vector3.mk
    ((w2 + x2 - y2 - z2) * a + (2 * x * y - 2 * w * z) * b + (2 * x * z + 2 * w * y) * c)
    ((2 * x * y + 2 * w * z) * a + (w2 - x2 + y2 - z2) * b + (2 * y * z - 2 * w * x) * c)
    ((2 * x * z - 2 * w * y) * a + (2 * y * z + 2 * w * x) * b + (w2 - x2 - y2 + z2) * c).

(** The Hamilton product, [w] the scalar part. *)
Definition qmul (p q : Quaternion.t) : Quaternion.t :=
  let '(Quaternion.mk px py pz pw) := p in
  let '(Quaternion.mk qx qy qz qw) := q in
  Quaternion.mk
    (pw * qx + px * qw + py * qz - pz * qy)
    (pw * qy - px * qz + py * qw + pz * qx)
    (pw * qz + px * qy - py * qx + pz * qw)
    (pw * qw - px * qx - py * qy - pz * qz).

Definition qidentity : Quaternion.t := Quaternion.mk 0 0 0 1.

Definition qnorm2 (q : Quaternion.t) : R :=
  let '(Quaternion.mk x y z w) := q in x * x + y * y + z * z + w * w.

Definition vnorm2 (v : Vector3.t) : R :=
  let '(Vector3.mk a b c) := v in a * a + b * b + c * c.

(** The rigid composition [t * p] of a transform and a pose the
    specification describes; [Kdl.kdl_frame_mul] is how KDL computes it. *)
Definition frame_mul (t : Transform.t) (p : Pose.t) : Pose.t :=
  Pose.mk (vadd (Transform.translation t) (rotate (Transform.rotation t) (Pose.position p)))
          (qmul (Transform.rotation t) (Pose.orientation p)).

(** Composition of two transforms, [a * b]. *)
Definition transform_mul (a b : Transform.t) : Transform.t :=
  Transform.mk (vadd (Transform.translation a) (rotate (Transform.rotation a) (Transform.translation b)))
               (qmul (Transform.rotation a) (Transform.rotation b)).

Definition identity_pose : Pose.t := Pose.mk Vector3.default qidentity.
Definition identity_transform : Transform.t := Transform.mk Vector3.default qidentity.

(** The pose a transform places its child frame at. *)
Definition pose_of_transform (t : Transform.t) : Pose.t :=
  Pose.mk (Transform.translation t) (Transform.rotation t).

(** The opposite quaternion: the same rotation. *)
Definition qneg (q : Quaternion.t) : Quaternion.t :=
  let '(Quaternion.mk x y z w) := q in Quaternion.mk (- x) (- y) (- z) (- w).

(** Two quaternions of the same rotation: [q] and [-q] give KDL the same
    matrix, and [GetQuaternion] returns either. *)
Definition same_rotation (p q : Quaternion.t) : Prop := q = p \/ q = qneg p.

(** The conjugate [(-x, -y, -z, w)], the inverse of a unit quaternion. *)
Definition qconj (q : Quaternion.t) : Quaternion.t :=
  let '(Quaternion.mk x y z w) := q in Quaternion.mk (- x) (- y) (- z) w.

Definition vneg (v : Vector3.t) : Vector3.t :=
  let '(Vector3.mk a b c) := v in Vector3.mk (- a) (- b) (- c).

(** The inverse of a rigid transform: [(-M(q)^T v, q^-1)]. *)
Definition transform_inverse (t : Transform.t) : Transform.t :=
  let iq := qconj (Transform.rotation t) in
  Transform.mk (rotate iq (vneg (Transform.translation t))) iq.

(** [quaternion_from_euler(ai, aj, ak)] with axes ['sxyz']: the array
    [[x, y, z, w]]. *)
Definition quaternion_from_euler (ai aj ak : R) : list R :=
  let ai := ai / 2 in let aj := aj / 2 in let ak := ak / 2 in
  let ci := cos ai in let si := sin ai in
  let cj := cos aj in let sj := sin aj in
  let ck := cos ak in let sk := sin ak in
  let cc := ci * ck in let cs := ci * sk in
  let sc := si * ck in let ss := si * sk in
  [cj * sc - sj * cs; cj * ss + sj * cc; cj * cs - sj * sc; cj * cc + sj * ss].

(** [quaternion_from_euler( *args)]: three angles; a fourth argument is
    taken for [axes], and a number there fails the lookup of
    [_TUPLE2AXES] with [KeyError]; any other count is a [TypeError]. *)
Definition quaternion_from_euler_args (args : list R) : res (list R) :=
  match args with
  | [ai; aj; ak] => Ok (quaternion_from_euler ai aj ak)
  | [_; _; _; _] => Err KeyError
  | _ => Err TypeError
  end.

(** The quaternion record of three Euler angles. *)
Definition quat_of_euler (ai aj ak : R) : Quaternion.t :=
  match quaternion_of_args (quaternion_from_euler ai aj ak) with
  | Ok q => q
  | Err _ => Quaternion.default
  end.

(** ** Laws *)

Lemma quaternion_of_args_euler ai aj ak :
  quaternion_of_args (quaternion_from_euler ai aj ak) = Ok (quat_of_euler ai aj ak).
Proof. reflexivity. Qed.

Lemma qmul_qidentity_r q : qmul q qidentity = q.
Proof. geo_ring. Qed.

Lemma qmul_qidentity_l q : qmul qidentity q = q.
Proof. geo_ring. Qed.

Lemma qmul_assoc p q r : qmul p (qmul q r) = qmul (qmul p q) r.
Proof. geo_ring. Qed.

Lemma rotate_zero q : rotate q Vector3.default = Vector3.default.
Proof. geo_ring. Qed.

Lemma rotate_qidentity v : rotate qidentity v = v.
Proof. geo_ring. Qed.

Lemma vadd_zero_r v : vadd v Vector3.default = v.
Proof. geo_ring. Qed.

Lemma vadd_zero_l v : vadd Vector3.default v = v.
Proof. geo_ring. Qed.

(** KDL's matrix of a product is the product of the matrices. *)
Lemma rotate_qmul p q v : rotate (qmul p q) v = rotate p (rotate q v).
Proof. geo_ring. Qed.

Lemma rotate_vadd q u v : rotate q (vadd u v) = vadd (rotate q u) (rotate q v).
Proof. geo_ring. Qed.

Lemma qnorm2_qmul_lemma p q : qnorm2 (qmul p q) = qnorm2 p * qnorm2 q.
Proof. geo_ring. Qed.

Lemma vnorm2_rotate_lemma q v : vnorm2 (rotate q v) = qnorm2 q * qnorm2 q * vnorm2 v.
Proof. geo_ring. Qed.

Lemma quat_of_euler_norm2 ai aj ak :
  qnorm2 (quat_of_euler ai aj ak) =
  ((sin (ai / 2))² + (cos (ai / 2))²) * ((sin (aj / 2))² + (cos (aj / 2))²)
  * ((sin (ak / 2))² + (cos (ak / 2))²).
Proof. cbn. unfold Rsqr. ring. Qed.

(** The rigid composition of the specification ([frame_mul]) has the
    laws of frame products; [Kdl] relates KDL's computation to it. *)
Lemma frame_mul_identity_transform p : frame_mul identity_transform p = p.
Proof. geo_ring. Qed.

Lemma frame_mul_identity_pose t : frame_mul t identity_pose = pose_of_transform t.
Proof. geo_ring. Qed.

Lemma frame_mul_transform_mul a b p :
  frame_mul (transform_mul a b) p = frame_mul a (frame_mul b p).
Proof. geo_ring. Qed.

Lemma qnorm2_qneg q : qnorm2 (qneg q) = qnorm2 q.
Proof. geo_ring. Qed.

Lemma qnorm2_quat_of_euler ai aj ak : qnorm2 (quat_of_euler ai aj ak) = 1.
Proof. rewrite quat_of_euler_norm2, !sin2_cos2. ring. Qed.

Lemma qneg_involutive q : qneg (qneg q) = q.
Proof. geo_ring. Qed.

Lemma rotate_qneg q v : rotate (qneg q) v = rotate q v.
Proof. geo_ring. Qed.

Lemma qmul_qneg_l p q : qmul (qneg p) q = qneg (qmul p q).
Proof. geo_ring. Qed.

Lemma qmul_qneg_r p q : qmul p (qneg q) = qneg (qmul p q).
Proof. geo_ring. Qed.

(** Rigid transforms form a group: [transform_mul] is associative, with
    [identity_transform] and, on unit quaternions, [transform_inverse]. *)
Lemma transform_mul_assoc a b c :
  transform_mul a (transform_mul b c) = transform_mul (transform_mul a b) c.
Proof. geo_ring. Qed.

Lemma transform_mul_identity_r t : transform_mul t identity_transform = t.
Proof. geo_ring. Qed.

Lemma qmul_qconj q : qmul q (qconj q) = Quaternion.mk 0 0 0 (qnorm2 q).
Proof. geo_ring. Qed.

Lemma qnorm2_qconj q : qnorm2 (qconj q) = qnorm2 q.
Proof. geo_ring. Qed.

Lemma transform_mul_inverse_r t :
  qnorm2 (Transform.rotation t) = 1 -> transform_mul t (transform_inverse t) = identity_transform.
Proof.
  destruct t as [v q]. cbn [Transform.rotation]. intros Hq. unfold transform_mul, transform_inverse.
  cbn [Transform.translation Transform.rotation].
  rewrite <- rotate_qmul, qmul_qconj, Hq. fold qidentity. rewrite rotate_qidentity.
  unfold identity_transform. f_equal. destruct v. cbv -[Rplus Ropp Rmult]. f_equal; ring.
Qed.

Lemma frame_mul_pose_of_transform a b :
  frame_mul a (pose_of_transform b) = pose_of_transform (transform_mul a b).
Proof. geo_ring. Qed.

(** [same_rotation] is an equivalence, and the operations of the model
    respect it. *)
#[global] Instance same_rotation_equiv : Equivalence same_rotation.
Proof.
  unfold same_rotation. split.
  - now left.
  - intros p q [->| ->]; [now left | right; now rewrite qneg_involutive].
  - intros p q r [->| ->] [->| ->]; rewrite ?qneg_involutive; auto.
Qed.

#[global] Instance rotate_proper : Proper (same_rotation ==> eq ==> eq) rotate.
Proof. intros p q [->| ->] v _ <-; [reflexivity | symmetry; apply rotate_qneg]. Qed.

#[global] Instance qmul_proper : Proper (same_rotation ==> same_rotation ==> same_rotation) qmul.
Proof.
  intros p p' [->| ->] q q' [->| ->]; unfold same_rotation;
    rewrite ?qmul_qneg_l, ?qmul_qneg_r, ?qneg_involutive; auto.
Qed.

#[global] Instance qnorm2_proper : Proper (same_rotation ==> eq) qnorm2.
Proof. intros p q [->| ->]; [reflexivity | symmetry; apply qnorm2_qneg]. Qed.

(** ** Properties *)

(** C15: [quaternion_from_euler] returns a unit quaternion for every triple
    of angles. *)
Theorem quat_of_euler_unit ai aj ak : qnorm2 (quat_of_euler ai aj ak) = 1.
Proof. rewrite quat_of_euler_norm2, !sin2_cos2. ring. Qed.

(** Zero angles give the identity rotation. *)
Lemma quat_of_euler_zero : quat_of_euler 0 0 0 = qidentity.
Proof.
  unfold quat_of_euler, quaternion_from_euler. cbn.
  replace (0 / 2) with 0 by field. rewrite sin_0, cos_0. unfold qidentity. f_equal; ring.
Qed.

(** A pure yaw is a rotation about the vertical axis by half the angle:
    [(0, 0, sin(yaw/2), cos(yaw/2))]. *)
Lemma quat_of_euler_yaw yaw :
  quat_of_euler 0 0 yaw = Quaternion.mk 0 0 (sin (yaw / 2)) (cos (yaw / 2)).
Proof.
  unfold quat_of_euler, quaternion_from_euler. cbn.
  replace (0 / 2) with 0 by field. rewrite sin_0, cos_0. f_equal; ring.
Qed.

End Geo.

#[export] Hint Rewrite Geo.qmul_qidentity_r Geo.qmul_qidentity_l Geo.rotate_zero
  Geo.rotate_qidentity Geo.vadd_zero_r Geo.vadd_zero_l : reloc_rw.

