(* ===== verification/Kdl.v ===== *)
(** What [tf2_geometry_msgs.do_transform_pose(pose, transform)] (line 71)
    computes, through the Orocos KDL library it calls:

    - [transform_to_kdl] builds [KDL::Frame(Rotation::Quaternion(x, y, z, w),
      Vector(x, y, z))] from the transform, and the pose is converted the
      same way;
    - [Rotation::Quaternion] fills the 3x3 matrix [w²+x²-y²-z², 2xy-2wz, ...]
      without normalising ([rot_of_quaternion]);
    - [Frame::operator*] is [Frame(lhs.M * rhs.M, lhs.M * rhs.p + lhs.p)]
      ([frame_mul]);
    - the result's orientation is [Rotation::GetQuaternion] of the product
      matrix ([get_quaternion]): if the trace exceeds [1e-12] the scalar
      part is [0.25 / s] with [s = 0.5 / sqrt(trace + 1)], otherwise the
      largest diagonal entry picks one of three other formulas.

    KDL computes these in doubles (and, in some versions, [s] of the three
    last branches in a [float]); here they are real numbers.

    The theorems relate this computation to the specification's rigid
    composition [Geo.frame_mul]: [GetQuaternion] inverts
    [Rotation::Quaternion] on unit quaternions up to sign
    ([get_quaternion_rot_of_quaternion]), so for unit inputs KDL's product
    has the position of [Geo.frame_mul] and its orientation up to sign
    ([kdl_frame_mul_refines]). *)
From Stdlib Require Import List Bool String Reals Lra Psatz Setoid Morphisms.
From S2P Require Import Prelude Msgs Geometry.
Import ListNotations.
Open Scope R_scope.

Module Kdl.

(** [KDL::Rotation]: the matrix [data], row-major. *)
Record rotation := mk_rot {
  m00 : R; m01 : R; m02 : R;
  m10 : R; m11 : R; m12 : R;
  m20 : R; m21 : R; m22 : R }.

(** [KDL::Frame]: rotation [M] and origin [p]. *)
Record frame := mk_frame { M : rotation; p : Vector3.t }.

(** [Rotation::Quaternion(x, y, z, w)]. *)
Definition rot_of_quaternion (q : Quaternion.t) : rotation :=
  let '(Quaternion.mk x y z w) := q in
  let x2 := x * x in let y2 := y * y in let z2 := z * z in let w2 := w * w in
  mk_rot (w2 + x2 - y2 - z2) (2 * x * y - 2 * w * z) (2 * x * z + 2 * w * y)
         (2 * x * y + 2 * w * z) (w2 - x2 + y2 - z2) (2 * y * z - 2 * w * x)
         (2 * x * z - 2 * w * y) (2 * y * z + 2 * w * x) (w2 - x2 - y2 + z2).

(** [Rotation * Rotation]. *)
Definition rot_mul (a b : rotation) : rotation :=
  mk_rot (m00 a * m00 b + m01 a * m10 b + m02 a * m20 b)
         (m00 a * m01 b + m01 a * m11 b + m02 a * m21 b)
         (m00 a * m02 b + m01 a * m12 b + m02 a * m22 b)
         (m10 a * m00 b + m11 a * m10 b + m12 a * m20 b)
         (m10 a * m01 b + m11 a * m11 b + m12 a * m21 b)
         (m10 a * m02 b + m11 a * m12 b + m12 a * m22 b)
         (m20 a * m00 b + m21 a * m10 b + m22 a * m20 b)
         (m20 a * m01 b + m21 a * m11 b + m22 a * m21 b)
         (m20 a * m02 b + m21 a * m12 b + m22 a * m22 b).

(** [Rotation * Vector]. *)
Definition rot_apply (r : rotation) (v : Vector3.t) : Vector3.t :=
  let '(Vector3.mk a b c) := v in
  Vector3.mk (m00 r * a + m01 r * b + m02 r * c)
             (m10 r * a + m11 r * b + m12 r * c)
             (m20 r * a + m21 r * b + m22 r * c).

(** [Frame * Frame]. *)
Definition frame_mul (a b : frame) : frame :=
  mk_frame (rot_mul (M a) (M b)) (Geo.vadd (rot_apply (M a) (p b)) (p a)).

(** The strict comparison [a > b] of the C++ code. *)
Definition gtb (a b : R) : bool := if Rlt_dec b a then true else false.

Definition epsilon : R := 1e-12.

(** [Rotation::GetQuaternion]. *)
Definition get_quaternion (r : rotation) : Quaternion.t :=
  let trace := m00 r + m11 r + m22 r in
  if gtb trace epsilon then
    let s := 0.5 / sqrt (trace + 1) in
    Quaternion.mk ((m21 r - m12 r) * s) ((m02 r - m20 r) * s) ((m10 r - m01 r) * s) (0.25 / s)
  else if andb (gtb (m00 r) (m11 r)) (gtb (m00 r) (m22 r)) then
    let s := 2 * sqrt (1 + m00 r - m11 r - m22 r) in
    Quaternion.mk (0.25 * s) ((m01 r + m10 r) / s) ((m02 r + m20 r) / s) ((m21 r - m12 r) / s)
  else if gtb (m11 r) (m22 r) then
    let s := 2 * sqrt (1 + m11 r - m00 r - m22 r) in
    Quaternion.mk ((m01 r + m10 r) / s) (0.25 * s) ((m12 r + m21 r) / s) ((m02 r - m20 r) / s)
  else
    let s := 2 * sqrt (1 + m22 r - m00 r - m11 r) in
    Quaternion.mk ((m02 r + m20 r) / s) ((m12 r + m21 r) / s) (0.25 * s) ((m10 r - m01 r) / s).

(** [transform_to_kdl(t)] and the conversion of the pose. *)
Definition frame_of_transform (t : Transform.t) : frame :=
  mk_frame (rot_of_quaternion (Transform.rotation t)) (Transform.translation t).

Definition frame_of_pose (ps : Pose.t) : frame :=
  mk_frame (rot_of_quaternion (Pose.orientation ps)) (Pose.position ps).

(** The pose of the product frame: [f.p] and [f.M.GetQuaternion()]. *)
Definition pose_of_frame (f : frame) : Pose.t := Pose.mk (p f) (get_quaternion (M f)).

(** [do_transform_pose]'s product [t * pose], as a pose. *)
Definition kdl_frame_mul (t : Transform.t) (ps : Pose.t) : Pose.t :=
  pose_of_frame (frame_mul (frame_of_transform t) (frame_of_pose ps)).

(** [tf2_geometry_msgs.do_transform_pose(pose, transform)]: the result takes
    the header of the transform. *)
Definition do_transform_pose (ps : PoseStamped.t) (t : TransformStamped.t) : PoseStamped.t :=
  PoseStamped.mk (TransformStamped.header t)
                 (kdl_frame_mul (TransformStamped.transform t) (PoseStamped.pose ps)).

(** ** The matrix of a quaternion *)

Lemma rot_apply_rot_of_quaternion q v : rot_apply (rot_of_quaternion q) v = Geo.rotate q v.
Proof. destruct q, v. reflexivity. Qed.

(** [Rotation::Quaternion] is multiplicative, also on quaternions that are
    not of unit length. *)
Lemma rot_mul_rot_of_quaternion p q :
  rot_mul (rot_of_quaternion p) (rot_of_quaternion q) = rot_of_quaternion (Geo.qmul p q).
Proof. destruct p, q. cbv [rot_mul rot_of_quaternion Geo.qmul m00 m01 m02 m10 m11 m12 m20 m21 m22]. f_equal; ring. Qed.

Lemma rot_of_quaternion_qneg q : rot_of_quaternion (Geo.qneg q) = rot_of_quaternion q.
Proof. destruct q. cbv [rot_of_quaternion Geo.qneg]. f_equal; ring. Qed.

#[global] Instance rot_of_quaternion_proper : Proper (Geo.same_rotation ==> eq) rot_of_quaternion.
Proof. intros q q' [->| ->]; [reflexivity | symmetry; apply rot_of_quaternion_qneg]. Qed.

(** ** [GetQuaternion] *)

Lemma sqrt_pivot a c : a = 4 * (c * c) -> sqrt a = 2 * Rabs c.
Proof.
  intros ->. rewrite sqrt_mult_alt by lra.
  replace 4 with (2 * 2) at 1 by ring. rewrite sqrt_square by lra.
  now rewrite <- sqrt_Rsqr_abs.
Qed.

Lemma gtb_true a b : gtb a b = true <-> b < a.
Proof. unfold gtb. destruct (Rlt_dec b a); split; intros; auto; discriminate || contradiction. Qed.

Lemma gtb_false a b : gtb a b = false <-> a <= b.
Proof. unfold gtb. destruct (Rlt_dec b a); split; intros; auto; try discriminate; lra. Qed.

Lemma R_half : 0.5 = / 2.
Proof. lra. Qed.

Lemma R_quarter : 0.25 = / 4.
Proof. lra. Qed.

(** Case on every comparison of [GetQuaternion]. *)
Ltac gtb_cases :=
  repeat match goal with
         | |- context [gtb ?a ?b] =>
             let E := fresh "E" in
             destruct (gtb a b) eqn:E; [apply gtb_true in E | apply gtb_false in E]; cbn [andb]
         end.

(** A branch of [GetQuaternion] whose pivot [c] has [s = 4 |c|] returns
    [q] or [-q], as [c] is positive or negative. *)
Ltac pivot_branch c :=
  assert (Hnz : c <> 0) by nra;
  rewrite (sqrt_pivot _ c) by nra;
  destruct (Rcase_abs c) as [Hc|Hc];
  [rewrite (Rabs_left c Hc); right | rewrite (Rabs_right c Hc); left];
  cbv [Geo.qneg]; rewrite ?R_half, ?R_quarter; f_equal; field; intro; apply Hnz; lra.

(** [GetQuaternion] inverts [Rotation::Quaternion] up to sign on unit
    quaternions, in each of its four branches. *)
Lemma get_quaternion_rot_of_quaternion_unit q :
  Geo.qnorm2 q = 1 -> Geo.same_rotation q (get_quaternion (rot_of_quaternion q)).
Proof.
  destruct q as [x y z w]. cbv [Geo.qnorm2 Geo.same_rotation]. intros Hn.
  cbv [get_quaternion rot_of_quaternion m00 m01 m02 m10 m11 m12 m20 m21 m22].
  destruct (gtb _ epsilon) eqn:Ht; [apply gtb_true in Ht | apply gtb_false in Ht];
    unfold epsilon in Ht.
  - pivot_branch w.
  - destruct (andb _ _) eqn:Hx.
    + apply andb_true_iff in Hx as [Hx1 Hx2]. apply gtb_true in Hx1, Hx2. pivot_branch x.
    + apply andb_false_iff in Hx. rewrite !gtb_false in Hx.
      destruct (gtb _ _) eqn:Hy; [apply gtb_true in Hy | apply gtb_false in Hy];
        destruct Hx; [pivot_branch y | pivot_branch y | pivot_branch z | pivot_branch z].
Qed.

(** In the trace branch with a positive scalar part, the quaternion comes
    back exactly. *)
Lemma get_quaternion_trace_lemma q :
  Geo.qnorm2 q = 1 -> 0 < Quaternion.w q ->
  epsilon < 4 * (Quaternion.w q * Quaternion.w q) - 1 ->
  get_quaternion (rot_of_quaternion q) = q.
Proof.
  destruct q as [x y z w]. cbv [Geo.qnorm2 Quaternion.w]. intros Hn Hw Ht.
  cbv [get_quaternion rot_of_quaternion m00 m01 m02 m10 m11 m12 m20 m21 m22].
  replace (gtb _ epsilon) with true by (symmetry; apply gtb_true; nra).
  rewrite (sqrt_pivot _ w), Rabs_right by nra.
  rewrite R_half, R_quarter. f_equal; field; lra.
Qed.

(** ** KDL's frame product and the rigid composition *)

Lemma kdl_frame_mul_position t ps :
  Pose.position (kdl_frame_mul t ps) = Pose.position (Geo.frame_mul t ps).
Proof. geo_ring. Qed.

Lemma kdl_frame_mul_orientation t ps :
  Pose.orientation (kdl_frame_mul t ps) =
  get_quaternion (rot_of_quaternion (Geo.qmul (Transform.rotation t) (Pose.orientation ps))).
Proof.
  unfold kdl_frame_mul, pose_of_frame, frame_mul, frame_of_transform, frame_of_pose; cbn [M Pose.orientation].
  apply f_equal, rot_mul_rot_of_quaternion.
Qed.

Lemma kdl_frame_mul_identity_pose t :
  kdl_frame_mul t Geo.identity_pose =
  Pose.mk (Transform.translation t) (get_quaternion (rot_of_quaternion (Transform.rotation t))).
Proof.
  transitivity (Pose.mk (Pose.position (kdl_frame_mul t Geo.identity_pose))
                        (Pose.orientation (kdl_frame_mul t Geo.identity_pose)));
    [now destruct (kdl_frame_mul _ _)|].
  rewrite kdl_frame_mul_position, kdl_frame_mul_orientation, Geo.frame_mul_identity_pose.
  change (Pose.orientation Geo.identity_pose) with Geo.qidentity.
  now rewrite Geo.qmul_qidentity_r.
Qed.

Lemma kdl_frame_mul_refines_lemma t ps :
  Geo.qnorm2 (Transform.rotation t) = 1 -> Geo.qnorm2 (Pose.orientation ps) = 1 ->
  Pose.position (kdl_frame_mul t ps) = Pose.position (Geo.frame_mul t ps) /\
  Geo.same_rotation (Pose.orientation (Geo.frame_mul t ps)) (Pose.orientation (kdl_frame_mul t ps)).
Proof.
  intros Ht Hp. split; [apply kdl_frame_mul_position|].
  rewrite kdl_frame_mul_orientation. apply get_quaternion_rot_of_quaternion_unit.
  rewrite Geo.qnorm2_qmul_lemma, Ht, Hp. ring.
Qed.

(** ** Properties *)

(** C16: [GetQuaternion] inverts [Rotation::Quaternion] on unit
    quaternions up to sign: from the matrix of a unit quaternion [q], KDL
    recovers [q] or [-q], the same rotation, in whichever of its four
    branches the matrix falls. *)
Theorem get_quaternion_rot_of_quaternion q :
  Geo.qnorm2 q = 1 -> Geo.same_rotation q (get_quaternion (rot_of_quaternion q)).
Proof. exact (get_quaternion_rot_of_quaternion_unit q). Qed.

(** C18: KDL's frame product refines the rigid composition of the
    specification: for a transform and a pose with unit quaternions, it
    has the position of [Geo.frame_mul] and the same rotation (the
    quaternion or its opposite). *)
Theorem kdl_frame_mul_refines t ps :
  Geo.qnorm2 (Transform.rotation t) = 1 -> Geo.qnorm2 (Pose.orientation ps) = 1 ->
  Pose.position (kdl_frame_mul t ps) = Pose.position (Geo.frame_mul t ps) /\
  Geo.same_rotation (Pose.orientation (Geo.frame_mul t ps)) (Pose.orientation (kdl_frame_mul t ps)).
Proof. exact (kdl_frame_mul_refines_lemma t ps). Qed.

(** [do_transform_pose] of the identity pose by a transform with a
    unit rotation gives back the transform: its header, its translation
    as position and its rotation up to sign as orientation. *)
Lemma do_transform_pose_identity_pose h ts :
  Geo.qnorm2 (Transform.rotation (TransformStamped.transform ts)) = 1 ->
  let r := do_transform_pose (PoseStamped.mk h Geo.identity_pose) ts in
  PoseStamped.header r = TransformStamped.header ts /\
  Pose.position (PoseStamped.pose r) = Transform.translation (TransformStamped.transform ts) /\
  Geo.same_rotation (Transform.rotation (TransformStamped.transform ts))
                    (Pose.orientation (PoseStamped.pose r)).
Proof.
  intros Hq. cbn zeta. unfold do_transform_pose. cbn [PoseStamped.header PoseStamped.pose].
  destruct (kdl_frame_mul_refines_lemma (TransformStamped.transform ts) Geo.identity_pose Hq)
    as [Hp Ho]; [cbn; ring|].
  rewrite Geo.frame_mul_identity_pose in Hp, Ho. rewrite Hp. now repeat split.
Qed.

(** ** Witnesses *)

Lemma get_quaternion_rot_of_quaternion_witness :
  Geo.same_rotation (Geo.quat_of_euler 0.3 (-1.2) 2.5)
                    (get_quaternion (rot_of_quaternion (Geo.quat_of_euler 0.3 (-1.2) 2.5))).
Proof. apply get_quaternion_rot_of_quaternion. apply Geo.qnorm2_quat_of_euler. Defined.

Lemma kdl_frame_mul_refines_witness :
  let t := Transform.mk (Vector3.mk 1 2 3) (Geo.quat_of_euler 0 0 1.57) in
  let ps := Pose.mk (Vector3.mk (-1) 0 4) (Geo.quat_of_euler 1.57 0 0) in
  Pose.position (kdl_frame_mul t ps) = Pose.position (Geo.frame_mul t ps) /\
  Geo.same_rotation (Pose.orientation (Geo.frame_mul t ps)) (Pose.orientation (kdl_frame_mul t ps)).
Proof. apply kdl_frame_mul_refines; apply Geo.qnorm2_quat_of_euler. Defined.

End Kdl.
