(* ===== verification/Tf.v ===== *)
(** The tf2 buffer the node queries ([tf2_ros.Buffer] filled by a
    [tf2_ros.TransformListener], lines 45-46; the query is line 57).  The
    buffer is external: a thread of the listener fills it between two
    callbacks, so the node sees a snapshot of it at each callback.  The
    class [TfBuffer] is the interface the node is verified against:
    [lookup_transform b target source time timeout] returns the transform
    that maps coordinates of [source] into [target] at [time], or raises
    one of tf2's exceptions.  [TfBufferLaws] is tf2's promise on a
    successful answer (the header names [target] and, unless [time] is 0,
    which asks for the latest common time, [time]; the child frame is
    [source]).  [TableBuffer] is an implementation: a finite
    table of the transforms the snapshot can resolve. *)
From Stdlib Require Import List ZArith String.
From S2P Require Import Prelude Msgs.
Import ListNotations.

Class TfBuffer (B : Type) := {
  lookup_transform : B -> string -> string -> Time.t -> Time.t -> res TransformStamped.t
}.

Class TfBufferLaws (B : Type) `{TfBuffer B} := {
  lookup_transform_frames : forall b target source time timeout ts,
    lookup_transform b target source time timeout = Ok ts ->
    Header.frame_id (TransformStamped.header ts) = target /\
    TransformStamped.child_frame_id ts = source /\
    ((Time.secs time * 1000000000 + Time.nsecs time)%Z <> 0%Z ->
     Header.stamp (TransformStamped.header ts) = time)
}.

(** A snapshot as a table of resolvable frame pairs, each with the
    transform and the interval of times the buffer holds for it. *)
Module TableBuffer.
Record entry := mk_entry {
  target : string; source : string;
  oldest : Z; newest : Z;           (** nanoseconds held in the buffer *)
  transform : Transform.t }.

Definition t := list entry.

Definition time_ns (tm : Time.t) : Z := Time.secs tm * 1000000000 + Time.nsecs tm.

Definition entry_matches (target source : string) (e : entry) : bool :=
  andb (String.eqb (TableBuffer.target e) target) (String.eqb (TableBuffer.source e) source).

Definition lookup (b : t) (target source : string) (time timeout : Time.t) : res TransformStamped.t :=
  match find (entry_matches target source) b with
  | None => Err LookupException
  | Some e =>
      if andb (oldest e <=? time_ns time)%Z (time_ns time <=? newest e)%Z
      then Ok (TransformStamped.mk (Header.mk 0 time target) source (transform e))
      else Err ExtrapolationException
  end.
End TableBuffer.

#[export] Instance TableBuffer_TfBuffer : TfBuffer TableBuffer.t :=
  {| lookup_transform := TableBuffer.lookup |}.

#[export] Instance TableBuffer_TfBufferLaws : TfBufferLaws TableBuffer.t.
Proof.
  constructor. intros b target source time timeout ts. cbn. unfold TableBuffer.lookup.
  destruct (find _ b) as [e|]; [|discriminate].
  destruct (andb _ _); [|discriminate]. intros H. injection H as <-. cbn. auto.
Qed.
