(* ===== verification/Tf2.v ===== *)
(** The tf2 buffer of lines 45-46 and the query of line 57, as tf2
    computes it: [tf2_ros.Buffer(rospy.Duration(10))] is a
    [tf2::BufferCore] with a history of [cache_time] = 10 s, filled by the
    [TransformListener]'s thread through [set_transform], and
    [buffer.lookup_transform(target, source, time, rospy.Duration(0.5))]
    polls [can_transform] at 20 Hz for at most 0.5 s, then calls
    [BufferCore::lookupTransform].

    - [Module TimeCache]: the history of one frame (tf2's [TimeCache]), a
      list of [TransformStorage] sorted newest first; [insert_data] rejects
      data older than the newest minus [cache_time] ([TF_OLD_DATA]) or
      with a stamp already held ([TF_REPEATED_DATA]), inserts in order and
      prunes the tail ([pruneList]); [find_closest] and [get_data] answer a
      query at a time with one stored entry or the interpolation of the
      two that surround it ([interpolate]: linear on the translation,
      tf2's [slerp] on the rotation); a static frame ([TimeCacheStatic])
      holds one entry valid at every time.
    - [Module BufferCore]: frames numbered as tf2 numbers them ([0] is
      ["NO_PARENT"]), [set_transform] with its validity checks (self
      transform, empty ids, a quaternion whose squared norm is not within
      0.01 of 1), [walk_to_top_parent] (the two walks of
      [walkToTopParent], from the source up to the root and from the
      target up to the source's root, each bounded by [MAX_GRAPH_DEPTH] =
      1000, with tf2's [TransformAccum]), [get_latest_common_time] for a
      query at time 0, and [lookup_transform] with tf2's exceptions.
    - [Module PyBuffer]: the Python [lookup_transform] with its wait loop;
      the listener thread may insert data between two polls, so the
      buffer is a sequence of snapshots, one per poll.

    Times are nanoseconds ([Z]); the ratio of an interpolation is a real.
    NaN checks, error strings, the authority bookkeeping and the
    transformable-request callbacks are not modelled. *)
From Stdlib Require Import List Bool ZArith Ascii String Reals Lia Lra Sorting.Sorted.
From S2P Require Import Prelude Msgs Geometry Tf.
Import ListNotations.
Open Scope Z_scope.

Module TimeCache.

(** [TransformStorage]: [frame_id_] is the parent, [child_frame_id_] the
    frame the cache belongs to. *)
Record storage := mk_storage {
  stamp : Z; parent : nat; child : nat;
  translation : Vector3.t; rotation : Quaternion.t }.

(** [TimeCache] (a list, newest first) or [TimeCacheStatic]. *)
Inductive cache := Dynamic (l : list storage) | Static (s : storage).

(** [Quaternion::dot]. *)
Definition qdot (p q : Quaternion.t) : R :=
  (Quaternion.x p * Quaternion.x q + Quaternion.y p * Quaternion.y q
   + Quaternion.z p * Quaternion.z q + Quaternion.w p * Quaternion.w q)%R.

(** [Quaternion::angleShortestPath]. *)
Definition angle_shortest_path (p q : Quaternion.t) : R :=
  let s := sqrt (Geo.qnorm2 p * Geo.qnorm2 q) in
  if Rlt_dec (qdot p q) 0 then (acos (- qdot p q / s) * 2)%R
  else (acos (qdot p q / s) * 2)%R.

(** [Quaternion::slerp(q, t)], [p] being [*this]. *)
Definition slerp (p q : Quaternion.t) (t : R) : Quaternion.t :=
  let theta := (angle_shortest_path p q / 2)%R in
  if Req_EM_T theta 0 then p
  else
    let d := (/ sin theta)%R in
    let s0 := sin ((1 - t) * theta) in
    let s1 := sin (t * theta) in
    let q' := if Rlt_dec (qdot p q) 0 then Geo.qneg q else q in
    Quaternion.mk ((Quaternion.x p * s0 + Quaternion.x q' * s1) * d)
                  ((Quaternion.y p * s0 + Quaternion.y q' * s1) * d)
                  ((Quaternion.z p * s0 + Quaternion.z q' * s1) * d)
                  ((Quaternion.w p * s0 + Quaternion.w q' * s1) * d).

(** [Vector3::setInterpolate3(v0, v1, rt)]. *)
Definition lerp (v0 v1 : Vector3.t) (rt : R) : Vector3.t :=
  let s := (1 - rt)%R in
  Vector3.mk (s * Vector3.x v0 + rt * Vector3.x v1) (s * Vector3.y v0 + rt * Vector3.y v1)
             (s * Vector3.z v0 + rt * Vector3.z v1).

(** [TimeCache::interpolate(one, two, time)]. *)
Definition interpolate (one two : storage) (time : Z) : storage :=
  if stamp two =? stamp one then two
  else
    let ratio := (IZR (time - stamp one) / IZR (stamp two - stamp one))%R in
    mk_storage (stamp one) (parent one) (child one)
               (lerp (translation one) (translation two) ratio)
               (slerp (rotation one) (rotation two) ratio).

(** What [findClosest] finds. *)
Inductive closest := Closest0 | Closest1 (s : storage) | Closest2 (older newer : storage).

(** [std::lower_bound(..., std::greater)]: the first entry not newer than
    [time], with the entry before it. *)
Fixpoint lower_bound (newer : storage) (l : list storage) (time : Z) : closest :=
  match l with
  | [] => Closest0
  | e :: l' => if stamp e <=? time then Closest2 e newer else lower_bound e l' time
  end.

(** [TimeCache::findClosest]. *)
Definition find_closest (l : list storage) (time : Z) : closest :=
  match l with
  | [] => Closest0
  | latest :: rest =>
      if time =? 0 then Closest1 latest
      else match rest with
           | [] => if stamp latest =? time then Closest1 latest else Closest0
           | _ =>
               let earliest := last l latest in
               if time =? stamp latest then Closest1 latest
               else if time =? stamp earliest then Closest1 earliest
               else if stamp latest <? time then Closest0
               else if time <? stamp earliest then Closest0
               else lower_bound latest rest time
           end
  end.

(** [getData]: [None] is [false] (extrapolation or no data). *)
Definition get_data (c : cache) (time : Z) : option storage :=
  match c with
  | Static s => Some (mk_storage time (parent s) (child s) (translation s) (rotation s))
  | Dynamic l =>
      match find_closest l time with
      | Closest0 => None
      | Closest1 s => Some s
      | Closest2 one two => if Nat.eqb (parent one) (parent two) then Some (interpolate one two time) else Some one
      end
  end.

(** [getLatestTimestamp] and [getLatestTimeAndParent]. *)
Definition latest_time_and_parent (c : cache) : Z * nat :=
  match c with
  | Static s => (0, parent s)
  | Dynamic [] => (0, 0%nat)
  | Dynamic (s :: _) => (stamp s, parent s)
  end.

(** Drop the first elements while [f] holds. *)
Fixpoint skipn_while (f : storage -> bool) (l : list storage) : list storage :=
  match l with
  | [] => []
  | e :: l' => if f e then skipn_while f l' else l
  end.

(** [pruneList]: drop from the oldest end what is more than
    [max_storage] older than the newest. *)
Definition prune_list (max_storage : Z) (l : list storage) : list storage :=
  match l with
  | [] => []
  | latest :: _ => rev (skipn_while (fun e => stamp e + max_storage <? stamp latest) (rev l))
  end.

(** Insert before the first entry not newer than [s]; [None] when an
    entry has the same stamp ([TF_REPEATED_DATA]). *)
Fixpoint insert_sorted (s : storage) (l : list storage) : option (list storage) :=
  match l with
  | [] => Some [s]
  | e :: l' =>
      if stamp e <=? stamp s then (if stamp e =? stamp s then None else Some (s :: l))
      else option_map (cons e) (insert_sorted s l')
  end.

(** [TimeCache::insertData] and [TimeCacheStatic::insertData]: [None]
    when the data is older than the history kept or its stamp is already
    held. *)
Definition insert_data (max_storage : Z) (s : storage) (c : cache) : option cache :=
  match c with
  | Static _ => Some (Static s)
  | Dynamic l =>
      let too_old := match l with e :: _ => stamp s + max_storage <? stamp e | [] => false end in
      if too_old then None
      else match insert_sorted s l with
           | Some l2 => Some (Dynamic (prune_list max_storage l2))
           | None => None
           end
  end.

(** The shape [insertData] keeps: newest first, and nothing older than
    the newest by more than [max_storage]. *)
Fixpoint newest_first (l : list storage) : bool :=
  match l with
  | a :: ((b :: _) as r) => (stamp b <=? stamp a) && newest_first r
  | _ => true
  end.

Definition within_window (max_storage : Z) (l : list storage) : bool :=
  match l with
  | [] => true
  | latest :: _ => forallb (fun e => stamp latest <=? stamp e + max_storage) l
  end.

End TimeCache.

Module BufferCore.
Import TimeCache.

(** [MAX_GRAPH_DEPTH]. *)
Definition max_graph_depth : nat := 1000.

(** [QUATERNION_NORMALIZATION_TOLERANCE]. *)
Definition quaternion_normalization_tolerance : R := 10e-3.

(** [frames_] with [frameIDs_reverse]: the frame numbered [i] is the
    [i]-th entry; entry 0 is ["NO_PARENT"] with no cache, and a frame
    only ever named as a parent has no cache either. *)
Record buffer := mk_buffer { frames : list (string * option cache); cache_time : Z }.

(** [BufferCore(cache_time)]. *)
Definition init (cache_time : Z) : buffer := mk_buffer [("NO_PARENT"%string, None)] cache_time.

(** [lookupFrameNumber]: 0 for an unknown frame. *)
Definition lookup_frame_number (b : buffer) (name : string) : nat :=
  match index_of String.eqb name (map fst (frames b)) with
  | Some i => i
  | None => 0
  end.

(** [lookupOrInsertFrameNumber]. *)
Definition lookup_or_insert_frame_number (b : buffer) (name : string) : nat * buffer :=
  match index_of String.eqb name (map fst (frames b)) with
  | Some i => (i, b)
  | None => (List.length (frames b), mk_buffer (frames b ++ [(name, None)]) (cache_time b))
  end.

(** [getFrame]. *)
Definition get_frame (b : buffer) (id : nat) : option cache :=
  match nth_error (frames b) id with
  | Some (_, c) => c
  | None => None
  end.

Definition set_frame (b : buffer) (id : nat) (c : cache) : buffer :=
  mk_buffer (map (fun '(i, (name, c0)) => if Nat.eqb i id then (name, Some c) else (name, c0))
                 (combine (seq 0 (List.length (frames b))) (frames b)))
            (cache_time b).

Definition starts_with_slash (s : string) : bool :=
  match s with
  | String c _ => Ascii.eqb c "/"%char
  | EmptyString => false
  end.

(** [stripSlash]. *)
Definition strip_slash (s : string) : string :=
  match s with
  | String c s' => if Ascii.eqb c "/"%char then s' else s
  | EmptyString => s
  end.

Definition time_ns (t : Time.t) : Z := Time.secs t * 1000000000 + Time.nsecs t.

(** [BufferCore::setTransform(transform, authority, is_static)]: whether
    the data was taken, and the buffer after (frame numbers are allocated
    before the insertion, and stay when it is refused as too old). *)
Definition set_transform (b : buffer) (ts : TransformStamped.t) (is_static : bool) : bool * buffer :=
  let child := strip_slash (TransformStamped.child_frame_id ts) in
  let par := strip_slash (Header.frame_id (TransformStamped.header ts)) in
  let q := Transform.rotation (TransformStamped.transform ts) in
  let bad := orb (String.eqb child par)
               (orb (String.eqb child EmptyString)
                  (orb (String.eqb par EmptyString)
                     (if Rlt_dec (Rabs (Geo.qnorm2 q - 1)) quaternion_normalization_tolerance
                      then false else true))) in
  if bad then (false, b)
  else
    let '(child_id, b1) := lookup_or_insert_frame_number b child in
    let c := match get_frame b1 child_id with
             | Some c => c
             | None => if is_static
                       then Static (mk_storage 0 0 child_id Vector3.default Quaternion.default)
                       else Dynamic []
             end in
    let '(parent_id, b2) := lookup_or_insert_frame_number b1 par in
    let s := mk_storage (time_ns (Header.stamp (TransformStamped.header ts))) parent_id child_id
                        (Transform.translation (TransformStamped.transform ts)) q in
    match insert_data (cache_time b2) s c with
    | Some c' => (true, set_frame b2 child_id c')
    | None => (false, set_frame b2 child_id c)
    end.

(** [Quaternion::inverse()]: the conjugate. *)
Definition qinverse (q : Quaternion.t) : Quaternion.t :=
  Quaternion.mk (- Quaternion.x q) (- Quaternion.y q) (- Quaternion.z q) (Quaternion.w q).

(** [quatRotate(rotation, v)]: [rotation * v * rotation.inverse()]. *)
Definition quat_rotate (q : Quaternion.t) (v : Vector3.t) : Vector3.t :=
  let r := Geo.qmul (Geo.qmul q (Quaternion.mk (Vector3.x v) (Vector3.y v) (Vector3.z v) 0)) (qinverse q) in
  Vector3.mk (Quaternion.x r) (Quaternion.y r) (Quaternion.z r).

Definition vneg (v : Vector3.t) : Vector3.t :=
  Vector3.mk (- Vector3.x v) (- Vector3.y v) (- Vector3.z v).

(** One side of [TransformAccum]: [*_to_top_vec] and [*_to_top_quat]. *)
Definition acc : Type := Vector3.t * Quaternion.t.

Definition acc_identity : acc := (Vector3.default, Geo.qidentity).

(** [TransformAccum::accum]: prepend the transform [st] just gathered. *)
Definition accum (st : storage) (a : acc) : acc :=
  (Geo.vadd (quat_rotate (rotation st) (fst a)) (translation st), Geo.qmul (rotation st) (snd a)).

(** [TransformAccum::finalize]: [SourceParentOfTarget] and [FullPath]. *)
Definition finalize_source_parent (ta : acc) : acc :=
  let iq := qinverse (snd ta) in (quat_rotate iq (vneg (fst ta)), iq).

Definition finalize_full_path (sa ta : acc) : acc :=
  let iq := qinverse (snd ta) in
  (Geo.vadd (quat_rotate iq (fst sa)) (quat_rotate iq (vneg (fst ta))), Geo.qmul iq (snd sa)).

(** [TransformAccum::gather]: the data of [frame] at [time] and its
    parent, parent 0 meaning failure. *)
Definition gather (b : buffer) (frame : nat) (time : Z) : option (option storage) :=
  match get_frame b frame with
  | None => None
  | Some c => Some (get_data c time)
  end.

(** How the walk from the source ends. *)
Inductive source_walk :=
| SourceLoop                                   (** [depth > MAX_GRAPH_DEPTH] *)
| SourceTargetParent (a : acc)                 (** early out: the target is above the source *)
| SourceTop (top : nat) (a : acc) (extrapolation : bool).

(** The first loop of [walkToTopParent]: from [frame] up to the root,
    accumulating [source_to_top]; [top] is [top_parent]. *)
Fixpoint walk_source (b : buffer) (time : Z) (target : nat) (fuel : nat) (frame top : nat) (a : acc)
  : source_walk :=
  match fuel with
  | O => SourceLoop
  | S fuel' =>
      if Nat.eqb frame 0 then SourceTop top a false
      else match gather b frame time with
           | None => SourceTop frame a false
           | Some None => SourceTop frame a true
           | Some (Some st) =>
               if Nat.eqb (parent st) 0 then SourceTop frame a true
               else if Nat.eqb frame target then SourceTargetParent a
               else walk_source b time target fuel' (parent st) frame (accum st a)
           end
  end.

(** How the walk from the target ends. *)
Inductive target_walk :=
| TargetLoop
| TargetExtrapolation
| TargetSourceParent (a : acc)                 (** early out: the source is above the target *)
| TargetEnd (frame : nat) (a : acc).

(** The second loop: from the target up to [top], accumulating
    [target_to_top]. *)
Fixpoint walk_target (b : buffer) (time : Z) (source top : nat) (fuel : nat) (frame : nat) (a : acc)
  : target_walk :=
  match fuel with
  | O => TargetLoop
  | S fuel' =>
      if Nat.eqb frame top then TargetEnd frame a
      else match gather b frame time with
           | None => TargetEnd frame a
           | Some None => TargetExtrapolation
           | Some (Some st) =>
               if Nat.eqb (parent st) 0 then TargetExtrapolation
               else if Nat.eqb frame source then TargetSourceParent a
               else walk_target b time source top fuel' (parent st) (accum st a)
           end
  end.

(** [common_time], [ros::TIME_MAX] being [None]. *)
Definition min_time (t : Z) (common : option Z) : option Z :=
  if t =? 0 then common
  else match common with
       | None => Some t
       | Some c => Some (Z.min t c)
       end.

Definition time_or_zero (common : option Z) : Z :=
  match common with Some t => t | None => 0 end.

Inductive lct_walk := LctLoop | LctFound (common : option Z) | LctDone (common : option Z) (x : list (Z * nat)).

(** The first loop of [getLatestCommonTime]: from the source up, keeping
    [lct_cache], with the early out when the target is a parent. *)
Fixpoint lct_from_source (b : buffer) (target : nat) (fuel : nat) (frame : nat) (common : option Z)
    (lct : list (Z * nat)) : lct_walk :=
  match fuel with
  | O => LctLoop
  | S fuel' =>
      if Nat.eqb frame 0 then LctDone common lct
      else match get_frame b frame with
           | None => LctDone common lct
           | Some c =>
               let '(t, p) := latest_time_and_parent c in
               if Nat.eqb p 0 then LctDone common lct
               else let common' := min_time t common in
                    if Nat.eqb p target then LctFound common'
                    else lct_from_source b target fuel' p common' (lct ++ [(t, p)])
           end
  end.

Inductive lct_walk2 := Lct2Loop | Lct2Found (common : option Z) | Lct2Done (common : option Z) (common_parent : nat).

(** The second loop: from the target up, until a frame of [lct_cache],
    with the early out when the source is a parent. *)
Fixpoint lct_from_target (b : buffer) (source : nat) (lct : list (Z * nat)) (fuel : nat) (frame : nat)
    (common : option Z) : lct_walk2 :=
  match fuel with
  | O => Lct2Loop
  | S fuel' =>
      match get_frame b frame with
      | None => Lct2Done common 0
      | Some c =>
          let '(t, p) := latest_time_and_parent c in
          if Nat.eqb p 0 then Lct2Done common 0
          else let common' := min_time t common in
               match find (fun tp => Nat.eqb (snd tp) p) lct with
               | Some (_, cp) => Lct2Done common' cp
               | None => if Nat.eqb p source then Lct2Found common'
                         else lct_from_target b source lct fuel' p common'
               end
      end
  end.

(** The last loop: the times of [lct_cache] up to the common parent. *)
Fixpoint lct_upto (cp : nat) (lct : list (Z * nat)) (common : option Z) : option Z :=
  match lct with
  | [] => common
  | (t, p) :: rest => let common' := min_time t common in
                      if Nat.eqb p cp then common' else lct_upto cp rest common'
  end.

(** [BufferCore::getLatestCommonTime]. *)
Definition get_latest_common_time (b : buffer) (target source : nat) : res Z :=
  if orb (Nat.eqb source 0) (Nat.eqb target 0) then Err LookupException
  else if Nat.eqb source target then
    Ok (match get_frame b source with Some c => fst (latest_time_and_parent c) | None => 0 end)
  else
    let lct1 := lct_from_source b target (S max_graph_depth) source None [] in
    match lct1 with
    | LctLoop => Err LookupException
    | LctFound common => Ok (time_or_zero common)
    | LctDone _ lct =>
        match lct_from_target b source lct (S max_graph_depth) target None with
        | Lct2Loop => Err LookupException
        | Lct2Found common => Ok (time_or_zero common)
        | Lct2Done common cp =>
            if Nat.eqb cp 0 then Err ConnectivityException
            else Ok (time_or_zero (lct_upto cp lct common))
        end
    end.

(** [BufferCore::walkToTopParent]: the time used and the transform from
    the source to the target frame, or tf2's error. *)
Definition walk_to_top_parent (b : buffer) (time : Z) (target source : nat) : res (Z * acc) :=
  if Nat.eqb source target then Ok (time, acc_identity)
  else
    let* time := if time =? 0 then get_latest_common_time b target source else Ok time in
    match walk_source b time target (S max_graph_depth) source source acc_identity with
    | SourceLoop => Err LookupException
    | SourceTargetParent sa => Ok (time, sa)
    | SourceTop top sa extrapolation =>
        match walk_target b time source top (S max_graph_depth) target acc_identity with
        | TargetLoop => Err LookupException
        | TargetExtrapolation => Err ExtrapolationException
        | TargetSourceParent ta => Ok (time, finalize_source_parent ta)
        | TargetEnd frame ta =>
            if Nat.eqb frame top then Ok (time, finalize_full_path sa ta)
            else if extrapolation then Err ExtrapolationException
            else Err ConnectivityException
        end
    end.

(** [validateFrameId]. *)
Definition validate_frame_id (b : buffer) (frame_id : string) : res nat :=
  if String.eqb frame_id EmptyString then Err InvalidArgumentException
  else if starts_with_slash frame_id then Err InvalidArgumentException
  else let id := lookup_frame_number b frame_id in
       if Nat.eqb id 0 then Err LookupException else Ok id.

Definition time_of_ns (t : Z) : Time.t := Time.mk (t / 1000000000) (t mod 1000000000).

(** [BufferCore::lookupTransform(target_frame, source_frame, time)]. *)
Definition lookup_transform (b : buffer) (target source : string) (time : Time.t) : res TransformStamped.t :=
  if String.eqb target source then
    let stamp := if time_ns time =? 0
                 then match get_frame b (lookup_frame_number b target) with
                      | Some c => time_of_ns (fst (latest_time_and_parent c))
                      | None => time
                      end
                 else time in
    Ok (TransformStamped.mk (Header.mk 0 stamp target) source Geo.identity_transform)
  else
    let* target_id := validate_frame_id b target in
    let* source_id := validate_frame_id b source in
    let* r := walk_to_top_parent b (time_ns time) target_id source_id in
    let stamp := if time_ns time =? 0 then time_of_ns (fst r) else time in
    Ok (TransformStamped.mk (Header.mk 0 stamp target) source
          (Transform.mk (fst (snd r)) (snd (snd r)))).

(** [BufferCore::canTransform]: the same walk, without exceptions. *)
Definition can_transform (b : buffer) (target source : string) (time : Time.t) : bool :=
  match lookup_transform b target source time with
  | Ok _ => true
  | Err _ => false
  end.

End BufferCore.

(** The Python [tf2_ros.Buffer.lookup_transform(target, source, time,
    timeout)]: [can_transform] polls at 20 Hz while the timeout has not
    elapsed and the transform is not available, then
    [lookup_transform_core] runs on the buffer as it is then. *)
Module PyBuffer.

(** The buffer at the start of the call and at each later poll: the
    listener thread inserts data between polls. *)
Record timeline := mk_timeline { now : BufferCore.buffer; later : list BufferCore.buffer }.

(** The polls of [rospy.Rate(20)] that start before the timeout. *)
Definition polls (timeout : Time.t) : nat :=
  Z.to_nat ((BufferCore.time_ns timeout * 20 + 999999999) / 1000000000).

(** The wait loop of [can_transform]: the buffer when it ends. *)
Fixpoint wait (target source : string) (time : Time.t) (n : nat) (b : BufferCore.buffer)
    (rest : list BufferCore.buffer) : BufferCore.buffer :=
  match n, rest with
  | S n', b' :: rest' =>
      if BufferCore.can_transform b target source time then b else wait target source time n' b' rest'
  | _, _ => b
  end.

Definition lookup_transform (tl : timeline) (target source : string) (time timeout : Time.t)
  : res TransformStamped.t :=
  BufferCore.lookup_transform (wait target source time (polls timeout) (now tl) (later tl))
                              target source time.
End PyBuffer.

#[export] Instance PyBuffer_TfBuffer : TfBuffer PyBuffer.timeline :=
  {| lookup_transform := PyBuffer.lookup_transform |}.

(** The buffer after the listener has inserted the one transform [ts]
    into an empty buffer: [child] is frame 1, its parent frame 2. *)
Definition single_edge (ct : Z) (ts : TransformStamped.t) : BufferCore.buffer :=
  BufferCore.mk_buffer
    [("NO_PARENT"%string, None);
     (TransformStamped.child_frame_id ts,
      Some (TimeCache.Dynamic [TimeCache.mk_storage (BufferCore.time_ns (Header.stamp (TransformStamped.header ts))) 2 1
                                 (Transform.translation (TransformStamped.transform ts))
                                 (Transform.rotation (TransformStamped.transform ts))]));
     (Header.frame_id (TransformStamped.header ts), None)] ct.

(** [chain_to_root b time root f k]: the parents of frame [f] at [time]
    lead up to [root] in [k] links, through frames that are not [root]
    and that all have data at [time] with a parent; [root] itself has no
    cache (a frame only ever named as a parent), so it is the top of the
    tree. *)
Inductive chain_to_root (b : BufferCore.buffer) (time : Z) (root : nat) : nat -> nat -> Prop :=
| chain_root :
    BufferCore.gather b root time = None -> chain_to_root b time root root 0
| chain_link f k st :
    f <> 0%nat -> f <> root -> BufferCore.gather b f time = Some (Some st) ->
    TimeCache.parent st <> 0%nat -> chain_to_root b time root (TimeCache.parent st) k ->
    chain_to_root b time root f (S k).

(** A transform from [base_link] to [camera] at t = 100 s. *)
Definition ex_camera : TransformStamped.t :=
  TransformStamped.mk (Header.mk 0 (Time.mk 100 0) "base_link"%string) "camera"%string
    (Transform.mk (Vector3.mk 0.2 0 0.1) Geo.qidentity).

(** ** Lemmas *)

Module Tf2Facts.
Import TimeCache BufferCore.

(** The tf2 model keeps tf2's promise on the frames and stamp of an
    answer. *)
#[export] Instance PyBuffer_TfBufferLaws : TfBufferLaws PyBuffer.timeline.
Proof.
  constructor. intros tl target source time timeout ts. cbn. unfold PyBuffer.lookup_transform.
  generalize (PyBuffer.wait target source time (PyBuffer.polls timeout) (PyBuffer.now tl) (PyBuffer.later tl)).
  intros b. unfold BufferCore.lookup_transform.
  destruct (String.eqb target source) eqn:E.
  - intros H. injection H as <-. cbn. apply String.eqb_eq in E as ->.
    repeat split; intros Ht; unfold BufferCore.time_ns; now rewrite (proj2 (Z.eqb_neq _ _) Ht).
  - destruct (validate_frame_id b target); [|discriminate]. cbn [rbind].
    destruct (validate_frame_id b source); [|discriminate]. cbn [rbind].
    destruct (walk_to_top_parent _ _ _ _); [|discriminate]. cbn [rbind].
    intros H. injection H as <-. cbn. repeat split; intros Ht.
    unfold BufferCore.time_ns; now rewrite (proj2 (Z.eqb_neq _ _) Ht).
Qed.

(** One iteration of each walk. *)
Lemma walk_source_S b time target fuel frame top a :
  walk_source b time target (S fuel) frame top a =
  if Nat.eqb frame 0 then SourceTop top a false
  else match gather b frame time with
       | None => SourceTop frame a false
       | Some None => SourceTop frame a true
       | Some (Some st) =>
           if Nat.eqb (parent st) 0 then SourceTop frame a true
           else if Nat.eqb frame target then SourceTargetParent a
           else walk_source b time target fuel (parent st) frame (accum st a)
       end.
Proof. reflexivity. Qed.

Lemma walk_target_S b time source top fuel frame a :
  walk_target b time source top (S fuel) frame a =
  if Nat.eqb frame top then TargetEnd frame a
  else match gather b frame time with
       | None => TargetEnd frame a
       | Some None => TargetExtrapolation
       | Some (Some st) =>
           if Nat.eqb (parent st) 0 then TargetExtrapolation
           else if Nat.eqb frame source then TargetSourceParent a
           else walk_target b time source top fuel (parent st) (accum st a)
       end.
Proof. reflexivity. Qed.

Lemma max_graph_depth_S : max_graph_depth = S 999.
Proof. reflexivity. Qed.

Ltac walk_step :=
  first [rewrite walk_source_S | rewrite walk_target_S | rewrite max_graph_depth_S]; cbn [Nat.eqb].

Lemma strip_slash_id s : starts_with_slash s = false -> strip_slash s = s.
Proof. destruct s as [|c s]; cbn; [reflexivity|]. now intros ->. Qed.

Lemma accum_identity st : accum st acc_identity = (translation st, rotation st).
Proof. destruct st as [? ? ? [] []]. cbv -[Rplus Rmult Rminus Ropp]. f_equal; f_equal; ring. Qed.

Lemma finalize_full_path_identity sa : finalize_full_path sa acc_identity = sa.
Proof. destruct sa as [[] []]. cbv -[Rplus Rmult Rminus Ropp]. f_equal; f_equal; ring. Qed.

Lemma finalize_full_path_identity_source ta :
  finalize_full_path acc_identity ta = finalize_source_parent ta.
Proof. destruct ta as [[] []]. cbv -[Rplus Rmult Rminus Ropp]. f_equal; f_equal; ring. Qed.

(** [quatRotate] is the rotation of the KDL matrix. *)
Lemma quat_rotate_rotate q v : quat_rotate q v = Geo.rotate q v.
Proof. destruct q, v. cbv -[Rplus Rmult Rminus Ropp]. f_equal; ring. Qed.

(** *** The history of a frame *)
Section Cache.
Let R (a b : storage) : Prop := stamp b <= stamp a.

Lemma newest_first_ss l : newest_first l = true -> StronglySorted R l.
Proof.
  intros H. apply Sorted_StronglySorted; [intros a b c; unfold R; lia|].
  induction l as [|a [|b l] IH]; [constructor | repeat constructor|].
  cbn [newest_first] in H. apply andb_true_iff in H as [Hab Hr].
  constructor; [exact (IH Hr) | constructor; unfold R; lia].
Qed.

Lemma ss_newest_first l : StronglySorted R l -> newest_first l = true.
Proof.
  induction 1 as [|a l Hs IH Hf]; [reflexivity|]. destruct l as [|b l]; [reflexivity|].
  change (newest_first (a :: b :: l)) with ((stamp b <=? stamp a) && newest_first (b :: l)).
  inversion Hf as [|? ? Hab _]. unfold R in Hab. rewrite IH. cbn. lia.
Qed.

Lemma In_insert_sorted s l l2 x : insert_sorted s l = Some l2 -> (In x l2 <-> s = x \/ In x l).
Proof.
  revert l2. induction l as [|e l IH]; intros l2 E; cbn in E.
  - injection E as <-. cbn. tauto.
  - destruct (stamp e <=? stamp s); [destruct (stamp e =? stamp s); [discriminate|]|].
    + injection E as <-. cbn. tauto.
    + destruct (insert_sorted s l) as [l3|]; [|discriminate]. injection E as <-.
      cbn. rewrite (IH l3 eq_refl). tauto.
Qed.

Lemma ss_insert_sorted s l l2 : StronglySorted R l -> insert_sorted s l = Some l2 -> StronglySorted R l2.
Proof.
  intros Hs. revert l2. induction Hs as [|e l Hs IH Hf]; intros l2 E; cbn in E.
  - injection E as <-. repeat constructor.
  - destruct (Z.leb_spec (stamp e) (stamp s)) as [Hle|Hlt].
    + destruct (stamp e =? stamp s); [discriminate|]. injection E as <-.
      constructor; [now constructor|]. constructor; [unfold R; lia|].
      eapply Forall_impl; [|exact Hf]. unfold R. intros x Hx. lia.
    + destruct (insert_sorted s l) as [l3|] eqn:E3; [|discriminate]. injection E as <-.
      constructor; [exact (IH l3 eq_refl)|]. apply Forall_forall. intros x Hx.
      apply (In_insert_sorted s l l3 x E3) in Hx as [<-|Hx].
      * unfold R. lia.
      * exact (proj1 (Forall_forall _ _) Hf x Hx).
Qed.

Lemma skipn_while_skipn f m : exists k, skipn_while f m = skipn k m.
Proof.
  induction m as [|e m (k & IH)]; [now exists 0%nat|]. cbn.
  destruct (f e); [now exists (S k) | now exists 0%nat].
Qed.

Lemma skipn_while_keeps f m x : In x m -> f x = false -> In x (skipn_while f m).
Proof.
  induction m as [|e m IH]; [easy|]. cbn. intros [->|Hx] Hf; [now rewrite Hf; left|].
  destruct (f e); [now apply IH | now right].
Qed.

(** On a list sorted oldest first, [f] holding of the old entries only,
    what [skipn_while f] leaves fails [f]. *)
Lemma skipn_while_false f m x :
  StronglySorted (fun a b => R b a) m ->
  (forall y z, stamp y <= stamp z -> f z = true -> f y = true) ->
  In x (skipn_while f m) -> f x = false.
Proof.
  intros Hs Hanti. induction Hs as [|e m Hs IH Hf]; [easy|]. cbn.
  destruct (f e) eqn:Fe; [exact IH|]. intros [->|Hx]; [exact Fe|].
  destruct (f x) eqn:Fx; [|reflexivity].
  rewrite (Hanti e x (proj1 (Forall_forall _ _) Hf x Hx) Fx) in Fe. discriminate.
Qed.

Lemma ss_app (Q : storage -> storage -> Prop) l1 l2 :
  StronglySorted Q l1 -> StronglySorted Q l2 -> (forall x y, In x l1 -> In y l2 -> Q x y) ->
  StronglySorted Q (l1 ++ l2).
Proof.
  induction 1 as [|e l1 Hs IH Hf]; intros H2 H; [exact H2|]. cbn. constructor.
  - apply IH; [exact H2|]. intros x y Hx Hy. apply H; [right|]; assumption.
  - apply Forall_app. split; [exact Hf|]. apply Forall_forall. intros y Hy. apply H; [left|]; auto.
Qed.

Lemma ss_rev l : StronglySorted R l -> StronglySorted (fun a b => R b a) (rev l).
Proof.
  induction 1 as [|e l Hs IH Hf]; cbn; [constructor|].
  apply ss_app; [exact IH | repeat constructor|].
  intros x y Hx [<-|[]]. apply in_rev in Hx. exact (proj1 (Forall_forall _ _) Hf x Hx).
Qed.

Lemma In_firstn {A} k (l : list A) x : In x (firstn k l) -> In x l.
Proof.
  revert l. induction k as [|k IH]; intros [|e l]; cbn; try tauto.
  intros [->|Hx]; [now left | right; now apply IH].
Qed.

Lemma ss_firstn k l : StronglySorted R l -> StronglySorted R (firstn k l).
Proof.
  revert l. induction k as [|k IH]; intros [|e l] Hs; cbn; try constructor.
  - inversion Hs; auto.
  - inversion Hs as [|? ? Hs' Hf]. apply Forall_forall. intros x Hx.
    exact (proj1 (Forall_forall _ _) Hf x (In_firstn _ _ _ Hx)).
Qed.

(** [pruneList] keeps a prefix of the list. *)
Lemma prune_list_firstn max_storage l : exists j, prune_list max_storage l = firstn j l.
Proof.
  destruct l as [|latest rest]; [now exists 0%nat|]. unfold prune_list.
  destruct (skipn_while_skipn (fun e => stamp e + max_storage <? stamp latest) (rev (latest :: rest))) as [k ->].
  rewrite skipn_rev, rev_involutive. eauto.
Qed.

(** The newest entry after an accepted insertion is at most
    [max_storage] newer than the inserted one. *)
Lemma insert_sorted_latest max_storage s l l2 x :
  StronglySorted R l -> (forall e, hd_error l = Some e -> stamp e <= stamp s + max_storage) ->
  0 <= max_storage -> insert_sorted s l = Some l2 -> In x l2 -> stamp x <= stamp s + max_storage.
Proof.
  intros Hs Hhd Hm E Hx. apply (In_insert_sorted s l l2 x E) in Hx as [<-|Hx]; [lia|].
  destruct Hs as [|e l Hs Hf]; [easy|]. specialize (Hhd e eq_refl).
  destruct Hx as [<-|Hx]; [exact Hhd|]. pose proof (proj1 (Forall_forall _ _) Hf x Hx). unfold R in *. lia.
Qed.
End Cache.

(** What an accepted insertion leaves. *)
Lemma insert_data_lemma max_storage s l l' :
  0 <= max_storage -> newest_first l = true ->
  insert_data max_storage s (Dynamic l) = Some (Dynamic l') ->
  newest_first l' = true /\ within_window max_storage l' = true /\ In s l'.
Proof.
  intros Hm Hl Hins. apply newest_first_ss in Hl.
  assert (Hhd : forall e, hd_error l = Some e -> stamp e <= stamp s + max_storage).
  { intros e He. destruct l as [|e' l]; [discriminate|]. injection He as ->. cbn in Hins.
    destruct (Z.ltb_spec (stamp s + max_storage) (stamp e)); [discriminate|lia]. }
  assert (E : exists L, insert_sorted s l = Some L /\ l' = prune_list max_storage L).
  { unfold insert_data in Hins. destruct (match l with _ :: _ => _ | [] => false end); [discriminate|].
    destruct (insert_sorted s l) as [L|]; [|discriminate]. injection Hins as <-. eauto. }
  destruct E as (L & EI & ->). pose proof (ss_insert_sorted s l L Hl EI) as HL.
  assert (HsL : In s L) by (apply (In_insert_sorted s l L s EI); now left).
  destruct L as [|latest rest]; [easy|].
  pose (f := fun e => stamp e + max_storage <? stamp latest).
  assert (Hfs : f s = false).
  { unfold f. apply Z.ltb_ge.
    apply (insert_sorted_latest max_storage s l (latest :: rest) latest Hl Hhd Hm EI). now left. }
  assert (Hkeep : forall x, In x (prune_list max_storage (latest :: rest)) -> f x = false).
  { intros x Hx. unfold prune_list in Hx. apply in_rev in Hx.
    apply (skipn_while_false f (rev (latest :: rest))); [now apply ss_rev | | exact Hx].
    intros y z Hyz. unfold f. rewrite !Z.ltb_lt. lia. }
  destruct (prune_list_firstn max_storage (latest :: rest)) as [j Ej].
  assert (Hin : In s (prune_list max_storage (latest :: rest))).
  { unfold prune_list. apply in_rev. rewrite rev_involutive.
    apply skipn_while_keeps; [now apply in_rev in HsL |exact Hfs]. }
  split; [|split; [|exact Hin]].
  - rewrite Ej. apply ss_newest_first, ss_firstn, HL.
  - rewrite Ej in Hin, Hkeep |- *. destruct j as [|j]; [destruct Hin|].
    cbn [firstn within_window]. apply forallb_forall. intros x Hx.
    specialize (Hkeep x Hx). unfold f in Hkeep. apply Z.ltb_ge in Hkeep. apply Z.leb_le. lia.
Qed.

(** C20: Invariant of a frame's history: an insertion [insertData]
    accepts keeps the history newest first, drops everything older than
    the newest entry by more than [cache_time], and keeps the inserted
    transform. *)
Theorem insert_data_invariant max_storage s l l' :
  0 <= max_storage -> newest_first l = true ->
  insert_data max_storage s (Dynamic l) = Some (Dynamic l') ->
  newest_first l' = true /\ within_window max_storage l' = true /\ In s l'.
Proof. exact (insert_data_lemma max_storage s l l'). Qed.

(** A buffer holding one transform from [par] to [child]. *)
Section SingleEdge.
Variables (ct : Z) (ts : TransformStamped.t).
Let child := TransformStamped.child_frame_id ts.
Let par := Header.frame_id (TransformStamped.header ts).
Let q := Transform.rotation (TransformStamped.transform ts).
Let v := Transform.translation (TransformStamped.transform ts).
Let t0 := time_ns (Header.stamp (TransformStamped.header ts)).
Hypothesis (Hne : child <> par) (Hc : child <> EmptyString) (Hp : par <> EmptyString)
  (Hcs : starts_with_slash child = false) (Hps : starts_with_slash par = false)
  (Hcn : child <> "NO_PARENT"%string) (Hpn : par <> "NO_PARENT"%string)
  (Hq : (Rabs (Geo.qnorm2 q - 1) < quaternion_normalization_tolerance)%R) (Hct : 0 <= ct).

Lemma set_transform_single_edge : set_transform (init ct) ts false = (true, single_edge ct ts).
Proof.
  unfold set_transform. fold child par q.
  rewrite (strip_slash_id _ Hcs), (strip_slash_id _ Hps).
  rewrite (proj2 (String.eqb_neq _ _) Hne), (proj2 (String.eqb_neq _ _) Hc), (proj2 (String.eqb_neq _ _) Hp).
  destruct (Rlt_dec _ _) as [_|Hn]; [|contradiction]. cbn [orb].
  unfold lookup_or_insert_frame_number, init. cbn [frames map fst index_of cache_time].
  rewrite (proj2 (String.eqb_neq _ _) Hcn). cbn [option_map List.length app get_frame frames nth_error].
  cbn [map fst index_of].
  rewrite (proj2 (String.eqb_neq _ _) Hpn), (proj2 (String.eqb_neq _ _) (not_eq_sym Hne)). cbn.
  rewrite (proj2 (Z.ltb_ge _ _)) by lia. reflexivity.
Qed.

Lemma validate_par : validate_frame_id (single_edge ct ts) par = Ok 2%nat.
Proof.
  unfold validate_frame_id. rewrite (proj2 (String.eqb_neq _ _) Hp), Hps.
  unfold lookup_frame_number. cbn [single_edge frames map fst index_of]. fold child par.
  rewrite (proj2 (String.eqb_neq _ _) Hpn), (proj2 (String.eqb_neq _ _) (not_eq_sym Hne)). cbn.
  now rewrite String.eqb_refl.
Qed.

Lemma validate_child : validate_frame_id (single_edge ct ts) child = Ok 1%nat.
Proof.
  unfold validate_frame_id. rewrite (proj2 (String.eqb_neq _ _) Hc), Hcs.
  unfold lookup_frame_number. cbn [single_edge frames map fst index_of]. fold child par.
  rewrite (proj2 (String.eqb_neq _ _) Hcn), String.eqb_refl. reflexivity.
Qed.
Lemma gather_child t : t <> 0 ->
  gather (single_edge ct ts) 1 t = Some (if t0 =? t then Some (mk_storage t0 2 1 v q) else None).
Proof.
  intros Ht. unfold gather, get_data, find_closest. cbn [get_frame single_edge frames nth_error].
  fold t0 v q. rewrite (proj2 (Z.eqb_neq _ _) Ht). cbn [stamp]. now destruct (t0 =? t).
Qed.

Lemma gather_par t : gather (single_edge ct ts) 2 t = None.
Proof. reflexivity. Qed.

(** The walks of a lookup on the buffer [single_edge]. *)
Lemma walk_up t : t <> 0 ->
  walk_to_top_parent (single_edge ct ts) t 2 1 =
  if t0 =? t then Ok (t, (v, q)) else Err ExtrapolationException.
Proof.
  intros Ht. unfold walk_to_top_parent. cbn [Nat.eqb]. rewrite (proj2 (Z.eqb_neq _ _) Ht). cbn [rbind].
  walk_step. rewrite (gather_child t Ht). destruct (t0 =? t).
  - cbn [parent Nat.eqb]. do 2 walk_step. rewrite gather_par. walk_step.
    rewrite finalize_full_path_identity, accum_identity. reflexivity.
  - walk_step. now rewrite gather_par.
Qed.

Lemma walk_down t : t <> 0 ->
  walk_to_top_parent (single_edge ct ts) t 1 2 =
  if t0 =? t then Ok (t, finalize_source_parent (v, q)) else Err ExtrapolationException.
Proof.
  intros Ht. unfold walk_to_top_parent. cbn [Nat.eqb]. rewrite (proj2 (Z.eqb_neq _ _) Ht). cbn [rbind].
  walk_step. rewrite gather_par. walk_step. rewrite (gather_child t Ht).
  destruct (t0 =? t); [|reflexivity].
  cbn [parent Nat.eqb]. do 2 walk_step. rewrite accum_identity, finalize_full_path_identity_source. reflexivity.
Qed.

(** ** Properties of the buffer *)

(** C34: Round trip through the buffer: once the listener has stored a
    transform from [par] to [child] (valid: distinct non-empty frame ids
    without a leading slash, a quaternion of norm within tolerance),
    [lookupTransform] at its stamp gives it back from [child] to [par],
    and its inverse from [par] to [child]. *)
Theorem set_transform_lookup_roundtrip :
  t0 <> 0 ->
  let b := snd (set_transform (init ct) ts false) in
  let stamp := Header.stamp (TransformStamped.header ts) in
  lookup_transform b par child stamp =
    Ok (TransformStamped.mk (Header.mk 0 stamp par) child (TransformStamped.transform ts)) /\
  lookup_transform b child par stamp =
    Ok (TransformStamped.mk (Header.mk 0 stamp child) par
          (Transform.mk (quat_rotate (qinverse q) (vneg v)) (qinverse q))).
Proof.
  intros Ht. cbv zeta. rewrite set_transform_single_edge. cbn [snd].
  unfold lookup_transform. rewrite (proj2 (String.eqb_neq _ _) (not_eq_sym Hne)),
    (proj2 (String.eqb_neq _ _) Hne), validate_par, validate_child. cbn [rbind].
  fold t0. rewrite (walk_up t0 Ht), (walk_down t0 Ht), Z.eqb_refl.
  cbn [rbind fst snd]. rewrite (proj2 (Z.eqb_neq _ _) Ht).
  split; [now destruct (TransformStamped.transform ts) | reflexivity].
Qed.

(** C35: A query at another time than the one stamp held raises
    [ExtrapolationException], in both directions: tf2 does not
    extrapolate from a single transform. *)
Theorem set_transform_lookup_extrapolation time :
  time_ns time <> 0 -> time_ns time <> t0 ->
  let b := snd (set_transform (init ct) ts false) in
  lookup_transform b par child time = Err ExtrapolationException /\
  lookup_transform b child par time = Err ExtrapolationException.
Proof.
  intros Ht Ht0. cbv zeta. rewrite set_transform_single_edge. cbn [snd].
  unfold lookup_transform. rewrite (proj2 (String.eqb_neq _ _) (not_eq_sym Hne)),
    (proj2 (String.eqb_neq _ _) Hne), validate_par, validate_child. cbn [rbind].
  rewrite (walk_up _ Ht), (walk_down _ Ht), (proj2 (Z.eqb_neq _ _) (not_eq_sym Ht0)). now split.
Qed.
End SingleEdge.

(** The walk from the source along a chain of [k] links reaches the top
    when it has more than [k] iterations left ... *)
Lemma walk_source_chain b time root f k :
  root <> 0%nat -> chain_to_root b time root f k ->
  forall fuel top a, (k < fuel)%nat -> exists a', walk_source b time root fuel f top a = SourceTop root a' false.
Proof.
  intros H0. induction 1 as [Hg|f k st Hf Hfr Hg Hp _ IH]; intros [|fuel] top a Hk; try lia.
  - exists a. rewrite walk_source_S, (proj2 (Nat.eqb_neq _ _) H0), Hg. reflexivity.
  - rewrite walk_source_S, (proj2 (Nat.eqb_neq _ _) Hf), Hg, (proj2 (Nat.eqb_neq _ _) Hp),
      (proj2 (Nat.eqb_neq _ _) Hfr). apply IH. lia.
Qed.

(** ... and runs out of them, tf2's [depth > MAX_GRAPH_DEPTH], otherwise. *)
Lemma walk_source_chain_loop b time root f k :
  chain_to_root b time root f k ->
  forall fuel top a, (fuel <= k)%nat -> walk_source b time root fuel f top a = SourceLoop.
Proof.
  induction 1 as [Hg|f k st Hf Hfr Hg Hp _ IH]; intros [|fuel] top a Hk; try lia; try reflexivity.
  rewrite walk_source_S, (proj2 (Nat.eqb_neq _ _) Hf), Hg, (proj2 (Nat.eqb_neq _ _) Hp),
    (proj2 (Nat.eqb_neq _ _) Hfr). apply IH. lia.
Qed.

(** [validateFrameId] never answers with frame 0, [NO_PARENT]. *)
Lemma validate_frame_id_nonzero b name id : validate_frame_id b name = Ok id -> id <> 0%nat.
Proof.
  unfold validate_frame_id. destruct (String.eqb name EmptyString), (starts_with_slash name); try discriminate.
  destruct (Nat.eqb_spec (lookup_frame_number b name) 0); congruence.
Qed.

Lemma chain_to_root_self b time root k : chain_to_root b time root root k -> k = 0%nat.
Proof. inversion 1; [reflexivity | congruence]. Qed.

(** C19: Bound of [walkToTopParent]: when the parents of the source
    frame lead to the target, the top of the tree, in [k] links,
    [lookupTransform] answers when [k <= MAX_GRAPH_DEPTH = 1000] and
    raises [LookupException] ("the tf tree is invalid because it
    contains a loop") when [k > 1000]: the walk gives up exactly after
    tf2's [++depth; if (depth > MAX_GRAPH_DEPTH)], which is also what
    ends it on a cyclic tree. *)
Theorem lookup_transform_depth_bound b target source time tid sid k :
  time_ns time <> 0 -> target <> source ->
  validate_frame_id b target = Ok tid -> validate_frame_id b source = Ok sid ->
  chain_to_root b (time_ns time) tid sid k ->
  ((k <= 1000)%nat -> exists ts, lookup_transform b target source time = Ok ts) /\
  ((1000 < k)%nat -> lookup_transform b target source time = Err LookupException).
Proof.
  intros Ht Hne Htid Hsid Hc. unfold lookup_transform.
  rewrite (proj2 (String.eqb_neq _ _) Hne), Htid, Hsid. cbn [rbind]. unfold walk_to_top_parent.
  destruct (Nat.eqb_spec sid tid) as [->|Hst].
  - apply chain_to_root_self in Hc as ->. split; [intros _; cbn [rbind]; eexists; reflexivity | lia].
  - rewrite (proj2 (Z.eqb_neq _ _) Ht). cbn [rbind].
    pose proof (validate_frame_id_nonzero _ _ _ Htid) as H0.
    split; intros Hk.
    + destruct (walk_source_chain b _ tid sid k H0 Hc (S max_graph_depth) sid acc_identity)
        as [a' ->]; [unfold max_graph_depth; lia|].
      rewrite walk_target_S, Nat.eqb_refl, Nat.eqb_refl. cbn [rbind]. eexists. reflexivity.
    + rewrite (walk_source_chain_loop b _ tid sid k Hc); [reflexivity | unfold max_graph_depth; lia].
Qed.

(** ** Witnesses *)

Lemma lookup_transform_depth_bound_witness :
  exists ts, lookup_transform (single_edge 10000000000 ex_camera) "base_link" "camera" (Time.mk 100 0) = Ok ts.
Proof.
  apply (lookup_transform_depth_bound _ "base_link" "camera" (Time.mk 100 0) 2 1 1);
    [ unfold time_ns; cbn; discriminate | discriminate | reflexivity | reflexivity | | lia ].
  eapply chain_link; [discriminate | discriminate | reflexivity | discriminate | ].
  apply chain_root. reflexivity.
Defined.

Lemma insert_data_invariant_witness :
  let s := mk_storage 30000000000 2 1 Vector3.default Geo.qidentity in
  let l := [mk_storage 25000000000 2 1 Vector3.default Geo.qidentity;
            mk_storage 21000000000 2 1 Vector3.default Geo.qidentity;
            mk_storage 12000000000 2 1 Vector3.default Geo.qidentity] in
  let l' := [s; mk_storage 25000000000 2 1 Vector3.default Geo.qidentity;
             mk_storage 21000000000 2 1 Vector3.default Geo.qidentity] in
  newest_first l' = true /\ within_window 10000000000 l' = true /\ In s l'.
Proof.
  intros s l l'. apply (insert_data_invariant 10000000000 s l l'); [lia | reflexivity | reflexivity].
Defined.

(** The hypotheses of the single-edge theorems at [ex_camera]. *)
Ltac ex_camera_hyps :=
  first [ discriminate | reflexivity | lia
        | (unfold time_ns; cbn; discriminate)
        | (cbv beta iota zeta delta [ex_camera TransformStamped.transform Transform.rotation Geo.qnorm2 Geo.qidentity];
           replace (0 * 0 + 0 * 0 + 0 * 0 + 1 * 1 - 1)%R with 0%R by ring; rewrite Rabs_R0;
           unfold quaternion_normalization_tolerance; lra) ].

Lemma set_transform_lookup_roundtrip_witness :
  let b := snd (set_transform (init 10000000000) ex_camera false) in
  lookup_transform b "base_link" "camera" (Time.mk 100 0) =
    Ok (TransformStamped.mk (Header.mk 0 (Time.mk 100 0) "base_link") "camera"
          (Transform.mk (Vector3.mk 0.2 0 0.1) Geo.qidentity)) /\
  lookup_transform b "camera" "base_link" (Time.mk 100 0) =
    Ok (TransformStamped.mk (Header.mk 0 (Time.mk 100 0) "camera") "base_link"
          (Transform.mk (quat_rotate (qinverse Geo.qidentity) (vneg (Vector3.mk 0.2 0 0.1)))
                        (qinverse Geo.qidentity))).
Proof.
  apply (set_transform_lookup_roundtrip 10000000000 ex_camera); ex_camera_hyps.
Defined.

Lemma set_transform_lookup_extrapolation_witness :
  let b := snd (set_transform (init 10000000000) ex_camera false) in
  lookup_transform b "base_link" "camera" (Time.mk 101 0) = Err ExtrapolationException /\
  lookup_transform b "camera" "base_link" (Time.mk 101 0) = Err ExtrapolationException.
Proof.
  apply (set_transform_lookup_extrapolation 10000000000 ex_camera); ex_camera_hyps.
Defined.
End Tf2Facts.
