(* ===== verification/Tf2Chain.v ===== *)
(** The node's real query through tf2: [lookup_transform('aruco<id>',
    "base_link", stamp)] (line 57) crosses two links of the frame tree,
    the static mount of the camera on [base_link] (published on
    [/tf_static]) and the marker detection from the camera (published on
    [/tf] at the stamp of the marker message).

    [camera_chain ct bc ca] is the buffer after the listener has stored
    [bc] (static, [base] to [cam]) and then [ca] ([cam] to the marker):
    [cam] is frame 1, [base] frame 2 and the marker frame 3.  The lemmas
    run [walkToTopParent] on it: the walk from [base_link] stops at once
    (it has no parent), the walk from the marker accumulates the
    detection and then the mount.  The theorem: at the detection's stamp
    tf2 answers with the inverse of the composed chain, the pose of
    [base_link] in the marker frame, and the Python wait loop returns
    that answer at its first poll.  For any timeline, the wait loop with
    the node's 0.5 s timeout answers what the first of the buffer at the
    call and its 10 later polled snapshots that can answer gives. *)
From Stdlib Require Import List Bool ZArith Ascii String Reals Lia Lra.
From S2P Require Import Prelude Msgs Geometry Tf Tf2.
Import ListNotations.
Open Scope Z_scope.

Import TimeCache BufferCore Tf2Facts.

(** The transform a stamped transform carries, as a [Transform.t]. *)
Definition tf_of (ts : TransformStamped.t) : Transform.t := TransformStamped.transform ts.

(** The buffer after [set_transform bc true] on an empty buffer. *)
Definition camera_mount (ct : Z) (bc : TransformStamped.t) : buffer :=
  mk_buffer
    [("NO_PARENT"%string, None);
     (TransformStamped.child_frame_id bc,
      Some (Static (mk_storage (time_ns (Header.stamp (TransformStamped.header bc))) 2 1
                               (Transform.translation (tf_of bc)) (Transform.rotation (tf_of bc)))));
     (Header.frame_id (TransformStamped.header bc), None)] ct.

(** The buffer after [set_transform ca false] on [camera_mount ct bc]. *)
Definition camera_chain (ct : Z) (bc ca : TransformStamped.t) : buffer :=
  mk_buffer
    [("NO_PARENT"%string, None);
     (TransformStamped.child_frame_id bc,
      Some (Static (mk_storage (time_ns (Header.stamp (TransformStamped.header bc))) 2 1
                               (Transform.translation (tf_of bc)) (Transform.rotation (tf_of bc)))));
     (Header.frame_id (TransformStamped.header bc), None);
     (TransformStamped.child_frame_id ca,
      Some (Dynamic [mk_storage (time_ns (Header.stamp (TransformStamped.header ca))) 1 3
                                (Transform.translation (tf_of ca)) (Transform.rotation (tf_of ca))]))] ct.

(** What the Python [lookup_transform(target, source, time, timeout)]
    is meant to return: the answer of the first of the snapshots polled
    that can answer, or the error of the last one. *)
Fixpoint first_answer (target source : string) (time : Time.t) (b : buffer) (rest : list buffer)
  : res TransformStamped.t :=
  match lookup_transform b target source time, rest with
  | Ok ts, _ => Ok ts
  | Err e, [] => Err e
  | Err _, b' :: rest' => first_answer target source time b' rest'
  end.

(** A camera mounted 0.2 m ahead and 0.1 m above [base_link], and a
    detection of marker 11 one metre ahead of the camera. *)
Definition ex_mount : TransformStamped.t :=
  TransformStamped.mk (Header.mk 0 (Time.mk 0 0) "base_link"%string) "usb_cam"%string
    (Transform.mk (Vector3.mk 0.2 0 0.1) Geo.qidentity).

Definition ex_detection : TransformStamped.t :=
  TransformStamped.mk (Header.mk 0 (Time.mk 100 0) "usb_cam"%string) "aruco11"%string
    (Transform.mk (Vector3.mk 1 0 0) Geo.qidentity).

(** ** Lemmas *)

Lemma neq_eqb s1 s2 : s1 <> s2 -> String.eqb s1 s2 = false.
Proof. apply String.eqb_neq. Qed.

Lemma qnorm2_tolerance q : Geo.qnorm2 q = 1%R ->
  (Rabs (Geo.qnorm2 q - 1) < quaternion_normalization_tolerance)%R.
Proof.
  intros ->. replace (1 - 1)%R with 0%R by ring. rewrite Rabs_R0.
  unfold quaternion_normalization_tolerance. lra.
Qed.

(** The accumulated path of two links, finalised: the inverse of the
    composition of the two transforms. *)
Lemma finalize_two_links v1 q1 v2 q2 :
  finalize_full_path acc_identity
    (accum (mk_storage 0 0 0 v1 q1) (accum (mk_storage 0 0 0 v2 q2) acc_identity)) =
  let t := Geo.transform_inverse (Geo.transform_mul (Transform.mk v1 q1) (Transform.mk v2 q2)) in
  (Transform.translation t, Transform.rotation t).
Proof. destruct v1, q1, v2, q2. cbv -[Rplus Rmult Rminus Ropp]. f_equal; f_equal; ring. Qed.

(** Decide the comparisons of frame names from the hypotheses. *)
Ltac frame_names :=
  repeat match goal with
         | |- context [String.eqb ?a ?b] => rewrite (proj2 (String.eqb_eq a b) eq_refl)
         | |- context [String.eqb ?a ?b] =>
             rewrite (neq_eqb a b) by first [assumption | apply not_eq_sym; assumption]
         end.

Lemma accum_storage st : accum st = accum (mk_storage 0 0 0 (translation st) (rotation st)).
Proof. reflexivity. Qed.

Section Chain.
Variables (ct : Z) (bc ca : TransformStamped.t).
Let base := Header.frame_id (TransformStamped.header bc).
Let cam := TransformStamped.child_frame_id bc.
Let mk := TransformStamped.child_frame_id ca.
Let t := time_ns (Header.stamp (TransformStamped.header ca)).
Hypothesis (Hcam : Header.frame_id (TransformStamped.header ca) = cam)
  (Hbc : base <> cam) (Hbm : base <> mk) (Hcm : cam <> mk)
  (Hb : base <> EmptyString) (Hc : cam <> EmptyString) (Hm : mk <> EmptyString)
  (Hbs : starts_with_slash base = false) (Hcs : starts_with_slash cam = false)
  (Hms : starts_with_slash mk = false)
  (Hbn : base <> "NO_PARENT"%string) (Hcn : cam <> "NO_PARENT"%string) (Hmn : mk <> "NO_PARENT"%string)
  (Hqb : Geo.qnorm2 (Transform.rotation (tf_of bc)) = 1%R)
  (Hqa : Geo.qnorm2 (Transform.rotation (tf_of ca)) = 1%R)
  (Hct : 0 <= ct) (Ht : t <> 0).

Lemma set_transform_mount : set_transform (init ct) bc true = (true, camera_mount ct bc).
Proof.
  unfold set_transform. cbv zeta. fold cam base. rewrite (strip_slash_id _ Hcs), (strip_slash_id _ Hbs).
  frame_names. destruct (Rlt_dec _ _) as [_|Hn]; [|exfalso; exact (Hn (qnorm2_tolerance _ Hqb))].
  unfold lookup_or_insert_frame_number, init. repeat progress (cbn; frame_names). reflexivity.
Qed.

Lemma set_transform_chain : set_transform (camera_mount ct bc) ca false = (true, camera_chain ct bc ca).
Proof.
  unfold set_transform. cbv zeta. fold mk. rewrite Hcam. rewrite (strip_slash_id _ Hcs), (strip_slash_id _ Hms).
  frame_names. destruct (Rlt_dec _ _) as [_|Hn]; [|exfalso; exact (Hn (qnorm2_tolerance _ Hqa))].
  unfold lookup_or_insert_frame_number, camera_mount. repeat progress (cbn; frame_names).
  rewrite (proj2 (Z.ltb_ge _ _)) by lia. reflexivity.
Qed.

Lemma validate_base : validate_frame_id (camera_chain ct bc ca) base = Ok 2%nat.
Proof.
  unfold validate_frame_id. rewrite Hbs. frame_names.
  unfold lookup_frame_number. cbn. fold cam base mk. frame_names. reflexivity.
Qed.

Lemma validate_marker : validate_frame_id (camera_chain ct bc ca) mk = Ok 3%nat.
Proof.
  unfold validate_frame_id. rewrite Hms. frame_names.
  unfold lookup_frame_number. cbn. fold cam base mk. frame_names. reflexivity.
Qed.

(** The walks of the query [mk] from [base] at the detection's stamp. *)
Lemma walk_chain :
  walk_to_top_parent (camera_chain ct bc ca) t 3 2 =
  Ok (t, let r := Geo.transform_inverse (Geo.transform_mul (tf_of bc) (tf_of ca)) in
         (Transform.translation r, Transform.rotation r)).
Proof.
  unfold walk_to_top_parent. cbn [Nat.eqb]. rewrite (proj2 (Z.eqb_neq _ _) Ht). cbn [rbind].
  walk_step. walk_step. cbn [gather get_frame camera_chain frames nth_error].
  walk_step. unfold gather at 1. cbn [get_frame camera_chain frames nth_error get_data find_closest].
  fold t. rewrite (proj2 (Z.eqb_neq _ _) Ht). cbn [stamp]. rewrite Z.eqb_refl. cbn [parent Nat.eqb].
  walk_step. unfold gather at 1. cbn [get_frame camera_chain frames nth_error get_data parent Nat.eqb].
  walk_step. cbn [Nat.eqb].
  rewrite (accum_storage (mk_storage t 2 1 _ _)), (accum_storage (mk_storage t 1 3 _ _)).
  cbn [translation rotation]. rewrite finalize_two_links.
  destruct (tf_of bc), (tf_of ca). reflexivity.
Qed.

Lemma lookup_chain :
  lookup_transform (camera_chain ct bc ca) mk base (Header.stamp (TransformStamped.header ca)) =
  Ok (TransformStamped.mk (Header.mk 0 (Header.stamp (TransformStamped.header ca)) mk) base
        (Geo.transform_inverse (Geo.transform_mul (tf_of bc) (tf_of ca)))).
Proof.
  unfold lookup_transform. rewrite (neq_eqb _ _ (not_eq_sym Hbm)), validate_base, validate_marker.
  cbn [rbind]. fold t. rewrite walk_chain. cbn [rbind fst snd].
  rewrite (proj2 (Z.eqb_neq _ _) Ht). now destruct (Geo.transform_inverse _).
Qed.

(** ** Properties *)

(** C9: The node's query through the camera: once the listener has
    stored the static camera mount [bc] and a detection [ca] of the
    marker (valid, distinct frame ids), the Python [lookup_transform]
    from [base_link] to the marker frame at the detection's stamp
    answers at its first poll with the inverse of the composed chain,
    [(bc * ca)^-1]: the pose of [base_link] in the marker frame. *)
Theorem lookup_transform_camera_chain later timeout :
  let b := snd (set_transform (snd (set_transform (init ct) bc true)) ca false) in
  let stamp := Header.stamp (TransformStamped.header ca) in
  PyBuffer.lookup_transform (PyBuffer.mk_timeline b later) mk base stamp timeout =
  Ok (TransformStamped.mk (Header.mk 0 stamp mk) base
        (Geo.transform_inverse (Geo.transform_mul (tf_of bc) (tf_of ca)))).
Proof.
  cbv zeta. rewrite set_transform_mount. cbn [snd]. rewrite set_transform_chain. cbn [snd].
  assert (Hcan : can_transform (camera_chain ct bc ca) mk base (Header.stamp (TransformStamped.header ca)) = true)
    by (unfold can_transform; now rewrite lookup_chain).
  unfold PyBuffer.lookup_transform. cbn [PyBuffer.now PyBuffer.later].
  destruct (PyBuffer.polls timeout), later; cbn [PyBuffer.wait]; rewrite ?Hcan, lookup_chain; reflexivity.
Qed.
End Chain.

(** The wait loop stops at the first snapshot that can answer, and the
    lookup that follows gives that answer; after [n] polls it looks up
    the last snapshot. *)
Lemma wait_first_answer target source time n b rest :
  lookup_transform (PyBuffer.wait target source time n b rest) target source time =
  first_answer target source time b (firstn n rest).
Proof.
  revert b rest. induction n as [|n IH]; intros b rest; cbn [PyBuffer.wait firstn].
  - cbn. destruct (lookup_transform b target source time); reflexivity.
  - destruct rest as [|b' rest]; cbn [firstn].
    + cbn. destruct (lookup_transform b target source time); reflexivity.
    + unfold can_transform. cbn [first_answer].
      destruct (lookup_transform b target source time) eqn:E; [now rewrite E | apply IH].
Qed.

(** [first_answer] read off the snapshots: it answers [ts] exactly when
    some snapshot answers [ts] and every earlier one fails. *)
Lemma first_answer_ok target source time b rest ts :
  first_answer target source time b rest = Ok ts <->
  exists k b', nth_error (b :: rest) k = Some b' /\ lookup_transform b' target source time = Ok ts /\
    forall j b'', (j < k)%nat -> nth_error (b :: rest) j = Some b'' ->
      can_transform b'' target source time = false.
Proof.
  revert b. induction rest as [|b1 rest IH]; intros b; cbn [first_answer].
  - split.
    + intros H. exists 0%nat, b. destruct (lookup_transform b _ _ _); [|discriminate].
      repeat split; [exact H | intros; lia].
    + intros ([|[|k]] & b' & Hk & Hl & _); cbn in Hk; try discriminate.
      injection Hk as <-. now rewrite Hl.
  - unfold can_transform. destruct (lookup_transform b target source time) as [ts0|e] eqn:E; split.
    + intros H. exists 0%nat, b. repeat split; [congruence | intros; lia].
    + intros ([|k] & b' & Hk & Hl & Hj); cbn in Hk.
      * injection Hk as <-. congruence.
      * specialize (Hj 0%nat b ltac:(lia) eq_refl). now rewrite E in Hj.
    + intros H. apply IH in H as (k & b' & Hk & Hl & Hj). exists (S k), b'.
      repeat split; [exact Hk | exact Hl|]. intros [|j] b'' Hjk Hjb; cbn in Hjb.
      * injection Hjb as <-. now rewrite E.
      * apply (Hj j b''); [lia | exact Hjb].
    + intros ([|k] & b' & Hk & Hl & Hj); cbn in Hk.
      * injection Hk as <-. congruence.
      * apply IH. exists k, b'. repeat split; [exact Hk | exact Hl|].
        intros j b'' Hjk Hjb. apply (Hj (S j) b''); [lia | exact Hjb].
Qed.

Lemma nth_error_cons_firstn {A} (b : A) l n k :
  nth_error (b :: firstn n l) k = if Nat.leb k n then nth_error (b :: l) k else None.
Proof.
  destruct k as [|k]; cbn [nth_error]; [reflexivity|]. rewrite nth_error_firstn.
  destruct (Nat.ltb_spec k n), (Nat.leb_spec (S k) n); try lia; reflexivity.
Qed.

Lemma py_lookup_now tl target source time timeout ts :
  lookup_transform (PyBuffer.now tl) target source time = Ok ts ->
  PyBuffer.lookup_transform tl target source time timeout = Ok ts.
Proof.
  intros H. unfold PyBuffer.lookup_transform. rewrite wait_first_answer.
  destruct (firstn _ _); cbn; now rewrite H.
Qed.

(** C22: The Python wait loop of the node's query (timeout 0.5 s, line
    57): [lookup_transform] answers [ts] exactly when one of the buffer
    at the call and the first 10 later snapshots the [rospy.Rate(20)]
    polls see answers [ts], and [can_transform] failed on every snapshot
    polled before it: the loop polls 10 times, stops at the first
    snapshot that can answer and the lookup that follows reads that
    snapshot. *)
Theorem py_lookup_half_second tl target source time ts :
  PyBuffer.lookup_transform tl target source time duration_half_second = Ok ts <->
  exists k b, (k <= 10)%nat /\ nth_error (PyBuffer.now tl :: PyBuffer.later tl) k = Some b /\
    lookup_transform b target source time = Ok ts /\
    forall j b', (j < k)%nat -> nth_error (PyBuffer.now tl :: PyBuffer.later tl) j = Some b' ->
      can_transform b' target source time = false.
Proof.
  unfold PyBuffer.lookup_transform. rewrite wait_first_answer, first_answer_ok.
  change (PyBuffer.polls duration_half_second) with 10%nat.
  split.
  - intros (k & b & Hk & Hl & Hj). rewrite nth_error_cons_firstn in Hk.
    destruct (Nat.leb_spec k 10); [|discriminate]. exists k, b. repeat split; auto.
    intros j b' Hjk Hjb. apply (Hj j b' Hjk). rewrite nth_error_cons_firstn.
    destruct (Nat.leb_spec j 10); [exact Hjb | lia].
  - intros (k & b & Hk10 & Hk & Hl & Hj). exists k, b. repeat split; auto.
    + rewrite nth_error_cons_firstn. destruct (Nat.leb_spec k 10); [exact Hk | lia].
    + intros j b' Hjk Hjb. rewrite nth_error_cons_firstn in Hjb.
      destruct (Nat.leb_spec j 10); [exact (Hj j b' Hjk Hjb) | discriminate].
Qed.

(** ** Witnesses *)

Lemma qnorm2_qidentity : Geo.qnorm2 Geo.qidentity = 1%R.
Proof. cbv -[Rplus Rmult]. ring. Qed.

Lemma lookup_transform_camera_chain_witness :
  PyBuffer.lookup_transform
    (PyBuffer.mk_timeline (snd (set_transform (snd (set_transform (init 10000000000) ex_mount true))
                                              ex_detection false)) [])
    "aruco11" "base_link" (Time.mk 100 0) (Time.mk 0 500000000) =
  Ok (TransformStamped.mk (Header.mk 0 (Time.mk 100 0) "aruco11") "base_link"
        (Geo.transform_inverse (Geo.transform_mul (tf_of ex_mount) (tf_of ex_detection)))).
Proof.
  apply (lookup_transform_camera_chain 10000000000 ex_mount ex_detection);
    first [reflexivity | discriminate | lia | exact qnorm2_qidentity | (unfold time_ns; cbn; discriminate)].
Defined.
