(* ===== verification/Tf2Interp.v ===== *)
(** The read side of a frame's history ([TimeCache::getData]) at times
    between stored stamps, and the write/read round trip of a history.

    - [slerp] at ratio 0 is its first quaternion: the angle [theta] tf2
      computes is [acos] of a non-negative number, so it lies in
      [[0, pi/2]] and [sin theta] is not 0 when [theta] is not;
    - [lerp] at ratio 0 is its first vector, and for a ratio in [[0, 1]]
      each coordinate lies between those of its two vectors;
    - [find_closest] only ever returns stored entries, and the two
      entries it interpolates surround the requested time.

    The theorems: a query at a stamp the history holds returns the
    transform stored there, even between two other entries (the
    interpolation has ratio 0), so a transform [insertData] accepts can
    be read back at its stamp; and whatever a query returns, each
    coordinate of its translation lies between those of two stored
    entries: tf2 interpolates and never extrapolates. *)
From Stdlib Require Import List Bool ZArith Reals Lia Lra Sorting.Sorted.
From S2P Require Import Prelude Msgs Geometry Tf2.
Import ListNotations.
Open Scope R_scope.

Import TimeCache.

(** Stamps strictly decreasing: newest first, no stamp twice (what
    [insertData] keeps, rejecting [TF_REPEATED_DATA]). *)
Definition newer (a b : storage) : Prop := (stamp b < stamp a)%Z.

(** [x] lies between [a] and [b]. *)
Definition between (a b x : R) : Prop := Rmin a b <= x <= Rmax a b.

(** Each coordinate of [v] lies between those of [a] and [b]. *)
Definition vbetween (a b v : Vector3.t) : Prop :=
  between (Vector3.x a) (Vector3.x b) (Vector3.x v) /\
  between (Vector3.y a) (Vector3.y b) (Vector3.y v) /\
  between (Vector3.z a) (Vector3.z b) (Vector3.z v).

(** ** The angle of [slerp] *)

Lemma Rdiv_nonneg a b : 0 <= a -> 0 <= b -> 0 <= a / b.
Proof.
  intros Ha Hb. unfold Rdiv. destruct (Req_dec b 0) as [->|Hb0].
  - rewrite Rinv_0. lra.
  - apply Rmult_le_pos; [exact Ha|]. left. apply Rinv_0_lt_compat. lra.
Qed.

Lemma acos_nonneg_le a : 0 <= a -> acos a <= PI / 2.
Proof.
  intros Ha. pose proof PI_RGT_0. unfold acos.
  destruct (Rle_dec a (-1)); [lra|]. destruct (Rle_dec 1 a); [lra|].
  assert (H0 : 0 <= a / sqrt (1 - a²)) by (apply Rdiv_nonneg; [lra | apply sqrt_pos]).
  destruct H0 as [Hp| <-]; [|rewrite atan_0; lra].
  pose proof (atan_increasing 0 _ Hp) as Hi. rewrite atan_0 in Hi. lra.
Qed.

Lemma angle_arg_nonneg p q :
  0 <= (if Rlt_dec (qdot p q) 0 then - qdot p q else qdot p q) / sqrt (Geo.qnorm2 p * Geo.qnorm2 q).
Proof. apply Rdiv_nonneg; [destruct (Rlt_dec _ _); lra | apply sqrt_pos]. Qed.

(** The angle [slerp] uses is [acos] of that argument. *)
Lemma slerp_theta p q :
  angle_shortest_path p q / 2 =
  acos ((if Rlt_dec (qdot p q) 0 then - qdot p q else qdot p q) / sqrt (Geo.qnorm2 p * Geo.qnorm2 q)).
Proof. unfold angle_shortest_path. destruct (Rlt_dec _ _); unfold Rdiv; field. Qed.

Lemma sin_acos_nonneg a : 0 <= a -> acos a <> 0 -> sin (acos a) <> 0.
Proof.
  intros Ha Hne. pose proof (acos_bound a) as [H0 _]. pose proof (acos_nonneg_le _ Ha).
  pose proof PI_RGT_0. apply Rgt_not_eq, sin_gt_0; lra.
Qed.

Lemma sin_slerp_theta p q : angle_shortest_path p q / 2 <> 0 -> sin (angle_shortest_path p q / 2) <> 0.
Proof. rewrite slerp_theta. apply sin_acos_nonneg, angle_arg_nonneg. Qed.

(** [slerp] at ratio 0 is its first quaternion. *)
Lemma slerp_0 p q : slerp p q 0 = p.
Proof.
  unfold slerp. destruct (Req_EM_T _ 0) as [_|Hne]; [reflexivity|].
  pose proof (sin_slerp_theta p q Hne) as Hs.
  replace ((1 - 0) * (angle_shortest_path p q / 2)) with (angle_shortest_path p q / 2) by ring.
  replace (0 * (angle_shortest_path p q / 2)) with 0 by ring. rewrite sin_0.
  destruct p. cbn [Quaternion.x Quaternion.y Quaternion.z Quaternion.w]. f_equal; field; exact Hs.
Qed.

Lemma lerp_0 v0 v1 : lerp v0 v1 0 = v0.
Proof. destruct v0. unfold lerp. cbn. f_equal; ring. Qed.

Lemma lerp_between a b r : 0 <= r <= 1 -> between a b ((1 - r) * a + r * b).
Proof.
  intros Hr. unfold between, Rmin, Rmax.
  destruct (Rle_dec a b); split; nra.
Qed.

Lemma lerp_vbetween v0 v1 r : 0 <= r <= 1 -> vbetween v0 v1 (lerp v0 v1 r).
Proof. intros Hr. unfold vbetween, lerp. cbn. repeat split; apply lerp_between; exact Hr. Qed.

Lemma vbetween_refl v : vbetween v v v.
Proof. unfold vbetween, between, Rmin, Rmax. repeat split; destruct (Rle_dec _ _); lra. Qed.

(** The ratio of an interpolation inside the interval is in [[0, 1]]. *)
Lemma ratio_bounds (t0 t t1 : Z) :
  (t0 <= t <= t1)%Z -> (t0 < t1)%Z -> 0 <= IZR (t - t0) / IZR (t1 - t0) <= 1.
Proof.
  intros Ht H01. assert (Hd : 0 < IZR (t1 - t0)) by (apply IZR_lt; lia).
  assert (Hn : 0 <= IZR (t - t0)) by (apply IZR_le; lia).
  assert (Hle : IZR (t - t0) <= IZR (t1 - t0)) by (apply IZR_le; lia).
  split; [apply Rdiv_nonneg; lra|]. apply Rmult_le_reg_r with (IZR (t1 - t0)); [exact Hd|].
  unfold Rdiv. rewrite Rmult_assoc, Rinv_l by lra. lra.
Qed.

(** ** What [findClosest] returns *)

Lemma lower_bound_spec nw l time one two :
  (time < stamp nw)%Z -> lower_bound nw l time = Closest2 one two ->
  In one l /\ (two = nw \/ In two l) /\ (stamp one <= time < stamp two)%Z.
Proof.
  revert nw. induction l as [|e l IH]; intros nw Ht H; [discriminate|]. cbn in H.
  destruct (Z.leb_spec (stamp e) time) as [He|He].
  - injection H as <- <-. split; [now left|]. split; [now left | lia].
  - destruct (IH e He H) as (H1 & H2 & H3). split; [now right|]. split; [|exact H3].
    right. destruct H2 as [->|H2]; [now left | now right].
Qed.

Lemma lower_bound_not_one nw l time s : lower_bound nw l time <> Closest1 s.
Proof.
  revert nw. induction l as [|e l IH]; intros nw; cbn; [discriminate|].
  destruct (stamp e <=? time)%Z; [discriminate | apply IH].
Qed.

Lemma last_In_ne {A} (l : list A) d : l <> [] -> In (last l d) l.
Proof.
  induction l as [|x l IH]; intros Hne; [easy|]. destruct l as [|y l]; [now left|].
  right. apply IH. discriminate.
Qed.

Lemma last_In {A} (l : list A) d : In (last l d) (d :: l).
Proof. destruct l as [|x l]; [now left|]. right. apply last_In_ne. discriminate. Qed.

Lemma find_closest_one l time s : find_closest l time = Closest1 s -> In s l.
Proof.
  unfold find_closest. destruct l as [|latest rest]; [discriminate|].
  destruct (time =? 0)%Z; [intros H; injection H as <-; now left|].
  destruct rest as [|r rest].
  - destruct (_ =? _)%Z; [intros H; injection H as <-; now left | discriminate].
  - destruct (time =? stamp latest)%Z; [intros H; injection H as <-; now left|].
    destruct (time =? _)%Z; [intros H; injection H as <-; right; apply (last_In_ne (r :: rest)); discriminate|].
    destruct (_ <? _)%Z; [discriminate|]. destruct (_ <? _)%Z; [discriminate|].
    intros H. now apply lower_bound_not_one in H.
Qed.

Lemma find_closest_two l time one two :
  find_closest l time = Closest2 one two ->
  In one l /\ In two l /\ (stamp one <= time < stamp two)%Z.
Proof.
  unfold find_closest. destruct l as [|latest rest]; [discriminate|].
  destruct (time =? 0)%Z; [discriminate|]. destruct rest as [|r rest].
  - destruct (_ =? _)%Z; discriminate.
  - destruct (Z.eqb_spec time (stamp latest)) as [_|Hne]; [discriminate|].
    destruct (time =? _)%Z; [discriminate|].
    destruct (Z.ltb_spec (stamp latest) time) as [_|Hle]; [discriminate|]. destruct (_ <? _)%Z; [discriminate|].
    intros Hl. destruct (lower_bound_spec latest (r :: rest) time one two ltac:(lia) Hl) as (H1 & H2 & H3).
    split; [now right|]. split; [|exact H3]. destruct H2 as [->|H2]; [now left | now right].
Qed.

(** ** A history without repeated stamps *)
Section Strict.

Lemma newer_unique l a b :
  StronglySorted newer l -> In a l -> In b l -> stamp a = stamp b -> a = b.
Proof.
  induction 1 as [|x l _ IH Hx]; [easy|]. rewrite Forall_forall in Hx. unfold newer in Hx.
  intros [<-|Ha] [<-|Hb] E; auto; [specialize (Hx b Hb) | specialize (Hx a Ha)]; lia.
Qed.

Lemma newer_head_le x l e : StronglySorted newer (x :: l) -> In e (x :: l) -> (stamp e <= stamp x)%Z.
Proof.
  intros H [<-|He]; [lia|]. apply StronglySorted_inv in H as [_ H].
  rewrite Forall_forall in H. specialize (H e He). unfold newer in H. lia.
Qed.

Lemma last_oldest l d e : StronglySorted newer l -> In e l -> (stamp (last l d) <= stamp e)%Z.
Proof.
  induction 1 as [|x l Hs IH Hx]; [easy|]. intros [<-|He].
  - destruct l as [|y l]; [cbn; lia|]. change (last (x :: y :: l) d) with (last (y :: l) d).
    rewrite Forall_forall in Hx. specialize (Hx _ (last_In_ne (y :: l) d ltac:(discriminate))).
    unfold newer in Hx. lia.
  - destruct l as [|y l]; [destruct He|]. change (last (x :: y :: l) d) with (last (y :: l) d).
    exact (IH He).
Qed.


Lemma lower_bound_stored nw l e :
  StronglySorted newer l -> In e l -> (stamp e < stamp nw)%Z ->
  exists n, lower_bound nw l (stamp e) = Closest2 e n /\ (stamp e < stamp n)%Z.
Proof.
  intros H. revert nw. induction H as [|x l Hs IH Hx]; intros nw He Hn; [destruct He|]. cbn [lower_bound].
  destruct He as [<-|He]; [rewrite Z.leb_refl; now exists nw|].
  rewrite Forall_forall in Hx. specialize (Hx e He). unfold newer in Hx.
  rewrite (proj2 (Z.leb_gt _ _) Hx). exact (IH x He Hx).
Qed.

(** At a stamp the history holds, [findClosest] returns that entry, alone
    or as the older end of an interval. *)
Lemma find_closest_stored l e :
  StronglySorted newer l -> In e l -> stamp e <> 0%Z ->
  find_closest l (stamp e) = Closest1 e \/
  exists n, find_closest l (stamp e) = Closest2 e n /\ (stamp e < stamp n)%Z.
Proof.
  intros Hs He H0. destruct l as [|latest rest]; [destruct He|]. unfold find_closest.
  rewrite (proj2 (Z.eqb_neq _ _) H0). pose proof (newer_head_le _ _ _ Hs He) as Hle.
  destruct rest as [|r rest].
  - destruct He as [<-|[]]. rewrite Z.eqb_refl. now left.
  - destruct (Z.eqb_spec (stamp e) (stamp latest)) as [E|Ne].
    { left. f_equal. apply (newer_unique _ _ _ Hs); [now left | exact He | lia]. }
    destruct (Z.eqb_spec (stamp e) (stamp (last (latest :: r :: rest) latest))) as [E|Ne'].
    { left. f_equal. apply (newer_unique _ _ _ Hs); [right; apply (last_In_ne (r :: rest)); discriminate | exact He | lia]. }
    pose proof (last_oldest _ latest _ Hs He) as Hold.
    rewrite (proj2 (Z.ltb_ge _ _)) by lia. rewrite (proj2 (Z.ltb_ge _ _)) by lia.
    right. apply StronglySorted_inv in Hs as [Hs _].
    destruct He as [<-|He]; [lia|]. apply (lower_bound_stored latest _ _ Hs He). lia.
Qed.

(** The interpolation at the older end of an interval is that entry. *)
Lemma interpolate_at_one one two : stamp two <> stamp one -> interpolate one two (stamp one) = one.
Proof.
  intros Hne. unfold interpolate. rewrite (proj2 (Z.eqb_neq _ _) Hne), Z.sub_diag.
  unfold Rdiv. rewrite Rmult_0_l, lerp_0, slerp_0. now destruct one.
Qed.

Lemma get_data_stored l e :
  StronglySorted newer l -> In e l -> stamp e <> 0%Z -> get_data (Dynamic l) (stamp e) = Some e.
Proof.
  intros Hs He H0. unfold get_data.
  destruct (find_closest_stored l e Hs He H0) as [->|(n & -> & Hn)]; [reflexivity|].
  destruct (Nat.eqb _ _); [|reflexivity]. rewrite interpolate_at_one by lia. reflexivity.
Qed.

Lemma StronglySorted_firstn {A} (Q : A -> A -> Prop) k l :
  StronglySorted Q l -> StronglySorted Q (firstn k l).
Proof.
  revert l. induction k as [|k IH]; intros l H; [constructor|]. destruct l as [|x l]; [constructor|].
  apply StronglySorted_inv in H as [Hl Hx]. cbn [firstn]. constructor; [now apply IH|].
  rewrite Forall_forall in Hx |- *. intros y Hy. apply Hx. exact (Tf2Facts.In_firstn _ _ _ Hy).
Qed.

Lemma newer_insert_sorted s l l2 :
  StronglySorted newer l -> insert_sorted s l = Some l2 -> StronglySorted newer l2.
Proof.
  revert l2. induction l as [|e l IH]; intros l2 Hs Hi; cbn in Hi.
  - injection Hi as <-. repeat constructor.
  - destruct (Z.leb_spec (stamp e) (stamp s)) as [Hle|Hgt].
    + destruct (Z.eqb_spec (stamp e) (stamp s)); [discriminate|]. injection Hi as <-.
      constructor; [exact Hs|]. constructor; [unfold newer; lia|].
      apply StronglySorted_inv in Hs as [_ Hf]. eapply Forall_impl; [|exact Hf].
      unfold newer. intros a Ha. lia.
    + destruct (insert_sorted s l) as [l3|] eqn:E; [|discriminate]. injection Hi as <-.
      apply StronglySorted_inv in Hs as [Hs Hf]. constructor; [exact (IH l3 Hs eq_refl)|].
      apply Forall_forall. intros x Hx. apply (Tf2Facts.In_insert_sorted s l l3 x E) in Hx.
      destruct Hx as [<-|Hx]; [unfold newer; lia|]. rewrite Forall_forall in Hf. now apply Hf.
Qed.

Lemma newer_newest_first l : StronglySorted newer l -> newest_first l = true.
Proof.
  induction 1 as [|a l Hs IH Ha]; [reflexivity|]. destruct l as [|b l]; [reflexivity|].
  change (newest_first (a :: b :: l)) with ((stamp b <=? stamp a)%Z && newest_first (b :: l)).
  rewrite IH, andb_true_r.
  apply Z.leb_le. apply Forall_inv in Ha. unfold newer in Ha. lia.
Qed.

(** An accepted insertion keeps the stamps strictly decreasing. *)
Lemma insert_data_newer max_storage s l l' :
  StronglySorted newer l -> insert_data max_storage s (Dynamic l) = Some (Dynamic l') ->
  StronglySorted newer l'.
Proof.
  intros Hs Hins. unfold insert_data in Hins.
  destruct (match l with _ :: _ => _ | [] => false end); [discriminate|].
  destruct (insert_sorted s l) as [L|] eqn:E; [|discriminate]. injection Hins as <-.
  destruct (Tf2Facts.prune_list_firstn max_storage L) as [j ->].
  apply StronglySorted_firstn. exact (newer_insert_sorted s l L Hs E).
Qed.
End Strict.

(** ** Properties *)

(** C5: Round trip through a frame's history: when [insertData] accepts a
    transform into a history whose stamps strictly decrease, the history
    keeps that shape and [getData] at the transform's stamp returns it
    exactly, wherever it was inserted (the interpolation with its
    neighbour has ratio 0). *)
Theorem insert_data_get_data max_storage s l l' :
  (0 <= max_storage)%Z -> StronglySorted newer l ->
  insert_data max_storage s (Dynamic l) = Some (Dynamic l') -> stamp s <> 0%Z ->
  StronglySorted newer l' /\ get_data (Dynamic l') (stamp s) = Some s.
Proof.
  intros Hm Hs Hins H0. pose proof (insert_data_newer _ _ _ _ Hs Hins) as Hs'.
  destruct (Tf2Facts.insert_data_lemma _ _ _ _ Hm (newer_newest_first l Hs) Hins) as (_ & _ & Hin).
  split; [exact Hs'|]. exact (get_data_stored l' s Hs' Hin H0).
Qed.

(** C13: tf2 never extrapolates: whatever [getData] returns for a
    history, each coordinate of its translation lies between those of two
    stored entries (an entry itself, or a linear interpolation with a
    ratio in [0, 1] between the two entries around the time). *)
Theorem get_data_no_extrapolation l time s :
  get_data (Dynamic l) time = Some s ->
  exists a b, In a l /\ In b l /\ vbetween (translation a) (translation b) (translation s).
Proof.
  unfold get_data. destruct (find_closest l time) as [|e|one two] eqn:E; [discriminate| |].
  - intros H. injection H as <-. exists e, e. apply find_closest_one in E. auto using vbetween_refl.
  - destruct (find_closest_two _ _ _ _ E) as (H1 & H2 & Ht).
    destruct (Nat.eqb _ _); intros H; injection H as <-; [|exists one, one; auto using vbetween_refl].
    unfold interpolate. destruct (Z.eqb_spec (stamp two) (stamp one)); [exists two, two; auto using vbetween_refl|].
    exists one, two. split; [exact H1|]. split; [exact H2|]. apply lerp_vbetween, ratio_bounds; lia.
Qed.

(** ** Witnesses *)

Lemma insert_data_get_data_witness :
  let e t := mk_storage t 2 1 Vector3.default Geo.qidentity in
  StronglySorted newer [e 25000000000%Z; e 23000000000%Z; e 21000000000%Z] /\
  get_data (Dynamic [e 25000000000%Z; e 23000000000%Z; e 21000000000%Z]) 23000000000%Z =
    Some (e 23000000000%Z).
Proof.
  intros e. apply (insert_data_get_data 10000000000 (e 23000000000%Z) [e 25000000000%Z; e 21000000000%Z]).
  - lia.
  - repeat constructor; unfold newer; cbn; lia.
  - reflexivity.
  - discriminate.
Defined.

Lemma get_data_no_extrapolation_witness :
  let one := mk_storage 1000000000 2 1 (Vector3.mk 0 0 0) Geo.qidentity in
  let two := mk_storage 2000000000 2 1 (Vector3.mk 1 0 0) Geo.qidentity in
  exists a b, In a [two; one] /\ In b [two; one] /\
    vbetween (translation a) (translation b) (translation (interpolate one two 1500000000)).
Proof.
  intros one two. apply (get_data_no_extrapolation [two; one] 1500000000). reflexivity.
Defined.
