(* ===== verification/Tf2Inv.v ===== *)
(** The invariant of the whole tf2 buffer the listener fills (lines
    45-46): every frame's history is newest first and holds nothing older
    than its newest entry by more than [cache_time].

    [buffer_ok] is the executable check (a [forallb] over [frames_]);
    [buffer_ok_spec] reads it frame by frame through [get_frame].  The
    lemmas follow [setTransform]: allocating frame numbers changes no
    frame's cache, [set_frame] changes exactly one, and the cache it
    writes is either the one already there or what [insertData] accepted
    ([Tf2Facts.insert_data_lemma]).  The theorem: every buffer built from
    [BufferCore(cache_time)] by any sequence of [setTransform] calls,
    static or not, accepted or refused, satisfies the invariant. *)
From Stdlib Require Import List Bool ZArith String Reals Lia.
From S2P Require Import Prelude Msgs Geometry Tf Tf2.
Import ListNotations.
Open Scope Z_scope.

Import TimeCache BufferCore.

(** The shape [insertData] keeps, for one cache. *)
Definition cache_ok (ct : Z) (c : cache) : bool :=
  match c with
  | Dynamic l => newest_first l && within_window ct l
  | Static _ => true
  end.

(** Every frame's cache has that shape, and [cache_time] is not negative. *)
Definition buffer_ok (b : buffer) : bool :=
  (0 <=? cache_time b) &&
  forallb (fun e => match snd e with Some c => cache_ok (cache_time b) c | None => true end) (frames b).

(** The listener's work: [setTransform] on each transform of a sequence
    of [/tf] and [/tf_static] messages, in order. *)
Definition listen (b : buffer) (msgs : list (TransformStamped.t * bool)) : buffer :=
  fold_left (fun b tsb => snd (set_transform b (fst tsb) (snd tsb))) msgs b.

(** ** Lemmas *)

Lemma buffer_ok_spec b :
  buffer_ok b = true <->
  0 <= cache_time b /\ forall id c, get_frame b id = Some c -> cache_ok (cache_time b) c = true.
Proof.
  unfold buffer_ok, get_frame. rewrite andb_true_iff, Z.leb_le, forallb_forall. split.
  - intros [Hct Hf]. split; [exact Hct|]. intros id c H.
    destruct (nth_error (frames b) id) as [[name c0]|] eqn:E; [|discriminate]. subst c0.
    exact (Hf _ (nth_error_In _ _ E)).
  - intros [Hct Hf]. split; [exact Hct|]. intros [name [c|]] Hin; [|reflexivity].
    destruct (In_nth_error _ _ Hin) as [id E]. apply (Hf id). now rewrite E.
Qed.

Lemma nth_error_map_combine_seq {A B} (f : nat * A -> B) (l : list A) k j :
  nth_error (map f (combine (seq k (List.length l)) l)) j =
  option_map (fun x => f ((k + j)%nat, x)) (nth_error l j).
Proof.
  revert k j. induction l as [|x l IH]; intros k [|j]; cbn; try reflexivity.
  - now rewrite Nat.add_0_r.
  - rewrite IH. now rewrite Nat.add_succ_r.
Qed.

Lemma get_frame_set_frame b id c j :
  get_frame (set_frame b id c) j =
  if Nat.eqb j id then match nth_error (frames b) j with Some _ => Some c | None => None end
  else get_frame b j.
Proof.
  unfold get_frame, set_frame. cbn [frames]. rewrite nth_error_map_combine_seq. cbn [Nat.add].
  destruct (nth_error (frames b) j) as [[name c0]|]; cbn [option_map];
    destruct (Nat.eqb j id); reflexivity.
Qed.

Lemma get_frame_lookup_or_insert b name :
  (forall j, get_frame (snd (lookup_or_insert_frame_number b name)) j = get_frame b j) /\
  cache_time (snd (lookup_or_insert_frame_number b name)) = cache_time b.
Proof.
  unfold lookup_or_insert_frame_number. destruct (index_of _ _ _); [easy|]. cbn [snd cache_time].
  split; [|reflexivity]. intros j. unfold get_frame. cbn [frames].
  destruct (Nat.lt_ge_cases j (List.length (frames b))) as [Hj|Hj].
  - now rewrite nth_error_app1.
  - rewrite nth_error_app2 by exact Hj. rewrite (proj2 (nth_error_None _ _) Hj).
    destruct (j - List.length (frames b))%nat as [|[|k]]; reflexivity.
Qed.

Lemma cache_ok_insert_data ct s c c' :
  0 <= ct -> cache_ok ct c = true -> insert_data ct s c = Some c' -> cache_ok ct c' = true.
Proof.
  intros Hct Hc Hi. destruct c as [l|s0].
  - cbn in Hc. apply andb_true_iff in Hc as [Hl _].
    assert (E : exists l', c' = Dynamic l').
    { cbn in Hi. destruct (match l with _ :: _ => _ | [] => false end); [discriminate|].
      destruct (insert_sorted s l); [|discriminate]. injection Hi as <-. eauto. }
    destruct E as [l' ->]. destruct (Tf2Facts.insert_data_lemma ct s l l' Hct Hl Hi) as (H1 & H2 & _).
    cbn. now rewrite H1, H2.
  - cbn in Hi. injection Hi as <-. reflexivity.
Qed.

(** [setTransform] keeps the invariant, whether it accepts or refuses
    the transform. *)
Lemma set_transform_ok b ts is_static :
  buffer_ok b = true -> buffer_ok (snd (set_transform b ts is_static)) = true.
Proof.
  intros Hb. apply buffer_ok_spec in Hb as [Hct Hf]. unfold set_transform.
  destruct (orb _ _); [apply buffer_ok_spec; now split|].
  destruct (lookup_or_insert_frame_number b _) as [child_id b1] eqn:E1.
  destruct (get_frame_lookup_or_insert b (strip_slash (TransformStamped.child_frame_id ts))) as [G1 C1].
  rewrite E1 in G1, C1. cbn [snd] in G1, C1.
  set (c := match get_frame b1 child_id with Some c => c | None => _ end).
  assert (Hc : cache_ok (cache_time b) c = true).
  { unfold c. rewrite G1. destruct (get_frame b child_id) as [c0|] eqn:Ec; [exact (Hf _ _ Ec)|].
    destruct is_static; reflexivity. }
  destruct (lookup_or_insert_frame_number b1 _) as [parent_id b2] eqn:E2.
  destruct (get_frame_lookup_or_insert b1 (strip_slash (Header.frame_id (TransformStamped.header ts)))) as [G2 C2].
  rewrite E2 in G2, C2. cbn [snd] in G2, C2.
  assert (Hw : forall c', cache_ok (cache_time b) c' = true ->
                 buffer_ok (set_frame b2 child_id c') = true).
  { intros c' Hc'. apply buffer_ok_spec. cbn [set_frame cache_time]. rewrite C2, C1.
    split; [exact Hct|]. intros j cj Hj. rewrite get_frame_set_frame in Hj.
    destruct (Nat.eqb j child_id).
    - destruct (nth_error _ _); [|discriminate]. injection Hj as <-. exact Hc'.
    - rewrite G2, G1 in Hj. exact (Hf _ _ Hj). }
  rewrite C2, C1. destruct (insert_data _ _ c) as [c'|] eqn:Ei; cbn [snd]; apply Hw; [|exact Hc].
  exact (cache_ok_insert_data _ _ _ _ Hct Hc Ei).
Qed.

Lemma listen_ok b msgs : buffer_ok b = true -> buffer_ok (listen b msgs) = true.
Proof.
  unfold listen. revert b. induction msgs as [|[ts st] msgs IH]; intros b Hb; [exact Hb|].
  cbn [fold_left fst snd]. apply IH, set_transform_ok, Hb.
Qed.

(** ** Properties *)

(** C14: Invariant of the tf2 buffer: from [tf2_ros.Buffer(cache_time)]
    with a non-negative [cache_time], after any sequence of transforms
    the listener passes to [setTransform] (dynamic or static, accepted or
    refused), every frame's history is newest first and within
    [cache_time] of its newest entry. *)
Theorem listen_buffer_ok ct msgs :
  0 <= ct -> buffer_ok (listen (init ct) msgs) = true.
Proof. intros Hct. apply listen_ok. unfold buffer_ok. cbn. now rewrite (proj2 (Z.leb_le _ _) Hct). Qed.

(** ** Witnesses *)

Lemma listen_buffer_ok_witness :
  buffer_ok (listen (init 10000000000) [(ex_camera, false); (ex_camera, true)]) = true.
Proof. apply listen_buffer_ok. lia. Defined.
