(* ===== verification/Calibration.v ===== *)
(** The calibration table of the node: the three parallel lists
    [self.aruco_id], [self.aruco_pose] and [self.aruco_ori] set in
    [__init__] (lines 29-32), and the way [aruco_callback] reads them: the
    membership test [msg.id in self.aruco_id] (line 53), then
    [self.aruco_id.index(msg.id)] to subscript the pose and orientation
    lists (lines 62-65).

    The specification describes the table as records
    [MarkerCalibration = {marker_id, world_translation, world_orientation}]
    built once from the configuration, failing on lists of mismatched
    lengths, with a lookup by id.  [Spec.build] and [Spec.lookup] state
    that contract; [calib_refines] shows the code's parallel-list lookup
    implements it whenever the lists are well formed.  The code has no
    construction check; with the lists hard-coded at equal lengths
    (lines 29-32) the difference cannot show. *)
From Stdlib Require Import List ZArith Bool Reals Lia.
From S2P Require Import Prelude Msgs Geometry.
Import ListNotations.

Module Calibration.

Record table := mk {
  aruco_id : list Z;            (** line 29 *)
  aruco_pose : list (list R);   (** line 31: [x, y, z] in [map] *)
  aruco_ori : list (list R) }.  (** line 32: [roll, pitch, yaw] *)

(** The values hard-coded in [__init__] (lines 29, 31, 32). *)
Definition default_table : table :=
  mk [11; 13]%Z [[-2.615; 0; 0]; [1.17; 2.305; 0]] [[1.57; 0; 1.57]; [1.57; 0; 0]].

(** [msg.id in self.aruco_id] (line 53). *)
Definition is_marker (t : table) (id : Z) : bool := py_in Z.eqb id (aruco_id t).

(** [self.aruco_id.index(msg.id)] (lines 62, 63, 64). *)
Definition marker_index (t : table) (id : Z) : res nat := py_index Z.eqb (aruco_id t) id.

(** [Vector3( *self.aruco_pose[self.aruco_id.index(msg.id)])] (line 63). *)
Definition calib_translation (t : table) (id : Z) : res Vector3.t :=
  let* i := marker_index t id in
  let* p := py_getitem (aruco_pose t) i in
  vector3_of_args p.

(** [q = quaternion_from_euler( *self.aruco_ori[self.aruco_id.index(msg.id)])]
    and [Quaternion( *q)] (lines 64-65). *)
Definition calib_rotation (t : table) (id : Z) : res Quaternion.t :=
  let* i := marker_index t id in
  let* o := py_getitem (aruco_ori t) i in
  let* q := Geo.quaternion_from_euler_args o in
  quaternion_of_args q.

(** ** The specification's table *)
Module Spec.
Record MarkerCalibration := mkCal {
  marker_id : Z;
  world_translation : Vector3.t;
  roll : R; pitch : R; yaw : R }.

Definition world_orientation (c : MarkerCalibration) : Quaternion.t :=
  Geo.quat_of_euler (roll c) (pitch c) (yaw c).

(** Construction from the configuration lists; [None] is the
    configuration error of mismatched lengths or malformed triples. *)
Fixpoint build (ids : list Z) (poses oris : list (list R)) : option (list MarkerCalibration) :=
  match ids, poses, oris with
  | [], [], [] => Some []
  | id :: ids', [x; y; z] :: poses', [r; p; yw] :: oris' =>
      option_map (cons (mkCal id (Vector3.mk x y z) r p yw)) (build ids' poses' oris')
  | _, _, _ => None
  end.

Definition lookup (cal : list MarkerCalibration) (id : Z) : option MarkerCalibration :=
  find (fun c => Z.eqb (marker_id c) id) cal.

(** The table the specification builds from the hard-coded lists. *)
Definition default_calibration : list MarkerCalibration :=
  [mkCal 11 (Vector3.mk (-2.615) 0 0) 1.57 0 1.57; mkCal 13 (Vector3.mk 1.17 2.305 0) 1.57 0 0].

End Spec.

(** ** Lemmas *)

Lemma marker_index_cons_ne x ids ps os id :
  Z.eqb id x = false ->
  marker_index (mk (x :: ids) ps os) id = rbind (marker_index (mk ids ps os) id) (fun i => Ok (S i)).
Proof.
  intros H. unfold marker_index, py_index. cbn. rewrite H.
  destruct (index_of Z.eqb id ids); reflexivity.
Qed.

Lemma calib_translation_cons_ne x ids p ps os id :
  Z.eqb id x = false ->
  calib_translation (mk (x :: ids) (p :: ps) os) id = calib_translation (mk ids ps os) id.
Proof.
  intros H. unfold calib_translation. rewrite (marker_index_cons_ne _ _ _ _ _ H).
  destruct (marker_index _ id); reflexivity.
Qed.

Lemma calib_rotation_cons_ne x ids ps o os id :
  Z.eqb id x = false ->
  calib_rotation (mk (x :: ids) ps (o :: os)) id = calib_rotation (mk ids ps os) id.
Proof.
  intros H. unfold calib_rotation. rewrite (marker_index_cons_ne _ _ _ _ _ H).
  destruct (marker_index _ id); reflexivity.
Qed.

Lemma is_marker_cons x ids ps os id :
  is_marker (mk (x :: ids) ps os) id = orb (Z.eqb id x) (is_marker (mk ids ps os) id).
Proof. reflexivity. Qed.

Lemma marker_index_cons_eq x ids ps os :
  marker_index (mk (x :: ids) ps os) x = Ok 0%nat.
Proof. unfold marker_index, py_index. cbn. now rewrite Z.eqb_refl. Qed.

Lemma calib_translation_cons_eq x ids p ps os :
  calib_translation (mk (x :: ids) (p :: ps) os) x = vector3_of_args p.
Proof. unfold calib_translation. now rewrite marker_index_cons_eq. Qed.

Lemma calib_rotation_cons_eq x ids ps o os :
  calib_rotation (mk (x :: ids) ps (o :: os)) x =
  rbind (Geo.quaternion_from_euler_args o) quaternion_of_args.
Proof. unfold calib_rotation. now rewrite marker_index_cons_eq. Qed.

Lemma marker_index_is_marker t id i :
  marker_index t id = Ok i -> is_marker t id = true.
Proof.
  intros Hi. apply (py_in_iff Z.eqb Z.eqb_spec).
  exact (nth_error_In _ _ (py_index_nth Z.eqb Z.eqb_spec _ _ _ Hi)).
Qed.

Lemma calib_translation_inv t id v :
  calib_translation t id = Ok v ->
  exists i p, marker_index t id = Ok i /\ py_getitem (aruco_pose t) i = Ok p /\
              vector3_of_args p = Ok v.
Proof.
  unfold calib_translation. destruct (marker_index t id) as [i|]; [|discriminate]. cbn [rbind].
  destruct (py_getitem (aruco_pose t) i) as [p|] eqn:Ep; [|discriminate]. cbn [rbind]. intros Hv. now exists i, p.
Qed.

(** The rotation read from the table is the quaternion of an Euler
    triple, hence a unit quaternion. *)
Lemma calib_rotation_unit t id q : calib_rotation t id = Ok q -> Geo.qnorm2 q = 1%R.
Proof.
  unfold calib_rotation. destruct (marker_index t id) as [i|]; [|discriminate]. cbn [rbind].
  destruct (py_getitem (aruco_ori t) i) as [o|]; [|discriminate]. cbn [rbind].
  destruct o as [|a [|b [|c [|d [|]]]]]; cbn [Geo.quaternion_from_euler_args rbind]; try discriminate.
  rewrite Geo.quaternion_of_args_euler. intros H. injection H as <-. apply Geo.qnorm2_quat_of_euler.
Qed.

(** ** Properties *)

(** C7: Refinement of the specification's table.  When the configuration
    lists build a table ([Spec.build] succeeds: equal lengths, triples),
    the code's lookup through [list.index] on parallel lists agrees with
    the table's lookup by id: a listed id passes the [in] test and gets
    the calibrated translation and the quaternion of its Euler angles;
    any other id fails the [in] test. *)
Theorem calib_refines t cal id :
  Spec.build (aruco_id t) (aruco_pose t) (aruco_ori t) = Some cal ->
  match Spec.lookup cal id with
  | Some c => is_marker t id = true /\
              calib_translation t id = Ok (Spec.world_translation c) /\
              calib_rotation t id = Ok (Spec.world_orientation c)
  | None => is_marker t id = false
  end.
Proof.
  destruct t as [ids ps os]. cbn [aruco_id aruco_pose aruco_ori].
  revert ps os cal. induction ids as [|x ids IH]; intros ps os cal Hb.
  - destruct ps, os; cbn in Hb; try discriminate. injection Hb as <-. reflexivity.
  - destruct ps as [|p ps]; [cbn in Hb; discriminate|].
    destruct os as [|o os]; [destruct p as [|? [|? [|? [|]]]]; cbn in Hb; discriminate|].
    destruct p as [|px [|py [|pz [|]]]], o as [|rl [|pt [|yw [|]]]];
      cbn [Spec.build] in Hb; try discriminate.
    destruct (Spec.build ids ps os) as [cal'|] eqn:E; [|discriminate].
    injection Hb as <-. unfold Spec.lookup. cbn [find Spec.marker_id].
    rewrite is_marker_cons. destruct (Z.eqb_spec x id) as [<-|Hne].
    + rewrite Z.eqb_refl, calib_translation_cons_eq, calib_rotation_cons_eq. auto.
    + assert (Hne' : Z.eqb id x = false) by (apply Z.eqb_neq; congruence).
      rewrite Hne', calib_translation_cons_ne, calib_rotation_cons_ne by exact Hne'.
      exact (IH ps os cal' E).
Qed.

(** The hard-coded table is well formed: each of its ids resolves to
    a translation and a rotation. *)
Lemma default_table_resolves id :
  is_marker default_table id = true ->
  exists v q, calib_translation default_table id = Ok v /\ calib_rotation default_table id = Ok q.
Proof.
  unfold is_marker, py_in. cbn. rewrite orb_false_r.
  destruct (Z.eqb_spec id 11) as [->|]; [intros _; do 2 eexists; split; reflexivity|].
  destruct (Z.eqb_spec id 13) as [->|]; [intros _; do 2 eexists; split; reflexivity|discriminate].
Qed.

(** ** Witnesses *)

Lemma calib_refines_witness :
  match Spec.lookup Spec.default_calibration 13 with
  | Some c => is_marker default_table 13 = true /\
              calib_translation default_table 13 = Ok (Spec.world_translation c) /\
              calib_rotation default_table 13 = Ok (Spec.world_orientation c)
  | None => is_marker default_table 13 = false
  end.
Proof. apply (calib_refines default_table Spec.default_calibration 13). reflexivity. Defined.

End Calibration.
