(* ===== verification/Node.v ===== *)
(** The node [static_svea_gps] (lines 20-104): its fields set by
    [__init__], the handler [aruco_callback], the helpers [publish_pose],
    [broadcast_aruco] and [set_covariance], and [run] ([rospy.spin]).

    A handler runs in the monad [M world] of the prelude.  The [world] is
    the store the handler touches: the marker message it was given (which
    it mutates through an alias, lines 58-60) and the sequence of events
    it sends out ([rospy.loginfo] lines, messages published on
    [/global/set_pose], transforms broadcast), in order.  The tf2 buffer is
    a snapshot given to each call, through the interface [TfBuffer].
    [rospy.spin] hands the callbacks their messages one after the other on
    one thread; [spin] folds the handler over the sequence of (snapshot,
    message) pairs, and [main] (lines 106-107) is [init] followed by
    [spin].  The message the handler publishes is [correction], built
    with KDL's frame product; [spec_correction] is the one the
    specification describes, with the rigid composition, and
    [same_correction] relates messages that differ only in the sign of
    their quaternion. *)
From Stdlib Require Import List ZArith String Reals Lia Setoid Morphisms.
From S2P Require Import Prelude PyStr Msgs Geometry Kdl Tf Calibration.
Import ListNotations.
Open Scope string_scope.
Open Scope list_scope.

Module Node.

(** [rospy.loginfo] lines. *)
Inductive log_entry : Type :=
| LogTranslationUsed (index : nat) (pose : list R)   (** line 62 *)
| LogException (e : exc).                            (** line 78 *)

(** What the node sends out. *)
Inductive event : Type :=
| Publish (topic : string) (m : PoseWithCovarianceStamped.t)   (** line 87 *)
| SendTransform (m : TransformStamped.t)                       (** line 96 *)
| LogInfo (l : log_entry).

Record node := mk_node {
  aruco_pose_topic : string;          (** line 27 *)
  table : Calibration.table;          (** lines 29-32 *)
  set_pose_topic : string;            (** line 37 *)
  set_pose_queue_size : Z;            (** line 37 *)
  frame : string;                     (** line 40 *)
  lin_cov : R;                        (** line 41 *)
  ang_cov : R;                        (** line 42 *)
  cache_time : Time.t }.              (** line 45 *)

(** The private parameters of the node, by name. *)
Definition params := list (string * string).

(** [rospy.get_param(name, default)]. *)
Definition get_param (ps : params) (name default : string) : string :=
  match find (fun kv => String.eqb (fst kv) name) ps with
  | Some (_, v) => v
  | None => default
  end.

(** [__init__] (lines 22-47). *)
Definition init (ps : params) : node :=
  {| aruco_pose_topic := get_param ps "~aruco_pose_topic" "aruco_pose";
     table := Calibration.default_table;
     set_pose_topic := "/global/set_pose";
     set_pose_queue_size := 1%Z;
     frame := PyStr.node_frame (Calibration.aruco_id Calibration.default_table);
     lin_cov := 1e-6;
     ang_cov := 1e-6;
     cache_time := duration_ten_seconds |}.

Record world := mk_world { msg : Marker.t; events : list event }.

Definition emit (e : event) : M world unit :=
  modify (fun w => mk_world (msg w) (events w ++ [e])).

Definition loginfo (l : log_entry) : M world unit := emit (LogInfo l).

(** Read the message object the handler was given. *)
Definition get_msg : M world Marker.t := fun w => (Ok (msg w), w).

(** [set_covariance] (lines 98-104): row-major 6x6. *)
Definition set_covariance (n : node) : list R :=
  let l := lin_cov n in let a := ang_cov n in
  [l; 0; 0; 0; 0; 0;
   0; l; 0; 0; 0; 0;
   0; 0; l; 0; 0; 0;
   0; 0; 0; a; 0; 0;
   0; 0; 0; 0; a; 0;
   0; 0; 0; 0; 0; a]%R.

(** [publish_pose] (lines 80-87). *)
Definition publish_pose (n : node) (translation : Vector3.t) (quaternion : Quaternion.t)
    (time : Time.t) : M world unit :=
  emit (Publish (set_pose_topic n)
          (PoseWithCovarianceStamped.mk
             (Header.mk 0 time "map")
             (PoseWithCovariance.mk (Pose.mk translation quaternion) (set_covariance n)))).

(** [broadcast_aruco] (lines 89-96); its call at line 76 is commented
    out. *)
Definition broadcast_aruco (translation : Vector3.t) (quaternion : Quaternion.t)
    (time : Time.t) : M world unit :=
  emit (SendTransform
          (TransformStamped.mk (Header.mk 0 time "map") "basebase"
             (Transform.mk translation quaternion))).

(** [adjust_orientation.header = msg.header] then
    [adjust_orientation.header.frame_id = "map"]: the write goes to the
    header object the message shares (lines 59-60). *)
Definition marker_with_frame_id (m : Marker.t) (f : string) : Marker.t :=
  let h := Marker.header m in
  Marker.mk (Header.mk (Header.seq h) (Header.stamp h) f)
            (Marker.id m) (Marker.pose m) (Marker.confidence m).

Definition set_msg_frame_id (f : string) (w : world) : world :=
  mk_world (marker_with_frame_id (msg w) f) (events w).

(** [position.pose.position.z = 0.0] (line 72). *)
Definition clamp_z (p : PoseStamped.t) : PoseStamped.t :=
  let q := PoseStamped.pose p in
  let v := Pose.position q in
  PoseStamped.mk (PoseStamped.header p)
    (Pose.mk (Vector3.mk (Vector3.x v) (Vector3.y v) 0) (Pose.orientation q)).

Section Callback.
Context {B : Type} `{TfBuffer B}.

(** The body of the [try] block (lines 57-75). *)
Definition callback_body (n : node) (buffer : B) : M world unit :=
  m <- get_msg ;;
  let id := Marker.id m in
  inverse_transform <- lift (lookup_transform buffer (PyStr.aruco_frame id) "base_link"
                               (Header.stamp (Marker.header m)) duration_half_second) ;;
  modify (set_msg_frame_id "map") ;;;
  m <- get_msg ;;
  let header := Marker.header m in
  i <- lift (Calibration.marker_index (table n) id) ;;
  p <- lift (py_getitem (Calibration.aruco_pose (table n)) i) ;;
  loginfo (LogTranslationUsed i p) ;;;
  translation <- lift (Calibration.calib_translation (table n) id) ;;
  rotation <- lift (Calibration.calib_rotation (table n) id) ;;
  let adjust_orientation :=
    TransformStamped.mk header (PyStr.aruco_frame id) (Transform.mk translation rotation) in
  let inverse_posestamped :=
    PoseStamped.mk Header.default
      (Pose.mk (Transform.translation (TransformStamped.transform inverse_transform))
               (Transform.rotation (TransformStamped.transform inverse_transform))) in
  let position := clamp_z (Kdl.do_transform_pose inverse_posestamped adjust_orientation) in
  m <- get_msg ;;
  publish_pose n (Pose.position (PoseStamped.pose position))
               (Pose.orientation (PoseStamped.pose position))
               (Header.stamp (Marker.header m)).

(** [aruco_callback] (lines 52-78). *)
Definition aruco_callback (n : node) (buffer : B) : M world unit :=
  m <- get_msg ;;
  if Calibration.is_marker (table n) (Marker.id m)
  then try_except (callback_body n buffer) (fun e => loginfo (LogException e))
  else ret tt.

(** One delivery of a message to the callback, after the events [evs]
    already sent. *)
Definition handle (n : node) (evs : list event) (input : B * Marker.t) : list event :=
  let '(buffer, m) := input in
  events (snd (aruco_callback n buffer (mk_world m evs))).

(** [run]: [rospy.spin()] delivering the messages in order. *)
Definition spin (n : node) (inputs : list (B * Marker.t)) : list event :=
  fold_left (handle n) inputs [].

(** [if __name__ == '__main__': static_svea_gps().run()] (lines 106-107),
    the private parameters [ps] set on the parameter server. *)
Definition main (ps : params) (inputs : list (B * Marker.t)) : list event :=
  spin (init ps) inputs.
End Callback.

(** ** The behaviour of one callback *)

(** The message the node publishes for a marker seen at [stamp], with
    calibrated translation [v] and rotation [q], when tf2 returns [ts]: the
    marker's calibrated pose composed (by KDL, [Kdl.kdl_frame_mul]) with the
    pose of [base_link] in the marker frame, its height forced to 0, with
    the node's covariance. *)
Definition correction (n : node) (stamp : Time.t) (v : Vector3.t) (q : Quaternion.t)
    (ts : TransformStamped.t) : PoseWithCovarianceStamped.t :=
  let p := Kdl.kdl_frame_mul (Transform.mk v q) (Geo.pose_of_transform (TransformStamped.transform ts)) in
  PoseWithCovarianceStamped.mk (Header.mk 0 stamp "map")
    (PoseWithCovariance.mk
       (Pose.mk (Vector3.mk (Vector3.x (Pose.position p)) (Vector3.y (Pose.position p)) 0)
                (Pose.orientation p))
       (set_covariance n)).

Definition stamp_of (m : Marker.t) : Time.t := Header.stamp (Marker.header m).

(** The correction the specification describes (4.1, step 4): the same
    message with the rigid composition [Geo.frame_mul] in place of KDL's
    matrix round trip. *)
Definition spec_correction (n : node) (stamp : Time.t) (v : Vector3.t) (q : Quaternion.t)
    (ts : TransformStamped.t) : PoseWithCovarianceStamped.t :=
  let p := Geo.frame_mul (Transform.mk v q) (Geo.pose_of_transform (TransformStamped.transform ts)) in
  PoseWithCovarianceStamped.mk (Header.mk 0 stamp "map")
    (PoseWithCovariance.mk
       (Pose.mk (Vector3.mk (Vector3.x (Pose.position p)) (Vector3.y (Pose.position p)) 0)
                (Pose.orientation p))
       (set_covariance n)).

(** The possible runs of the callback on a message [m]: the message object
    it leaves behind and the events it sends. *)
Inductive outcome (n : node) (m : Marker.t) : Marker.t -> list event -> Prop :=
| outcome_ignored : outcome n m m []
| outcome_lookup_failed e : outcome n m m [LogInfo (LogException e)]
| outcome_failed_before_log e :
    outcome n m (marker_with_frame_id m "map") [LogInfo (LogException e)]
| outcome_failed_after_log i p e :
    outcome n m (marker_with_frame_id m "map")
            [LogInfo (LogTranslationUsed i p); LogInfo (LogException e)]
| outcome_published i p v q ts :
    Calibration.marker_index (table n) (Marker.id m) = Ok i ->
    py_getitem (Calibration.aruco_pose (table n)) i = Ok p ->
    Calibration.calib_translation (table n) (Marker.id m) = Ok v ->
    Calibration.calib_rotation (table n) (Marker.id m) = Ok q ->
    outcome n m (marker_with_frame_id m "map")
            [LogInfo (LogTranslationUsed i p); Publish (set_pose_topic n) (correction n (stamp_of m) v q ts)].

(** The messages published among a sequence of events. *)
Definition published (evs : list event) : list PoseWithCovarianceStamped.t :=
  flat_map (fun e => match e with Publish _ pm => [pm] | _ => [] end) evs.

Definition pub_stamp (pm : PoseWithCovarianceStamped.t) : Time.t :=
  Header.stamp (PoseWithCovarianceStamped.header pm).

Definition pub_position (pm : PoseWithCovarianceStamped.t) : Vector3.t :=
  Pose.position (PoseWithCovariance.pose (PoseWithCovarianceStamped.pose pm)).

Definition pub_orientation (pm : PoseWithCovarianceStamped.t) : Quaternion.t :=
  Pose.orientation (PoseWithCovariance.pose (PoseWithCovarianceStamped.pose pm)).

Definition pub_covariance (pm : PoseWithCovarianceStamped.t) : list R :=
  PoseWithCovariance.covariance (PoseWithCovarianceStamped.pose pm).

(** Two corrections that differ at most in the sign of their quaternion,
    i.e. that reset the localisation to the same pose. *)
Definition same_correction (a b : PoseWithCovarianceStamped.t) : Prop :=
  PoseWithCovarianceStamped.header a = PoseWithCovarianceStamped.header b /\
  pub_position a = pub_position b /\ pub_covariance a = pub_covariance b /\
  Geo.same_rotation (pub_orientation a) (pub_orientation b).

(** The shape the sink expects of a [PoseWithCovarianceStamped] (spec,
    section 6): frame ["map"] (the code's name for the world frame) and a
    row-major 6x6 covariance of 36 entries. *)
Definition well_formed_correction (pm : PoseWithCovarianceStamped.t) : bool :=
  String.eqb (Header.frame_id (PoseWithCovarianceStamped.header pm)) "map" &&
  Nat.eqb (List.length (pub_covariance pm)) 36.





(** A snapshot of the tf2 buffer, a marker message and the values the
    hard-coded table gives marker 11, used by the witnesses. *)
Definition ex_stamp : Time.t := Time.mk 100 0.

Definition ex_marker (id : Z) : Marker.t :=
  Marker.mk (Header.mk 0 ex_stamp "usb_cam") id PoseWithCovariance.default 1.

Definition ex_transform : TransformStamped.t :=
  TransformStamped.mk (Header.mk 0 ex_stamp (PyStr.aruco_frame 11)) "base_link" Geo.identity_transform.

Definition ex_buffer : TableBuffer.t :=
  [TableBuffer.mk_entry (PyStr.aruco_frame 11) "base_link" 0 200000000000 Geo.identity_transform].

(** Symbolic execution of the callback. *)
Ltac run_cb :=
  cbv beta iota zeta delta [handle aruco_callback callback_body bind ret lift get_msg modify
    try_except emit loginfo publish_pose set_msg_frame_id msg events snd].

Section CallbackFacts.
Context {B : Type} `{TfBuffer B}.

Lemma callback_outcome n (b : B) m :
  fst (aruco_callback n b (mk_world m [])) = Ok tt /\
  outcome n m (msg (snd (aruco_callback n b (mk_world m []))))
              (events (snd (aruco_callback n b (mk_world m [])))).
Proof.
  run_cb. destruct (Calibration.is_marker _ _); [|split; [reflexivity | constructor]].
  repeat (destruct_res; cbn [fst app]); split; try reflexivity; econstructor; eassumption.
Qed.

(** The callback only appends to the events already sent, and what it
    does does not depend on them. *)
Lemma callback_frame n (b : B) m evs :
  aruco_callback n b (mk_world m evs) =
  (fst (aruco_callback n b (mk_world m [])),
   mk_world (msg (snd (aruco_callback n b (mk_world m []))))
            (evs ++ events (snd (aruco_callback n b (mk_world m []))))).
Proof.
  run_cb. destruct (Calibration.is_marker _ _); [|cbn [fst snd msg events]; now rewrite app_nil_r].
  repeat (destruct_res; cbn [fst snd msg events app]); now rewrite <- ?app_assoc.
Qed.

Lemma handle_app n evs (x : B * Marker.t) : handle n evs x = evs ++ handle n [] x.
Proof. destruct x as [b m]. unfold handle. now rewrite callback_frame. Qed.

Lemma fold_handle n (xs : list (B * Marker.t)) acc :
  fold_left (handle n) xs acc = acc ++ fold_left (handle n) xs [].
Proof.
  revert acc. induction xs as [|x xs IH]; intros acc; cbn; [now rewrite app_nil_r|].
  rewrite IH, (IH (handle n [] x)), handle_app. now rewrite app_assoc.
Qed.

Lemma spin_app n (xs ys : list (B * Marker.t)) : spin n (xs ++ ys) = spin n xs ++ spin n ys.
Proof. unfold spin. now rewrite fold_left_app, fold_handle. Qed.

Lemma spin_cons n (x : B * Marker.t) xs : spin n (x :: xs) = handle n [] x ++ spin n xs.
Proof. exact (spin_app n [x] xs). Qed.

Lemma callback_publishes_lemma n (b : B) m evs ts v q :
  lookup_transform b (PyStr.aruco_frame (Marker.id m)) "base_link" (stamp_of m)
                   duration_half_second = Ok ts ->
  Calibration.calib_translation (table n) (Marker.id m) = Ok v ->
  Calibration.calib_rotation (table n) (Marker.id m) = Ok q ->
  exists i p,
    aruco_callback n b (mk_world m evs) =
    (Ok tt, mk_world (marker_with_frame_id m "map")
              (evs ++ [LogInfo (LogTranslationUsed i p);
                       Publish (set_pose_topic n) (correction n (stamp_of m) v q ts)])).
Proof.
  unfold stamp_of. intros Hl Hv Hq.
  destruct (Calibration.calib_translation_inv _ _ _ Hv) as (i & p & Hi & Hp & _).
  exists i, p. run_cb.
  rewrite (Calibration.marker_index_is_marker _ _ _ Hi), Hl, Hi, Hp, Hv, Hq.
  now rewrite <- app_assoc.
Qed.

(** On a resolvable observation, [handle] sends one publication, of
    [correction]. *)
Lemma handle_publishes n (b : B) m ts v q :
  lookup_transform b (PyStr.aruco_frame (Marker.id m)) "base_link" (stamp_of m)
                   duration_half_second = Ok ts ->
  Calibration.calib_translation (table n) (Marker.id m) = Ok v ->
  Calibration.calib_rotation (table n) (Marker.id m) = Ok q ->
  published (handle n [] (b, m)) = [correction n (stamp_of m) v q ts].
Proof.
  intros Hl Hv Hq. destruct (callback_publishes_lemma n b m [] ts v q Hl Hv Hq) as (i & p & E).
  unfold handle. now rewrite E.
Qed.

Lemma handle_outcome n (x : B * Marker.t) :
  outcome n (snd x) (msg (snd (aruco_callback n (fst x) (mk_world (snd x) []))))
          (handle n [] x).
Proof. destruct x as [b m]. exact (proj2 (callback_outcome n b m)). Qed.
End CallbackFacts.

Section PublishedFacts.
Context {B : Type} `{TfBuffer B}.

Lemma published_app l1 l2 : published (l1 ++ l2) = published l1 ++ published l2.
Proof. apply flat_map_app. Qed.

Lemma published_outcome n m m' evs :
  outcome n m m' evs ->
  published evs = [] \/ exists v q ts, published evs = [correction n (stamp_of m) v q ts].
Proof. destruct 1; cbn; eauto. Qed.

(** What holds of every correction holds of every published message. *)
Lemma spin_published_forall (P : PoseWithCovarianceStamped.t -> Prop) n
    (xs : list (B * Marker.t)) :
  (forall m v q ts, P (correction n (stamp_of m) v q ts)) ->
  Forall P (published (spin n xs)).
Proof.
  intros HP. induction xs as [|x xs IH]; [constructor|].
  rewrite spin_cons, published_app. apply Forall_app. split; [|exact IH].
  destruct (published_outcome _ _ _ _ (handle_outcome n x)) as [->|(v & q & ts & ->)]; auto.
Qed.


#[global] Instance same_correction_equiv : Equivalence same_correction.
Proof.
  unfold same_correction. split.
  - intros a. now repeat split.
  - intros a b (? & ? & ? & ?). repeat split; auto. now symmetry.
  - intros a b c (? & ? & ? & ?) (? & ? & ? & ?). repeat split; try congruence. now transitivity (pub_orientation b).
Qed.

(** With unit quaternions, what the node publishes is the specification's
    correction up to the sign of the quaternion. *)
Lemma correction_refines_lemma n stamp v q ts :
  Geo.qnorm2 q = 1%R -> Geo.qnorm2 (Transform.rotation (TransformStamped.transform ts)) = 1%R ->
  same_correction (spec_correction n stamp v q ts) (correction n stamp v q ts).
Proof.
  intros Hq Hts.
  destruct (Kdl.kdl_frame_mul_refines_lemma (Transform.mk v q)
              (Geo.pose_of_transform (TransformStamped.transform ts)) Hq Hts) as [Hp Ho].
  unfold same_correction, spec_correction, correction, pub_position, pub_orientation, pub_covariance.
  cbn [PoseWithCovarianceStamped.header PoseWithCovarianceStamped.pose PoseWithCovariance.pose
       PoseWithCovariance.covariance Pose.position Pose.orientation].
  rewrite Hp. now repeat split.
Qed.

End PublishedFacts.

(** ** Properties *)
Section Properties.
Context {B : Type} `{TfBuffer B}.

(** C2: An observation of a marker that is not in the calibration table
    is discarded silently: no event is sent, the message is untouched
    and no exception escapes. *)
Theorem aruco_callback_unknown_marker n (b : B) w :
  Calibration.is_marker (table n) (Marker.id (msg w)) = false ->
  aruco_callback n b w = (Ok tt, w).
Proof. intros Hm. destruct w as [m evs]. run_cb. cbn [msg] in Hm. now rewrite Hm. Qed.

(** C6: When tf2 cannot resolve the transform from [base_link] to the
    marker frame ['aruco<id>'] at the observation's stamp, the exception
    is caught and logged; nothing is published and the message is left
    as it was (the failure comes before the aliasing write). *)
Theorem aruco_callback_lookup_failure n (b : B) m evs e :
  Calibration.is_marker (table n) (Marker.id m) = true ->
  lookup_transform b (PyStr.aruco_frame (Marker.id m)) "base_link" (stamp_of m)
                   duration_half_second = Err e ->
  aruco_callback n b (mk_world m evs) = (Ok tt, mk_world m (evs ++ [LogInfo (LogException e)])).
Proof. unfold stamp_of. intros Hm Hl. run_cb. now rewrite Hm, Hl. Qed.

(** C1: On a resolvable observation of a calibrated marker, the callback
    logs the table index and pose it used, then publishes exactly one
    correction on [/global/set_pose]: stamped with the observation's
    stamp, in [map], at the calibrated marker pose composed with the
    pose of [base_link] in the marker frame, height 0, with the node's
    covariance. *)
Theorem aruco_callback_publishes n (b : B) m evs ts v q :
  lookup_transform b (PyStr.aruco_frame (Marker.id m)) "base_link" (stamp_of m)
                   duration_half_second = Ok ts ->
  Calibration.calib_translation (table n) (Marker.id m) = Ok v ->
  Calibration.calib_rotation (table n) (Marker.id m) = Ok q ->
  exists i p,
    aruco_callback n b (mk_world m evs) =
    (Ok tt, mk_world (marker_with_frame_id m "map")
              (evs ++ [LogInfo (LogTranslationUsed i p);
                       Publish (set_pose_topic n) (correction n (stamp_of m) v q ts)])).
Proof. exact (callback_publishes_lemma n b m evs ts v q). Qed.

(** C12: Aliasing.  [adjust_orientation.header = msg.header] shares the
    header object, so setting its [frame_id] to ["map"] overwrites the
    frame id of the received message: once tf2 has answered, the message
    leaves the callback with frame id ["map"], whether the rest of the
    callback succeeds or raises. *)
Theorem aruco_callback_overwrites_msg_frame n (b : B) m evs ts :
  Calibration.is_marker (table n) (Marker.id m) = true ->
  lookup_transform b (PyStr.aruco_frame (Marker.id m)) "base_link" (stamp_of m)
                   duration_half_second = Ok ts ->
  msg (snd (aruco_callback n b (mk_world m evs))) = marker_with_frame_id m "map".
Proof.
  unfold stamp_of. intros Hm Hl. run_cb. rewrite Hm, Hl.
  repeat (destruct_res; cbn [snd msg]); reflexivity.
Qed.

(** C10: No exception escapes the callback, whatever the table, the
    buffer and the message. *)
Theorem aruco_callback_never_raises n (b : B) w : fst (aruco_callback n b w) = Ok tt.
Proof. destruct w as [m evs]. rewrite callback_frame. exact (proj1 (callback_outcome n b m)). Qed.

(** The pose and confidence the detector reports in the marker
    message play no part: two messages with the same header and id give
    the same events. *)
Lemma aruco_callback_ignores_reported_pose n (b : B) m1 m2 evs :
  Marker.header m1 = Marker.header m2 -> Marker.id m1 = Marker.id m2 ->
  events (snd (aruco_callback n b (mk_world m1 evs))) =
  events (snd (aruco_callback n b (mk_world m2 evs))).
Proof.
  intros Hh Hid. run_cb. rewrite Hid.
  destruct (Calibration.is_marker _ _); [|reflexivity].
  cbv beta iota zeta delta [marker_with_frame_id]. rewrite !Hh, !Hid.
  repeat (destruct_res; cbn [snd events]); reflexivity.
Qed.

(** C3: Planarity: every correction the node ever publishes has height
    exactly 0, whatever the calibration and the transforms. *)
Theorem spin_planar n (xs : list (B * Marker.t)) :
  Forall (fun pm => Vector3.z (pub_position pm) = 0%R) (published (spin n xs)).
Proof. apply spin_published_forall. reflexivity. Qed.

(** Every published correction carries the node's covariance
    [set_covariance]. *)
Lemma spin_covariance n (xs : list (B * Marker.t)) :
  Forall (fun pm => PoseWithCovariance.covariance (PoseWithCovarianceStamped.pose pm) = set_covariance n)
         (published (spin n xs)).
Proof. apply spin_published_forall. reflexivity. Qed.

(** C11: Order: the stamps of the published corrections are a
    subsequence of the stamps of the messages, in delivery order; each
    message gives at most one correction, with its own stamp. *)
Theorem spin_published_stamps n (xs : list (B * Marker.t)) :
  subseq (map pub_stamp (published (spin n xs))) (map (fun x => stamp_of (snd x)) xs).
Proof.
  induction xs as [|x xs IH]; [constructor|].
  rewrite spin_cons, published_app, map_app. cbn [map].
  apply (subseq_app _ [stamp_of (snd x)]); [|exact IH].
  destruct (published_outcome _ _ _ _ (handle_outcome n x)) as [->|(v & q & ts & ->)];
    auto with reloc.
Qed.


(** C25: Refinement of the specification's composition.  On a
    resolvable observation of a calibrated marker, with a unit quaternion
    from tf2, the callback publishes exactly one message, and it is the
    specification's correction ([spec_correction]: the calibrated pose
    composed rigidly with the tf2 transform, height 0) up to the sign of
    its quaternion, i.e. the same pose. *)
Theorem aruco_callback_refines_spec n (b : B) m ts v q :
  lookup_transform b (PyStr.aruco_frame (Marker.id m)) "base_link" (stamp_of m)
                   duration_half_second = Ok ts ->
  Geo.qnorm2 (Transform.rotation (TransformStamped.transform ts)) = 1%R ->
  Calibration.calib_translation (table n) (Marker.id m) = Ok v ->
  Calibration.calib_rotation (table n) (Marker.id m) = Ok q ->
  exists pm, published (events (snd (aruco_callback n b (mk_world m [])))) = [pm] /\
             same_correction (spec_correction n (stamp_of m) v q ts) pm.
Proof.
  intros Hl Hts Hv Hq. exists (correction n (stamp_of m) v q ts). split.
  - exact (handle_publishes n b m ts v q Hl Hv Hq).
  - apply correction_refines_lemma; [exact (Calibration.calib_rotation_unit _ _ _ Hq) | exact Hts].
Qed.

(** C26: Liveness of the program: every delivery, anywhere in the run of
    [main], of a calibrated marker that tf2 resolves leads to the
    publication of its correction, whatever was delivered before or
    after. *)
Theorem main_publishes_resolvable ps (xs : list (B * Marker.t)) b m ts v q :
  In (b, m) xs ->
  lookup_transform b (PyStr.aruco_frame (Marker.id m)) "base_link" (stamp_of m)
                   duration_half_second = Ok ts ->
  Calibration.calib_translation Calibration.default_table (Marker.id m) = Ok v ->
  Calibration.calib_rotation Calibration.default_table (Marker.id m) = Ok q ->
  In (correction (init ps) (stamp_of m) v q ts) (published (main ps xs)).
Proof.
  intros Hin Hl Hv Hq. apply in_split in Hin as (xs1 & xs2 & ->). unfold main.
  rewrite spin_app, spin_cons, !published_app, (handle_publishes (init ps) b m ts v q Hl Hv Hq).
  apply in_or_app. right. now left.
Qed.

(** C27: Type of the output: every message the node publishes is a
    well-formed correction, in frame ["map"] with the 36 entries of a
    row-major 6x6 covariance. *)
Theorem spin_well_formed n (xs : list (B * Marker.t)) :
  Forall (fun pm => well_formed_correction pm = true) (published (spin n xs)).
Proof. apply spin_published_forall. reflexivity. Qed.

End Properties.

(** C4: [set_covariance] is the diagonal 6x6 matrix, row-major, with the
    linear variance on the first three entries of the diagonal, the
    angular variance on the last three and 0 everywhere else. *)
Theorem set_covariance_diagonal n i j :
  (i < 6)%nat -> (j < 6)%nat ->
  nth (6 * i + j) (set_covariance n) 0%R =
  if Nat.eqb i j then (if Nat.ltb i 3 then lin_cov n else ang_cov n) else 0%R.
Proof.
  intros Hi Hj.
  do 6 (destruct i as [|i]; [do 6 (destruct j as [|j]; [reflexivity|]); lia|]). lia.
Qed.

(** ** Witnesses *)

Lemma aruco_callback_unknown_marker_witness :
  Calibration.is_marker (table (init [])) (Marker.id (ex_marker 7)) = false /\
  aruco_callback (init []) ex_buffer (mk_world (ex_marker 7) []) = (Ok tt, mk_world (ex_marker 7) []).
Proof. split; [reflexivity|]. apply aruco_callback_unknown_marker. reflexivity. Defined.

Lemma aruco_callback_lookup_failure_witness :
  aruco_callback (init []) ex_buffer (mk_world (ex_marker 13) []) =
  (Ok tt, mk_world (ex_marker 13) [LogInfo (LogException LookupException)]).
Proof. apply (aruco_callback_lookup_failure (init []) ex_buffer (ex_marker 13) [] LookupException); reflexivity. Defined.

Lemma aruco_callback_publishes_witness :
  exists i p,
    aruco_callback (init []) ex_buffer (mk_world (ex_marker 11) []) =
    (Ok tt, mk_world (marker_with_frame_id (ex_marker 11) "map")
              [LogInfo (LogTranslationUsed i p);
               Publish "/global/set_pose"
                 (correction (init []) ex_stamp (Vector3.mk (-2.615) 0 0)
                    (Geo.quat_of_euler 1.57 0 1.57) ex_transform)]).
Proof.
  apply (aruco_callback_publishes (init []) ex_buffer (ex_marker 11) [] ex_transform); reflexivity.
Defined.

Lemma aruco_callback_overwrites_msg_frame_witness :
  msg (snd (aruco_callback (init []) ex_buffer (mk_world (ex_marker 11) []))) =
  marker_with_frame_id (ex_marker 11) "map".
Proof. apply (aruco_callback_overwrites_msg_frame _ _ _ _ ex_transform); reflexivity. Defined.

Lemma set_covariance_diagonal_witness :
  nth (6 * 4 + 4) (set_covariance (init [])) 0%R = 1e-6%R.
Proof. apply (set_covariance_diagonal (init []) 4 4); lia. Defined.

Lemma aruco_callback_refines_spec_witness :
  exists pm, published (events (snd (aruco_callback (init []) ex_buffer (mk_world (ex_marker 11) [])))) = [pm] /\
             same_correction (spec_correction (init []) ex_stamp (Vector3.mk (-2.615) 0 0)
                                (Geo.quat_of_euler 1.57 0 1.57) ex_transform) pm.
Proof.
  apply (aruco_callback_refines_spec (init []) ex_buffer (ex_marker 11) ex_transform); try reflexivity.
  cbn. ring.
Defined.

Lemma main_publishes_resolvable_witness :
  In (correction (init []) ex_stamp (Vector3.mk (-2.615) 0 0) (Geo.quat_of_euler 1.57 0 1.57) ex_transform)
     (published (main [] [(ex_buffer, ex_marker 13); (ex_buffer, ex_marker 11); (ex_buffer, ex_marker 7)])).
Proof. apply (main_publishes_resolvable [] _ ex_buffer (ex_marker 11) ex_transform); simpl; auto. Defined.


End Node.
