(* ===== verification/Localisation.v ===== *)
(** What the node is for: the composition of the node ([Node]), tf2
    ([Tf2], [Tf2Chain]), KDL ([Kdl]) and the calibration table
    ([Calibration]) in the deployment the code assumes.

    The robot stands at [r] in [map] ([base_link]'s pose); its camera
    [cam] is mounted at [c] on [base_link] (a static transform on
    [/tf_static]); the camera detects marker [id] at [d] in the camera
    frame and publishes it on [/tf] at the stamp of the marker message.
    The detection is exact when [r * c * d] is where the table puts the
    marker ([Transform.mk v q], lines 29-32 and 63-65).  The listener has
    stored both transforms in the node's buffer of [cache_time] (line 45)
    when the message reaches [aruco_callback].

    The theorem: the node then publishes exactly one correction, and it
    puts the robot where it is: the position of [r] with its height
    forced to 0, the orientation of [r] up to the sign of the quaternion
    ([Node.same_correction]), stamped with the message's stamp in
    [map].  [robot_correction] is that message. *)
From Stdlib Require Import List ZArith String Reals Lia Lra Setoid Morphisms.
From S2P Require Import Prelude PyStr Msgs Geometry Kdl Tf Tf2 Tf2Chain Calibration Node.
Import ListNotations.
Open Scope string_scope.

Import Node.

(** The correction that resets the localisation to the robot's pose [r]. *)
Definition robot_correction (n : node) (stamp : Time.t) (r : Transform.t) : PoseWithCovarianceStamped.t :=
  PoseWithCovarianceStamped.mk (Header.mk 0 stamp "map")
    (PoseWithCovariance.mk
       (Pose.mk (Vector3.mk (Vector3.x (Transform.translation r)) (Vector3.y (Transform.translation r)) 0)
                (Transform.rotation r))
       (set_covariance n)).

(** The buffer of the node [n] once the listener has stored the camera
    mount and the detection. *)
Definition deployed_buffer (n : node) (mount detection : TransformStamped.t) : BufferCore.buffer :=
  snd (BufferCore.set_transform
         (snd (BufferCore.set_transform (BufferCore.init (BufferCore.time_ns (cache_time n))) mount true))
         detection false).

(** The robot at [(1, 2, 0)] facing along [x]; the detection of marker 11
    that the exact camera of [Tf2Chain.ex_mount] makes from there. *)
Definition ex_robot : Transform.t := Transform.mk (Vector3.mk 1 2 0) Geo.qidentity.

Definition ex_marker11 : Transform.t :=
  Transform.mk (Vector3.mk (-2.615) 0 0) (Geo.quat_of_euler 1.57 0 1.57).

Definition ex_exact_detection : Transform.t :=
  Geo.transform_mul (Geo.transform_inverse (Geo.transform_mul ex_robot (tf_of ex_mount))) ex_marker11.

(** ** Lemmas *)

Lemma aruco_frame_facts id :
  PyStr.aruco_frame id <> "" /\ BufferCore.starts_with_slash (PyStr.aruco_frame id) = false /\
  PyStr.aruco_frame id <> "base_link" /\ PyStr.aruco_frame id <> "NO_PARENT".
Proof. unfold PyStr.aruco_frame. cbn -[PyStr.str_int]. repeat split; discriminate. Qed.

Lemma qnorm2_inverse_chain c d :
  Geo.qnorm2 (Transform.rotation c) = 1%R -> Geo.qnorm2 (Transform.rotation d) = 1%R ->
  Geo.qnorm2 (Transform.rotation (Geo.transform_inverse (Geo.transform_mul c d))) = 1%R.
Proof.
  intros Hc Hd. destruct c, d. cbn in Hc, Hd |- *.
  rewrite Geo.qnorm2_qconj, Geo.qnorm2_qmul_lemma, Hc, Hd. ring.
Qed.

(** Composing the marker's calibrated pose with the inverse of the chain
    the camera saw gives back the robot's pose. *)
Lemma recover_pose r c d v q :
  Geo.qnorm2 (Transform.rotation c) = 1%R -> Geo.qnorm2 (Transform.rotation d) = 1%R ->
  Geo.transform_mul r (Geo.transform_mul c d) = Transform.mk v q ->
  Geo.frame_mul (Transform.mk v q) (Geo.pose_of_transform (Geo.transform_inverse (Geo.transform_mul c d))) =
  Geo.pose_of_transform r.
Proof.
  intros Hc Hd Hs. rewrite Geo.frame_mul_pose_of_transform, <- Hs, <- Geo.transform_mul_assoc,
    Geo.transform_mul_inverse_r, Geo.transform_mul_identity_r; [reflexivity|].
  destruct c, d. cbn in Hc, Hd |- *. rewrite Geo.qnorm2_qmul_lemma, Hc, Hd. ring.
Qed.

Lemma spec_correction_recovers n stamp r c d v q ts :
  Geo.qnorm2 (Transform.rotation c) = 1%R -> Geo.qnorm2 (Transform.rotation d) = 1%R ->
  Geo.transform_mul r (Geo.transform_mul c d) = Transform.mk v q ->
  TransformStamped.transform ts = Geo.transform_inverse (Geo.transform_mul c d) ->
  spec_correction n stamp v q ts = robot_correction n stamp r.
Proof.
  intros Hc Hd Hs Ht. unfold spec_correction. rewrite Ht, (recover_pose r c d v q Hc Hd Hs).
  reflexivity.
Qed.

(** The side conditions of the tf2 lemmas in the deployment: frame names,
    unit quaternions, the stamp and the cache time. *)
Ltac deployment_hyps :=
  first [ reflexivity | assumption | discriminate | (apply not_eq_sym; assumption)
        | (cbv; discriminate) | lia ].

(** ** Properties *)

Section Deployment.
Variables (ps : params) (cam : string) (r c d : Transform.t) (m : Marker.t) (v : Vector3.t)
  (q : Quaternion.t) (seq0 seq1 : Z) (stamp0 : Time.t) (later : list BufferCore.buffer).
Let n := init ps.
Let id := Marker.id m.
Let mount := TransformStamped.mk (Header.mk seq0 stamp0 "base_link") cam c.
Let detection := TransformStamped.mk (Header.mk seq1 (stamp_of m) cam) (PyStr.aruco_frame id) d.
Hypothesis (Hv : Calibration.calib_translation (table n) id = Ok v)
  (Hq : Calibration.calib_rotation (table n) id = Ok q)
  (Hsee : Geo.transform_mul r (Geo.transform_mul c d) = Transform.mk v q)
  (Hc : Geo.qnorm2 (Transform.rotation c) = 1%R) (Hd : Geo.qnorm2 (Transform.rotation d) = 1%R)
  (Hcb : cam <> "base_link") (Hcm : cam <> PyStr.aruco_frame id) (Hce : cam <> "")
  (Hcs : BufferCore.starts_with_slash cam = false) (Hcn : cam <> "NO_PARENT")
  (Ht : BufferCore.time_ns (stamp_of m) <> 0%Z).

(** What tf2 answers the node's query in the deployment: the inverse of
    the chain [c * d], the pose of [base_link] in the marker frame. *)
Let answer := TransformStamped.mk (Header.mk 0 (stamp_of m) (PyStr.aruco_frame id)) "base_link"
                (Geo.transform_inverse (Geo.transform_mul c d)).

Lemma deployed_lookup :
  lookup_transform (PyBuffer.mk_timeline (deployed_buffer n mount detection) later)
                   (PyStr.aruco_frame id) "base_link" (stamp_of m) duration_half_second = Ok answer.
Proof.
  destruct (aruco_frame_facts id) as (He & Hs & Hb & Hn).
  apply py_lookup_now. cbn [PyBuffer.now]. unfold deployed_buffer.
  erewrite set_transform_mount by deployment_hyps. cbn [snd].
  erewrite set_transform_chain by deployment_hyps. cbn [snd].
  eapply lookup_chain; deployment_hyps.
Qed.

(** The correction the callback makes of that answer resets the
    localisation to the robot's pose. *)
Lemma deployed_correction :
  same_correction (correction n (stamp_of m) v q answer) (robot_correction n (stamp_of m) r).
Proof.
  rewrite <- (spec_correction_recovers n (stamp_of m) r c d v q answer Hc Hd Hsee eq_refl).
  symmetry. apply correction_refines_lemma; [exact (Calibration.calib_rotation_unit _ _ _ Hq)|].
  exact (qnorm2_inverse_chain c d Hc Hd).
Qed.

(** C17: End to end: when the camera's detection of a calibrated marker
    is exact and the listener has stored the camera mount and the
    detection, the node publishes exactly one correction, and it resets
    the localisation to the robot's true pose: its position with height
    0 and its orientation up to the sign of the quaternion. *)
Theorem node_recovers_robot_pose :
  exists pm,
    published (handle n [] (PyBuffer.mk_timeline (deployed_buffer n mount detection) later, m)) = [pm] /\
    same_correction pm (robot_correction n (stamp_of m) r).
Proof.
  pose proof deployed_lookup as Hl.
  destruct (Calibration.calib_translation_inv _ _ _ Hv) as (i & p & Hi & Hp & _).
  exists (correction n (stamp_of m) v q answer). split; [|exact deployed_correction].
  unfold stamp_of in Hl. run_cb. unfold id in Hl, Hi, Hv, Hq.
  rewrite (Calibration.marker_index_is_marker _ _ _ Hi), Hl, Hi, Hp, Hv, Hq. reflexivity.
Qed.
End Deployment.

(** ** Witnesses *)

Lemma qnorm2_ex_detection : Geo.qnorm2 (Transform.rotation ex_exact_detection) = 1%R.
Proof.
  unfold ex_exact_detection, ex_marker11, ex_robot, tf_of, ex_mount, Geo.transform_mul, Geo.transform_inverse.
  cbn [Transform.rotation TransformStamped.transform].
  rewrite Geo.qnorm2_qmul_lemma, Geo.qnorm2_qconj, Geo.qnorm2_qmul_lemma, Geo.qnorm2_quat_of_euler.
  cbv -[Rplus Rmult]. ring.
Qed.

Lemma ex_exact_detection_sees :
  Geo.transform_mul ex_robot (Geo.transform_mul (tf_of ex_mount) ex_exact_detection) = ex_marker11.
Proof.
  unfold ex_exact_detection. rewrite !Geo.transform_mul_assoc, Geo.transform_mul_inverse_r.
  - unfold ex_marker11. destruct (Geo.quat_of_euler _ _ _). geo_ring.
  - cbv -[Rplus Rmult]. ring.
Qed.

Lemma node_recovers_robot_pose_witness :
  exists pm,
    published (handle (init []) []
      (PyBuffer.mk_timeline
         (deployed_buffer (init []) ex_mount
            (TransformStamped.mk (Header.mk 0 ex_stamp "usb_cam") (PyStr.aruco_frame 11) ex_exact_detection)) [],
       ex_marker 11)) = [pm] /\
    same_correction pm (robot_correction (init []) ex_stamp ex_robot).
Proof.
  apply (node_recovers_robot_pose [] "usb_cam" ex_robot (tf_of ex_mount) ex_exact_detection (ex_marker 11)
           (Vector3.mk (-2.615) 0 0) (Geo.quat_of_euler 1.57 0 1.57) 0 0 (Time.mk 0 0) []);
    first [ reflexivity | discriminate | exact qnorm2_ex_detection | exact ex_exact_detection_sees
          | (cbv -[Rplus Rmult]; ring) | (unfold BufferCore.time_ns; cbn; discriminate) ].
Defined.
