(* ===== verification/Transport.v ===== *)
(** The publisher of line 37, [rospy.Publisher("/global/set_pose",
    PoseWithCovarianceStamped, queue_size=1)], between [publish] (line 87)
    and the subscriber.  rospy wraps each subscriber connection of a
    publisher created with a [queue_size] in a [QueuedConnection]:
    - [write_data(data)], run by [publish] in the callback's thread, drops
      the oldest queued message when the queue holds [queue_size] of them
      ([if self._queue_size > 0 and len(self._queue) == self._queue_size:
      del self._queue[0]]) and appends the new one;
    - a writer thread ([_run]) waits for data, takes the whole queue at
      once and writes its messages to the socket in order.
    Both run under the connection's lock, so the system is the interleaving
    of two atomic steps, [write_data] and [flush].  One connection is
    modelled (the localisation node that serves [set_pose]); socket errors
    and the closing of the connection are not.

    [reach qs w s]: after the messages [w] were published in this order,
    the connection can be in state [s].  The theorems: the queue never
    holds more than [queue_size] messages; what reaches the subscriber is
    a subsequence of what was published, in order; the newest message is
    never dropped; nothing is lost when the writer keeps up; two
    publications before the writer runs lose the first one. *)
From Stdlib Require Import List Arith Lia String Reals.
From S2P Require Import Prelude Msgs Tf Node.
Import ListNotations.

Module Publisher.

Section Queue.
Context {A : Type}.

(** The connection: [_queue] and the messages written to the socket. *)
Record state := mk_state { queue : list A; sent : list A }.

Definition init : state := mk_state [] [].

(** [QueuedConnection.write_data(data)]. *)
Definition write_data (queue_size : nat) (x : A) (s : state) : state :=
  let q := if andb (Nat.ltb 0 queue_size) (Nat.eqb (List.length (queue s)) queue_size)
           then tl (queue s) else queue s in
  mk_state (q ++ [x]) (sent s).

(** One round of [QueuedConnection._run]: take the queue, write it out. *)
Definition flush (s : state) : state := mk_state [] (sent s ++ queue s).

(** The two threads interleaved; [w] is the sequence published so far. *)
Inductive reach (queue_size : nat) : list A -> state -> Prop :=
| reach_init : reach queue_size [] init
| reach_write w s x : reach queue_size w s -> reach queue_size (w ++ [x]) (write_data queue_size x s)
| reach_flush w s : reach queue_size w s -> reach queue_size w (flush s).

(** A schedule: the callback publishes, or the writer thread runs. *)
Inductive action := Publish (x : A) | Flush.

Definition step (queue_size : nat) (s : state) (a : action) : state :=
  match a with
  | Publish x => write_data queue_size x s
  | Flush => flush s
  end.

Definition run (queue_size : nat) (sched : list action) : state :=
  fold_left (step queue_size) sched init.

Definition published_by (sched : list action) : list A :=
  flat_map (fun a => match a with Publish x => [x] | Flush => [] end) sched.

(** The writer thread keeps up: it runs after every publication. *)
Definition eager (xs : list A) : list action := flat_map (fun x => [Publish x; Flush]) xs.
End Queue.

Arguments state : clear implicits.
Arguments action : clear implicits.

(** ** Lemmas *)
Section QueueFacts.
Context {A : Type}.

Lemma write_data_sent qs (x : A) s : sent (write_data qs x s) = sent s.
Proof. reflexivity. Qed.

Lemma write_data_length qs (x : A) s :
  0 < qs -> List.length (queue s) <= qs -> List.length (queue (write_data qs x s)) <= qs.
Proof.
  intros Hq Hl. unfold write_data. cbn [queue].
  destruct (Nat.ltb_spec 0 qs); [|lia]. destruct (Nat.eqb_spec (List.length (queue s)) qs) as [E|E];
    cbn [andb]; rewrite length_app; cbn [List.length]; [|lia].
  destruct (queue s); cbn in *; lia.
Qed.

(** What was written and what is queued, together, keep the order of the
    publications. *)
Lemma write_data_subseq qs (x : A) s w :
  subseq (sent s ++ queue s) w -> subseq (sent (write_data qs x s) ++ queue (write_data qs x s)) (w ++ [x]).
Proof.
  intros H. unfold write_data. cbn [sent queue]. rewrite app_assoc.
  apply subseq_snoc. destruct (andb _ _); [|exact H].
  destruct (queue s) as [|y q]; [exact H|]. exact (subseq_remove _ _ _ _ H).
Qed.

Lemma write_data_last qs (x : A) s d : last (sent (write_data qs x s) ++ queue (write_data qs x s)) d = x.
Proof. unfold write_data. cbn [sent queue]. now rewrite app_assoc, last_last. Qed.

Lemma run_app qs (s1 s2 : list (action A)) : run qs (s1 ++ s2) = fold_left (step qs) s2 (run qs s1).
Proof. unfold run. apply fold_left_app. Qed.

Lemma reach_run_gen qs (sched : list (action A)) w s :
  reach qs w s -> reach qs (w ++ published_by sched) (fold_left (step qs) sched s).
Proof.
  revert w s. induction sched as [|[x|] sched IH]; intros w s H; cbn [fold_left step].
  - cbn. now rewrite app_nil_r.
  - change (published_by (Publish x :: sched)) with (x :: published_by sched).
    replace (w ++ x :: published_by sched) with ((w ++ [x]) ++ published_by sched)
      by now rewrite <- app_assoc.
    apply IH. now constructor.
  - apply IH. now constructor.
Qed.
Lemma reach_run qs (sched : list (action A)) : reach qs (published_by sched) (run qs sched).
Proof. exact (reach_run_gen qs sched [] init (reach_init qs)). Qed.

(** Rule induction on [reach]: sent and queued messages keep the
    publication order. *)
Lemma reach_subseq qs (w : list A) s : reach qs w s -> subseq (sent s ++ queue s) w.
Proof.
  induction 1 as [|w s x _ IH|w s _ IH]; [constructor | now apply write_data_subseq |].
  cbn. now rewrite app_nil_r.
Qed.

Lemma published_by_eager (xs : list A) : published_by (eager xs) = xs.
Proof. induction xs as [|x xs IH]; [reflexivity|]. cbn. f_equal. exact IH. Qed.
End QueueFacts.

(** ** Properties *)
Section QueueProperties.
Context {A : Type}.

(** C28: Bound: with [queue_size > 0], the queue of the connection never
    holds more than [queue_size] messages, however the two threads
    interleave. *)
Theorem reach_queue_bounded qs (w : list A) s :
  0 < qs -> reach qs w s -> List.length (queue s) <= qs.
Proof.
  intros Hq. induction 1; cbn; [lia | now apply write_data_length | lia].
Qed.

(** C30: The newest publication is never dropped: it is the last message
    sent or queued, so once the writer thread has run after the last
    publication, the subscriber has received it last. *)
Theorem reach_newest_kept qs (w : list A) s d :
  reach qs w s -> last (sent s ++ queue s) d = last w d.
Proof.
  induction 1 as [|w s x _ IH|w s _ IH]; [reflexivity | |].
  - now rewrite write_data_last, last_last.
  - cbn. now rewrite app_nil_r.
Qed.

(** Nothing is lost when the writer thread runs after every
    publication: the subscriber receives every message, in order. *)
Lemma eager_sends_all qs (xs : list A) : sent (run qs (eager xs)) = xs.
Proof.
  enough (H : forall s, queue s = [] -> sent (fold_left (step qs) (eager xs) s) = sent s ++ xs)
    by (unfold run; now rewrite (H init eq_refl)).
  induction xs as [|x xs IH]; intros s Hs; [cbn; now rewrite app_nil_r|].
  change (eager (x :: xs)) with (Publish x :: Flush :: eager xs). cbn [fold_left step].
  rewrite IH by reflexivity. unfold flush, write_data. rewrite Hs.
  destruct (andb _ _); cbn; now rewrite <- app_assoc.
Qed.

(** C32: Loss: with [queue_size=1], two publications before the writer
    thread runs lose the first one: only the second reaches the
    subscriber. *)
Theorem queue_size_1_drops (a b : A) s :
  queue s = [] -> sent (flush (write_data 1 b (write_data 1 a s))) = sent s ++ [b].
Proof. intros Hs. unfold flush, write_data. rewrite Hs. reflexivity. Qed.
End QueueProperties.

(** ** The node's corrections on the wire *)

(** C33: Composition with the node: whatever the interleaving with the
    writer thread, every correction that reaches the subscriber of
    [/global/set_pose] has height 0 and is well formed, and they arrive
    in the order the node published them. *)
Theorem delivered_corrections n {B} `{TfBuffer B} (xs : list (B * Marker.t)) s :
  reach 1 (Node.published (Node.spin n xs)) s ->
  subseq (sent s) (Node.published (Node.spin n xs)) /\
  Forall (fun pm => Vector3.z (Node.pub_position pm) = 0%R /\ Node.well_formed_correction pm = true) (sent s).
Proof.
  intros Hr. pose proof (reach_subseq _ _ _ Hr) as Hs.
  split.
  - eapply subseq_prefix. exact Hs.
  - eapply subseq_Forall; [exact (subseq_prefix _ _ _ Hs)|].
    apply Node.spin_published_forall. split; reflexivity.
Qed.

(** ** Witnesses *)

Lemma reach_queue_bounded_witness :
  List.length (queue (run 1 [Publish 1%nat; Publish 2%nat; Publish 3%nat])) <= 1.
Proof.
  apply (reach_queue_bounded 1 [1; 2; 3]%nat); [lia|].
  apply (reach_run_gen 1 [Publish 1; Publish 2; Publish 3]%nat [] init). constructor.
Defined.

Lemma reach_newest_kept_witness :
  last (sent (run 1 [Publish 1; Publish 2; Flush; Publish 3]%nat)
        ++ queue (run 1 [Publish 1; Publish 2; Flush; Publish 3]%nat)) 0%nat = 3%nat.
Proof.
  apply (reach_newest_kept 1 [1; 2; 3]%nat).
  apply (reach_run 1 [Publish 1; Publish 2; Flush; Publish 3]%nat).
Defined.

Lemma delivered_corrections_witness :
  let xs := [(Node.ex_buffer, Node.ex_marker 11); (Node.ex_buffer, Node.ex_marker 13)] in
  let s := run 1 (eager (Node.published (Node.spin (Node.init []) xs))) in
  subseq (sent s) (Node.published (Node.spin (Node.init []) xs)) /\
  Forall (fun pm => Vector3.z (Node.pub_position pm) = 0%R /\ Node.well_formed_correction pm = true) (sent s).
Proof.
  intros xs s. apply delivered_corrections. unfold s.
  rewrite <- (published_by_eager (Node.published (Node.spin (Node.init []) xs))) at 1.
  apply reach_run.
Defined.

Lemma queue_size_1_drops_witness :
  sent (flush (write_data 1 2%nat (write_data 1 1%nat init))) = [2%nat].
Proof. apply (queue_size_1_drops 1%nat 2%nat init). reflexivity. Defined.

End Publisher.
