(* ===== verification/System.v ===== *)
(** The whole process [static_svea_gps]: what [__init__] (lines 22-47)
    sets up and the threads that then run, composed.

    [__init__] registers the node ([rospy.init_node], line 24), subscribes
    [aruco_callback] to the marker topic (line 34), creates the publisher
    of [/global/set_pose] (line 37), the tf2 buffer of 10 s (line 45), its
    listener on [/tf] and [/tf_static] (line 46) and a broadcaster on
    [/tf] (line 47); [startup] is that state.  Afterwards four kinds of
    step interleave ([label]):
    - the listener's callback stores the transforms of a [/tf] or
      [/tf_static] message ([Tf2Inv.listen]);
    - a subscriber (the localisation node) connects to [/global/set_pose];
    - [rospy.spin] hands a marker message to [aruco_callback]; while its
      [lookup_transform] waits, the listener may store more transforms,
      one batch per poll (the snapshots of [PyBuffer.timeline]); the
      callback's log lines are kept and its publication goes through
      rospy's [_PublisherImpl.publish]: with no connection the message
      is dropped, otherwise [seq += 1], [serialize_message] writes [seq]
      into the message's header, and each connection's [write_data]
      queues it ([publish]);
    - the writer thread of a connection sends its queue ([Publisher.flush]).
    [run ps labels] is the state after a schedule.

    The theorems: in every state of every schedule, the buffer keeps the
    tf2 invariant and every connection has sent or queued only well
    formed, planar corrections whose header [seq] strictly increase; a
    correction published before any subscriber has connected is lost;
    and a correction the callback publishes while one subscriber is
    connected with an empty queue reaches that subscriber, stamped with
    the next [seq], as soon as its writer thread runs.  In the
    deployment of [Localisation], the subscriber receives the robot's
    true pose. *)
From Stdlib Require Import List ZArith String Reals Lia Sorting.Sorted.
From S2P Require Import Prelude PyStr Msgs Geometry Kdl Tf Tf2 Tf2Chain Tf2Inv Calibration Node Localisation Transport.
Import ListNotations.
Open Scope string_scope.

Module System.
Import Node.

Definition conn : Type := Publisher.state PoseWithCovarianceStamped.t.

(** rospy's [_PublisherImpl] of a topic: its [seq] counter and its
    subscriber connections. *)
Record publisher := mk_publisher {
  pub_topic : string; pub_queue_size : nat; pub_seq : Z; pub_conns : list conn }.

(** [serialize_message(b, seq, msg)]: [msg.header.seq = seq]. *)
Definition stamp_seq (sq : Z) (pm : PoseWithCovarianceStamped.t) : PoseWithCovarianceStamped.t :=
  let h := PoseWithCovarianceStamped.header pm in
  PoseWithCovarianceStamped.mk (Header.mk sq (Header.stamp h) (Header.frame_id h))
                               (PoseWithCovarianceStamped.pose pm).

(** [_PublisherImpl.publish(message)]: dropped without a connection;
    otherwise numbered and written to every connection. *)
Definition publish (p : publisher) (pm : PoseWithCovarianceStamped.t) : publisher :=
  match pub_conns p with
  | [] => p
  | cs => let sq := (pub_seq p + 1)%Z in
          mk_publisher (pub_topic p) (pub_queue_size p) sq
                       (map (Publisher.write_data (pub_queue_size p) (stamp_seq sq pm)) cs)
  end.

(** A new subscriber connection. *)
Definition connect (p : publisher) : publisher :=
  mk_publisher (pub_topic p) (pub_queue_size p) (pub_seq p) (pub_conns p ++ [Publisher.init]).

Fixpoint update_at {A} (f : A -> A) (i : nat) (l : list A) : list A :=
  match l, i with
  | [], _ => []
  | x :: l', O => f x :: l'
  | x :: l', S i' => x :: update_at f i' l'
  end.

(** One round of the writer thread of connection [i]. *)
Definition write (i : nat) (p : publisher) : publisher :=
  mk_publisher (pub_topic p) (pub_queue_size p) (pub_seq p) (update_at Publisher.flush i (pub_conns p)).

Record system := mk_system {
  node_of : node;               (** the fields of [__init__] *)
  node_name : string;           (** line 24 *)
  subscription : string;        (** line 34 *)
  tf_topics : list string;      (** line 46 *)
  broadcast_topic : string;     (** line 47 *)
  buffer : BufferCore.buffer;   (** line 45 *)
  set_pose : publisher;         (** line 37 *)
  log : list event }.           (** log lines and broadcasts, in order *)

(** [static_svea_gps()]: [__init__] with the private parameters [ps]. *)
Definition startup (ps : params) : system :=
  let n := init ps in
  mk_system n "static_svea_gps" (aruco_pose_topic n) ["/tf"; "/tf_static"] "/tf"
    (BufferCore.init (BufferCore.time_ns (cache_time n)))
    (mk_publisher (set_pose_topic n) (Z.to_nat (set_pose_queue_size n)) 0 []) [].

Definition with_buffer (s : system) (b : BufferCore.buffer) : system :=
  mk_system (node_of s) (node_name s) (subscription s) (tf_topics s) (broadcast_topic s) b (set_pose s) (log s).

Definition with_pub (s : system) (p : publisher) : system :=
  mk_system (node_of s) (node_name s) (subscription s) (tf_topics s) (broadcast_topic s) (buffer s) p (log s).

(** An event of the callback reaches the outside: a publication goes
    through the publisher, the rest to the log. *)
Definition route (s : system) (e : event) : system :=
  match e with
  | Publish _ pm => with_pub s (publish (set_pose s) pm)
  | _ => mk_system (node_of s) (node_name s) (subscription s) (tf_topics s) (broadcast_topic s)
                   (buffer s) (set_pose s) (log s ++ [e])
  end.

(** The buffer at each poll of the wait loop, the listener storing one
    batch between two polls. *)
Fixpoint snapshots (b : BufferCore.buffer) (batches : list (list (TransformStamped.t * bool)))
  : list BufferCore.buffer :=
  match batches with
  | [] => []
  | bt :: rest => let b' := listen b bt in b' :: snapshots b' rest
  end.

Inductive label :=
| TfMessage (msgs : list (TransformStamped.t * bool))
| Subscribe
| MarkerMessage (m : Marker.t) (during : list (list (TransformStamped.t * bool)))
| Write (i : nat).

Definition step (s : system) (l : label) : system :=
  match l with
  | TfMessage msgs => with_buffer s (listen (buffer s) msgs)
  | Subscribe => with_pub s (connect (set_pose s))
  | MarkerMessage m during =>
      let tl := PyBuffer.mk_timeline (buffer s) (snapshots (buffer s) during) in
      fold_left route (handle (node_of s) [] (tl, m)) (with_buffer s (listen (buffer s) (List.concat during)))
  | Write i => with_pub s (write i (set_pose s))
  end.

Definition run (ps : params) (labels : list label) : system := fold_left step labels (startup ps).

(** The header [seq] of a message. *)
Definition hseq (pm : PoseWithCovarianceStamped.t) : Z := Header.seq (PoseWithCovarianceStamped.header pm).

(** What a connection has sent or still queues: well formed, planar
    corrections numbered [1 .. seq], in increasing order. *)
Definition conn_ok (sq : Z) (c : conn) : Prop :=
  StronglySorted (fun a b => hseq a < hseq b)%Z (Publisher.sent c ++ Publisher.queue c) /\
  Forall (fun pm => (0 < hseq pm <= sq)%Z /\ well_formed_correction pm = true /\
                    Vector3.z (pub_position pm) = 0%R) (Publisher.sent c ++ Publisher.queue c).

Definition system_ok (s : system) : Prop :=
  buffer_ok (buffer s) = true /\ (0 <= pub_seq (set_pose s))%Z /\
  Forall (conn_ok (pub_seq (set_pose s))) (pub_conns (set_pose s)).

(** ** Lemmas *)

Lemma ss_subseq {A} (Q : A -> A -> Prop) l w : subseq l w -> StronglySorted Q w -> StronglySorted Q l.
Proof.
  induction 1 as [|x l w _ IH|x l w Hs IH]; intros H; [constructor| |];
    apply StronglySorted_inv in H as [Hw Hx]; [exact (IH Hw)|]. constructor; [now apply IH|].
  exact (subseq_Forall _ _ _ Hs Hx).
Qed.

Lemma ss_snoc {A} (Q : A -> A -> Prop) l x :
  StronglySorted Q l -> Forall (fun y => Q y x) l -> StronglySorted Q (l ++ [x]).
Proof.
  induction 1 as [|y l Hl IH Hy]; intros Hx; cbn; [repeat constructor|].
  apply Forall_cons_iff in Hx as [Hyx Hx]. constructor; [exact (IH Hx)|].
  apply Forall_app. split; [exact Hy | now constructor].
Qed.

(** What a correction on the wire satisfies. *)
Definition wire_ok (pm : PoseWithCovarianceStamped.t) : Prop :=
  well_formed_correction pm = true /\ Vector3.z (pub_position pm) = 0%R.

Lemma conn_ok_init sq : conn_ok sq Publisher.init.
Proof. split; constructor. Qed.

Lemma conn_ok_flush sq c : conn_ok sq c -> conn_ok sq (Publisher.flush c).
Proof. unfold conn_ok, Publisher.flush. cbn [Publisher.sent Publisher.queue]. now rewrite app_nil_r. Qed.

Lemma conn_ok_mono sq sq' c : (sq <= sq')%Z -> conn_ok sq c -> conn_ok sq' c.
Proof.
  intros Hle [Hs Hf]. split; [exact Hs|]. eapply Forall_impl; [|exact Hf].
  intros pm (H1 & H2). split; [lia | exact H2].
Qed.

Lemma conn_ok_write qs sq c x :
  (0 <= sq)%Z -> conn_ok sq c -> wire_ok x -> hseq x = (sq + 1)%Z ->
  conn_ok (sq + 1) (Publisher.write_data qs x c).
Proof.
  intros H0 [Hs Hf] [Hw Hz] Hx.
  pose proof (Publisher.write_data_subseq qs x c _ (subseq_refl _)) as Hsub.
  split.
  - apply (ss_subseq _ _ _ Hsub), ss_snoc; [exact Hs|].
    eapply Forall_impl; [|exact Hf]. cbn. intros pm (H & _). lia.
  - apply (subseq_Forall _ _ _ Hsub), Forall_app. split.
    + eapply Forall_impl; [|exact Hf]. cbn. intros pm (H & H'). split; [lia | exact H'].
    + repeat constructor; [lia | lia | exact Hw | exact Hz].
Qed.

Lemma wire_ok_stamp_seq sq pm : wire_ok pm -> wire_ok (stamp_seq sq pm).
Proof. destruct pm as [[] ?]. exact (fun H => H). Qed.

(** The publisher's part of [system_ok]. *)
Definition publisher_ok (p : publisher) : Prop :=
  (0 <= pub_seq p)%Z /\ Forall (conn_ok (pub_seq p)) (pub_conns p).

Lemma publish_ok p pm : publisher_ok p -> wire_ok pm -> publisher_ok (publish p pm).
Proof.
  intros [H0 Hc] Hw. unfold publish. destruct (pub_conns p) as [|c cs] eqn:E; [split; [exact H0 | now rewrite E]|].
  split; cbn [pub_seq pub_conns]; [lia|].
  apply Forall_map. eapply Forall_impl; [|exact Hc]. intros c' Hc'.
  apply (conn_ok_write _ _ _ _ H0 Hc'); [exact (wire_ok_stamp_seq _ _ Hw) | reflexivity].
Qed.

Lemma update_at_Forall {A} (P : A -> Prop) f i l :
  (forall x, P x -> P (f x)) -> Forall P l -> Forall P (update_at f i l).
Proof.
  intros Hf Hl. revert i. induction Hl as [|x l Hx Hl IH]; intros [|i]; cbn; constructor; auto.
Qed.

Lemma route_all_buffer evs s : buffer (fold_left route evs s) = buffer s.
Proof. revert s. induction evs as [|[] evs IH]; intros s; cbn; rewrite ?IH; reflexivity. Qed.

Lemma route_all_set_pose evs s :
  set_pose (fold_left route evs s) = fold_left publish (published evs) (set_pose s).
Proof. revert s. induction evs as [|[] evs IH]; intros s; cbn; rewrite ?IH; reflexivity. Qed.

Lemma correction_wire_ok n stamp v q ts : wire_ok (correction n stamp v q ts).
Proof. split; reflexivity. Qed.

Lemma handle_wire_ok n (x : PyBuffer.timeline * Marker.t) : Forall wire_ok (published (handle n [] x)).
Proof.
  destruct (published_outcome _ _ _ _ (handle_outcome n x)) as [->|(v & q & ts & ->)];
    repeat constructor; apply correction_wire_ok.
Qed.

Lemma publish_all_ok p pms : publisher_ok p -> Forall wire_ok pms -> publisher_ok (fold_left publish pms p).
Proof.
  intros Hp Hw. revert p Hp. induction Hw as [|pm pms Hpm Hw IH]; intros p Hp; [exact Hp|].
  apply IH, publish_ok; assumption.
Qed.

Lemma step_ok s l : system_ok s -> system_ok (step s l).
Proof.
  intros (Hb & H0 & Hc). destruct l as [msgs| |m during|i]; cbn [step].
  - split; [exact (listen_ok _ _ Hb)|]. now split.
  - split; [exact Hb|]. split; [exact H0|]. cbn. apply Forall_app. split; [exact Hc|].
    repeat constructor; apply conn_ok_init.
  - split; [rewrite route_all_buffer; exact (listen_ok _ _ Hb)|].
    rewrite route_all_set_pose. apply publish_all_ok; [now split | apply handle_wire_ok].
  - split; [exact Hb|]. split; [exact H0|]. cbn.
    apply update_at_Forall; [apply conn_ok_flush | exact Hc].
Qed.

Lemma startup_ok ps : system_ok (startup ps).
Proof. split; [reflexivity|]. split; [cbn; lia | constructor]. Qed.

Lemma publish_all_no_conns p pms : pub_conns p = [] -> fold_left publish pms p = p.
Proof.
  intros Hp. induction pms as [|pm pms IH]; [reflexivity|]. cbn [fold_left].
  unfold publish at 2. rewrite Hp. exact IH.
Qed.

Lemma step_no_subscribe s l : l <> Subscribe -> pub_conns (set_pose s) = [] ->
  set_pose (step s l) = set_pose s.
Proof.
  intros Hl Hs. destruct l as [msgs| |m during|i]; cbn [step]; [reflexivity | now destruct Hl | |].
  - rewrite route_all_set_pose. cbn [set_pose with_buffer]. apply publish_all_no_conns, Hs.
  - cbn [set_pose with_pub]. unfold write. rewrite Hs.
    destruct (set_pose s) as [t qs sq cs]. cbn in Hs |- *. subst cs. now destruct i.
Qed.

Lemma steps_no_subscribe labels s :
  ~ In Subscribe labels -> pub_conns (set_pose s) = [] ->
  set_pose (fold_left step labels s) = set_pose s.
Proof.
  revert s. induction labels as [|l labels IH]; intros s Hn Hs; [reflexivity|]. cbn [fold_left].
  assert (E : set_pose (step s l) = set_pose s)
    by (apply step_no_subscribe; [intros ->; apply Hn; now left | exact Hs]).
  rewrite IH, E; [reflexivity | intros H; apply Hn; now right | now rewrite E].
Qed.

(** ** Properties *)

(** One marker message and one round of the writer thread of the only
    connection, whose queue is empty. *)
Lemma deliver_step s m during pm c :
  pub_conns (set_pose s) = [c] -> Publisher.queue c = [] ->
  published (handle (node_of s) [] (PyBuffer.mk_timeline (buffer s) (snapshots (buffer s) during), m)) = [pm] ->
  pub_conns (set_pose (step (step s (MarkerMessage m during)) (Write 0))) =
  [Publisher.mk_state [] (Publisher.sent c ++ [stamp_seq (pub_seq (set_pose s) + 1) pm])].
Proof.
  intros Hc Hq Hp. cbn [step]. cbn [set_pose with_pub write pub_conns].
  rewrite route_all_set_pose, Hp. cbn [fold_left set_pose with_buffer]. unfold publish.
  rewrite Hc. cbn [map pub_conns update_at]. unfold Publisher.flush, Publisher.write_data. rewrite Hq.
  destruct (andb _ _); reflexivity.
Qed.

(** C21: Invariant of the whole process: in every state of every
    interleaving of the listener, the subscribers connecting, the marker
    callback (with the listener storing transforms while it waits) and
    the writer threads, the tf2 buffer keeps its invariant and every
    connection of [/global/set_pose] has sent or queued only well formed
    corrections in [map] at height 0, numbered by rospy with header
    [seq] values in [1 .. seq] that strictly increase in order. *)
Theorem run_system_ok ps labels : system_ok (run ps labels).
Proof.
  unfold run. generalize (startup_ok ps). generalize (startup ps).
  induction labels as [|l labels IH]; intros s Hs; [exact Hs|]. apply IH, step_ok, Hs.
Qed.

(** C31: Until a subscriber has connected to [/global/set_pose], rospy
    drops every correction the node publishes: its [seq] is not even
    counted and no connection exists to receive it. *)
Theorem run_without_subscriber ps labels :
  ~ In Subscribe labels -> set_pose (run ps labels) = set_pose (startup ps).
Proof. intros Hn. apply steps_no_subscribe; [exact Hn | reflexivity]. Qed.

(** C29: Delivery: when the node publishes a correction while one
    subscriber is connected with an empty queue, one round of that
    connection's writer thread delivers it, numbered with the
    publisher's next [seq], after what it had already received. *)
Theorem marker_step_delivers s m during pm c :
  pub_conns (set_pose s) = [c] -> Publisher.queue c = [] ->
  published (handle (node_of s) [] (PyBuffer.mk_timeline (buffer s) (snapshots (buffer s) during), m)) = [pm] ->
  pub_conns (set_pose (step (step s (MarkerMessage m during)) (Write 0))) =
  [Publisher.mk_state [] (Publisher.sent c ++ [stamp_seq (pub_seq (set_pose s) + 1) pm])].
Proof. exact (deliver_step s m during pm c). Qed.

Section Deployed.
Variables (ps : params) (cam : string) (r c d : Transform.t) (m : Marker.t) (v : Vector3.t)
  (q : Quaternion.t) (seq0 seq1 : Z) (stamp0 : Time.t).
Let n := init ps.
Let id := Marker.id m.
Let mount := TransformStamped.mk (Header.mk seq0 stamp0 "base_link") cam c.
Let detection := TransformStamped.mk (Header.mk seq1 (stamp_of m) cam) (PyStr.aruco_frame id) d.
Hypothesis (Hv : Calibration.calib_translation (table n) id = Ok v)
  (Hq : Calibration.calib_rotation (table n) id = Ok q)
  (Hsee : Geo.transform_mul r (Geo.transform_mul c d) = Transform.mk v q)
  (Hc : Geo.qnorm2 (Transform.rotation c) = 1%R) (Hd : Geo.qnorm2 (Transform.rotation d) = 1%R)
  (Hcb : cam <> "base_link") (Hcm : cam <> PyStr.aruco_frame id) (Hce : cam <> "")
  (Hcs : BufferCore.starts_with_slash cam = false) (Hcn : cam <> "NO_PARENT")
  (Ht : BufferCore.time_ns (stamp_of m) <> 0%Z).

(** C36: End to end through the whole process: the listener stores the
    camera mount ([/tf_static]) and an exact detection of a calibrated
    marker ([/tf]), the localisation node subscribes to
    [/global/set_pose], [rospy.spin] delivers the marker message and the
    connection's writer thread runs.  The subscriber has then received
    exactly one message, numbered [seq] 1, and it resets the
    localisation to the robot's true pose (height 0, orientation up to
    sign). *)
Theorem subscriber_receives_robot_pose :
  exists pm,
    pub_conns (set_pose (run ps [TfMessage [(mount, true)]; TfMessage [(detection, false)]; Subscribe;
                                 MarkerMessage m []; Write 0])) =
    [Publisher.mk_state [] [stamp_seq 1 pm]] /\
    same_correction pm (robot_correction n (stamp_of m) r).
Proof.
  set (s := run ps [TfMessage [(mount, true)]; TfMessage [(detection, false)]; Subscribe]).
  set (ans := TransformStamped.mk (Header.mk 0 (stamp_of m) (PyStr.aruco_frame id)) "base_link"
                (Geo.transform_inverse (Geo.transform_mul c d))).
  assert (Hl : lookup_transform (PyBuffer.mk_timeline (deployed_buffer n mount detection) [])
                 (PyStr.aruco_frame id) "base_link" (stamp_of m) duration_half_second = Ok ans)
    by (eapply deployed_lookup; deployment_hyps).
  exists (correction n (stamp_of m) v q ans). split.
  - change (run ps _) with (step (step s (MarkerMessage m [])) (Write 0)).
    rewrite (deliver_step s m [] (correction n (stamp_of m) v q ans) Publisher.init eq_refl eq_refl);
      [reflexivity|].
    exact (handle_publishes n (PyBuffer.mk_timeline (deployed_buffer n mount detection) []) m ans v q Hl Hv Hq).
  - eapply deployed_correction; deployment_hyps.
Qed.
End Deployed.

(** ** Witnesses *)

Lemma run_without_subscriber_witness :
  set_pose (run [] [TfMessage [(Tf2.ex_camera, true)]; MarkerMessage (ex_marker 11) [[]; []]; Write 0])
  = set_pose (startup []).
Proof. apply run_without_subscriber. cbn. intros [H|[H|[H|[]]]]; discriminate. Defined.

(** A subscriber connected after the listener stored the camera mount and
    a detection of marker 11 at 100 s. *)
Lemma marker_step_delivers_witness :
  let s := run [] [TfMessage [(ex_mount, true)]; TfMessage [(ex_detection, false)]; Subscribe] in
  let ts := TransformStamped.mk (Header.mk 0 ex_stamp (PyStr.aruco_frame 11)) "base_link"
              (Geo.transform_inverse (Geo.transform_mul (tf_of ex_mount) (tf_of ex_detection))) in
  let pm := correction (init []) ex_stamp (Vector3.mk (-2.615) 0 0) (Geo.quat_of_euler 1.57 0 1.57) ts in
  pub_conns (set_pose (step (step s (MarkerMessage (ex_marker 11) [])) (Write 0))) =
  [Publisher.mk_state [] ([] ++ [stamp_seq (0 + 1) pm])].
Proof.
  intros s ts pm. apply (marker_step_delivers s (ex_marker 11) [] pm Publisher.init); [reflexivity | reflexivity|].
  apply (handle_publishes (init []) _ (ex_marker 11) ts); [|reflexivity | reflexivity].
  apply py_lookup_now. cbn [PyBuffer.now].
  change (buffer s) with (snd (BufferCore.set_transform (snd (BufferCore.set_transform
            (BufferCore.init 10000000000) ex_mount true)) ex_detection false)).
  erewrite set_transform_mount by first [reflexivity | discriminate | exact qnorm2_qidentity]. cbn [snd].
  erewrite set_transform_chain by first [reflexivity | discriminate | exact qnorm2_qidentity | (cbv; discriminate)].
  cbn [snd]. eapply lookup_chain;
    first [reflexivity | discriminate | exact qnorm2_qidentity | (cbv; discriminate)].
Defined.

Lemma subscriber_receives_robot_pose_witness :
  exists pm,
    pub_conns (set_pose (run [] [TfMessage [(ex_mount, true)];
                                 TfMessage [(TransformStamped.mk (Header.mk 0 ex_stamp "usb_cam")
                                               (PyStr.aruco_frame 11) ex_exact_detection, false)];
                                 Subscribe; MarkerMessage (ex_marker 11) []; Write 0])) =
    [Publisher.mk_state [] [stamp_seq 1 pm]] /\
    same_correction pm (robot_correction (init []) ex_stamp ex_robot).
Proof.
  apply (subscriber_receives_robot_pose [] "usb_cam" ex_robot (tf_of ex_mount) ex_exact_detection
           (ex_marker 11) (Vector3.mk (-2.615) 0 0) (Geo.quat_of_euler 1.57 0 1.57) 0 0 (Time.mk 0 0));
    first [ reflexivity | discriminate | exact qnorm2_ex_detection | exact ex_exact_detection_sees
          | (cbv -[Rplus Rmult]; ring) | (unfold BufferCore.time_ns; cbn; discriminate) ].
Defined.

End System.
