(* ===== verification/Scenarios.v ===== *)
(** The scenarios of the specification, run on the model: the node built
    by [__init__] with no parameters set (the hard-coded table of markers
    11 and 13), a tf2 snapshot that resolves marker 11 to the identity
    transform, and observations of markers 11, 13 and 7. *)
From Stdlib Require Import List ZArith String Reals Lra Psatz Machin.
From S2P Require Import Prelude PyStr Msgs Geometry Kdl Tf Calibration Node.
Import ListNotations.
Open Scope string_scope.
Open Scope list_scope.
Import Node.

(** A snapshot in which no transform is available. *)
Definition empty_buffer : TableBuffer.t := [].

(** The diagonal covariance of the node, written out. *)
Definition default_covariance : list R :=
  [1e-6; 0; 0; 0; 0; 0;
   0; 1e-6; 0; 0; 0; 0;
   0; 0; 1e-6; 0; 0; 0;
   0; 0; 0; 1e-6; 0; 0;
   0; 0; 0; 0; 1e-6; 0;
   0; 0; 0; 0; 0; 1e-6]%R.

(** ** The quaternion of marker 11

    The Euler angles (1.57, 0, 1.57) give a quaternion with scalar part
    [cos²(0.785)], just above 1/2 since 1.57 < pi/2; the matrix KDL builds
    from it has trace [cos 1.57 * (2 + cos 1.57)] > 1e-12, so
    [GetQuaternion] takes its trace branch and returns the quaternion
    itself.  The bound on pi comes from Machin's formula. *)
Lemma PI_gt_3_1415 : 3.1415 < PI.
Proof.
  pose proof (PI_2_3_7_ineq 1) as [H _].
  unfold PI_2_3_7_tg, tg_alt, Ratan_seq in H. cbn -[Rmult Rplus Rdiv Rinv IZR] in H.
  lra.
Qed.

Lemma cos_1_57_pos : 1e-12 < cos 1.57.
Proof.
  pose proof PI_gt_3_1415 as Hpi. pose proof PI_4 as Hpi4.
  rewrite <- sin_shift. set (a := PI / 2 - 1.57).
  assert (Ha : 0.0007 <= a <= 0.5) by (unfold a; lra).
  destruct (SIN a) as [Hs _]; [lra | unfold a; lra |].
  unfold sin_lb, sin_approx, sin_term in Hs. cbn -[Rmult Rplus Rdiv Rinv IZR Ropp] in Hs.
  assert (H2 : a * a <= 0.25) by nra.
  assert (H3 : 0 <= a * a * a * a * a) by (apply Rmult_le_pos; [|lra]; nra).
  nra.
Qed.

Lemma cos_0_785_sq : cos (1.57 / 2) * cos (1.57 / 2) = (1 + cos 1.57) / 2.
Proof.
  pose proof (cos_2a_cos (1.57 / 2)) as H.
  replace (2 * (1.57 / 2)) with 1.57 in H by field. lra.
Qed.

Lemma get_quaternion_marker_11 :
  Kdl.get_quaternion (Kdl.rot_of_quaternion (Geo.quat_of_euler 1.57 0 1.57)) =
  Geo.quat_of_euler 1.57 0 1.57.
Proof.
  pose proof cos_1_57_pos as Hc.
  apply Kdl.get_quaternion_trace_lemma; [apply Geo.qnorm2_quat_of_euler | |]; cbn;
    replace (0 / 2) with 0 by field; rewrite sin_0, cos_0, cos_0_785_sq;
    unfold Kdl.epsilon in *; nra.
Qed.

(** C8: The scenario of the specification: marker 11 seen at t = 100 s,
    tf2 returning the identity transform.  The node logs index 0 and the
    pose it used, and publishes one correction stamped 100 s in [map], at
    the calibrated position (-2.615, 0, 0) with the quaternion of the Euler
    angles (1.57, 0, 1.57) and the covariance diag(1e-6, ..., 1e-6). *)
Theorem scenario_marker_11 :
  events (snd (aruco_callback (init []) ex_buffer (mk_world (ex_marker 11) []))) =
  [LogInfo (LogTranslationUsed 0 [-2.615; 0; 0]%R);
   Publish "/global/set_pose"
     (PoseWithCovarianceStamped.mk (Header.mk 0 (Time.mk 100 0) "map")
        (PoseWithCovariance.mk (Pose.mk (Vector3.mk (-2.615) 0 0) (Geo.quat_of_euler 1.57 0 1.57))
           default_covariance))].
Proof.
  run_cb. cbn -[Kdl.kdl_frame_mul Geo.quat_of_euler Geo.quaternion_from_euler].
  rewrite Geo.quaternion_of_args_euler.
  cbn -[Kdl.kdl_frame_mul Geo.quat_of_euler].
  change (Pose.mk Vector3.default Geo.qidentity) with Geo.identity_pose.
  rewrite Kdl.kdl_frame_mul_identity_pose. cbn [Transform.rotation Transform.translation].
  rewrite get_quaternion_marker_11. reflexivity.
Qed.

(** The other scenario: marker 7 is not calibrated; nothing is sent. *)
Example scenario_marker_7 :
  events (snd (aruco_callback (init []) ex_buffer (mk_world (ex_marker 7) []))) = [].
Proof. reflexivity. Qed.
